(** * The task scheduler: task store, quota monitor, workspaces, executor, flow

    A shallow embedding of [task-scheduler/services/yaml_manager.py],
    [services/token_monitor.py], [services/workspace_manager.py],
    [flows/claude_executor.py] and [flows/task_processor.py].

    Conventions of the embedding.
    - Python [str] is the [string] of the bytes of its UTF-8 encoding: a
      text occurs in another exactly when its bytes do.  The methods that
      read code points, [str.lower] and [str.strip], are [Py.lower] and
      [Py.strip].
    - A Python [dict] whose iteration order no property depends on is a
      [gmap]; a YAML mapping keeps its order and is an association list.
    - Fields have the types their annotations give them; a stored value
      of another type is reported as [IllTyped] when it is loaded.
    - A Python [float] that is known to be finite (a modification time, a
      usage ratio, a threshold) is the rational it denotes, a [Qc];
      comparison of finite floats is comparison of these rationals.
    - The disk performs every operation asked of it: failures of the
      operating system (permissions, full disk) are outside the model.
      Exceptions raised by the Python code itself are modelled.
    - Of what the external process does to the disk the embedding has the
      two scans of the workspace that [execute_task] makes, and no more. *)

From Stdlib Require Import Ascii QArith Qcanon.
From stdpp Require Import numbers gmap strings list fin_maps pretty.

Set Warnings "-register-all".
Local Close Scope Qc_scope.
Local Close Scope Q_scope.
Local Open Scope Z_scope.

(** ** Python strings *)

Module Py.

(** [c.lower()] on one ASCII character: the capitals move by 32. *)
Definition lower_ascii (c : ascii) : ascii :=
  let n := nat_of_ascii c in
  if ((65 <=? n)%nat && (n <=? 90)%nat)%bool then ascii_of_nat (n + 32) else c.

(** The Kelvin sign [U+212A], the capital I with dot above [U+0130] and
    the combining dot above [U+0307], by their bytes. *)
Definition kelvin_sign : string := String "226" (String "132" (String "170" "")).

Definition capital_i_with_dot : string := String "196" (String "176" "").

Definition combining_dot_above : string := String "204" (String "135" "").

(** [s.lower()].  The code points with an ASCII character in their
    lower-case form are the capitals [A] to [Z], the Kelvin sign, which
    becomes [k], and the capital I with dot above, which becomes [i]
    followed by the combining dot above.  The lower-case form of any
    other code point is made of code points beyond ASCII: such a code
    point is left as it is, so that the text returned can differ from the
    one Python returns beyond ASCII only, and a search for an ASCII text
    finds the same in both. *)
Fixpoint lower (s : string) : string :=
  match s with
  | EmptyString => EmptyString
  | String c s1 =>
      match s1 with
      | String c1 s2 =>
          if Ascii.eqb c "196" && Ascii.eqb c1 "176"
          then String "i" (String "204" (String "135" (lower s2)))
          else
            match s2 with
            | String c2 s3 =>
                if Ascii.eqb c "226" && Ascii.eqb c1 "132" && Ascii.eqb c2 "170"
                then String "k" (lower s3)
                else String (lower_ascii c) (lower s1)
            | EmptyString => String (lower_ascii c) (lower s1)
            end
      | EmptyString => String (lower_ascii c) (lower s1)
      end
  end.

(** [s.startswith(p)] *)
Fixpoint startswith (s p : string) {struct p} : bool :=
  match p, s with
  | EmptyString, _ => true
  | String _ _, EmptyString => false
  | String a p', String b s' => if Ascii.eqb a b then startswith s' p' else false
  end.

(** [p in s] on strings: [p] starts at some position of [s]. *)
Fixpoint contains (p s : string) : bool :=
  startswith s p ||
  match s with
  | EmptyString => false
  | String _ s' => contains p s'
  end.

(** [any(f(x) for x in l)] *)
Definition any {A} (f : A → bool) (l : list A) : bool := existsb f l.

(** [f"{n:03d}"] for a non-negative [n]: decimal digits, padded with
    zeros on the left to width three. *)
Definition fmt03d (n : nat) : string :=
  let d := pretty n in
  match String.length d with
  | 1%nat => "00" +:+ d
  | 2%nat => "0" +:+ d
  | _ => d
  end.

(** [x or d] on an optional string: [None] and the empty string are falsy. *)
Definition or_else (x : option string) (d : string) : string :=
  match x with
  | Some s => if String.eqb s "" then d else s
  | None => d
  end.

(** Truth value of an optional string. *)
Definition truthy (x : option string) : bool :=
  match x with
  | Some s => negb (String.eqb s "")
  | None => false
  end.

(** The ASCII characters [str.strip()] removes: tab to carriage return,
    the four separators, the space. *)
Definition is_space (c : ascii) : bool :=
  let n := nat_of_ascii c in
  ((9 <=? n)%nat && (n <=? 13)%nat) || ((28 <=? n)%nat && (n <=? 32)%nat).

(** The white space beyond ASCII that it removes, by the bytes of the
    code points: [U+0085] and [U+00A0] have two bytes; [U+1680], [U+2000]
    to [U+200A], [U+2028], [U+2029], [U+202F], [U+205F] and [U+3000] have
    three. *)
Definition is_space2 (c c1 : ascii) : bool :=
  let n := nat_of_ascii c in
  let n1 := nat_of_ascii c1 in
  (n =? 194)%nat && ((n1 =? 133)%nat || (n1 =? 160)%nat).

Definition is_space3 (c c1 c2 : ascii) : bool :=
  let n := nat_of_ascii c in
  let n1 := nat_of_ascii c1 in
  let n2 := nat_of_ascii c2 in
  ((n =? 225)%nat && (n1 =? 154)%nat && (n2 =? 128)%nat)
  || ((n =? 226)%nat && (n1 =? 128)%nat
      && (((128 <=? n2)%nat && (n2 <=? 138)%nat)
          || (n2 =? 168)%nat || (n2 =? 169)%nat || (n2 =? 175)%nat))
  || ((n =? 226)%nat && (n1 =? 129)%nat && (n2 =? 159)%nat)
  || ((n =? 227)%nat && (n1 =? 128)%nat && (n2 =? 128)%nat).

(** [s.lstrip()] *)
Fixpoint lstrip (s : string) : string :=
  match s with
  | EmptyString => EmptyString
  | String c s1 =>
      if is_space c then lstrip s1
      else
        match s1 with
        | String c1 s2 =>
            if is_space2 c c1 then lstrip s2
            else
              match s2 with
              | String c2 s3 => if is_space3 c c1 c2 then lstrip s3 else s
              | EmptyString => s
              end
        | EmptyString => s
        end
  end.

(** [s] is white space from its first character to its last. *)
Definition all_space (s : string) : bool := String.eqb (lstrip s) "".

(** [s.rstrip()]: what is white space up to the end goes. *)
Fixpoint rstrip (s : string) : string :=
  match s with
  | EmptyString => EmptyString
  | String c s' => if all_space s then EmptyString else String c (rstrip s')
  end.

(** [s.strip()] *)
Definition strip (s : string) : string := rstrip (lstrip s).

(** [l[:n]]: a negative [n] counts from the end. *)
Definition slice_to {A} (n : Z) (l : list A) : list A :=
  if bool_decide (0 ≤ n) then take (Z.to_nat n) l
  else take (length l - Z.to_nat (- n)) l.

End Py.


(** ** YAML documents

    What [yaml.safe_load] returns and [yaml.dump] accepts: scalars, lists
    and mappings with string keys.  A mapping is the association list of
    its entries in file order; a Python [dict] never repeats a key. *)

Module Yaml.

Inductive yaml :=
| YNull
| YBool (b : bool)
| YInt (n : Z)
| YStr (s : string)
| YList (items : list yaml)
| YMap (entries : list (string * yaml)).

(** [d.get(k)] on the entries of a mapping. *)
Fixpoint dict_get (k : string) (d : list (string * yaml)) : option yaml :=
  match d with
  | [] => None
  | (k', v) :: d' => if String.eqb k' k then Some v else dict_get k d'
  end.

(** [d[k] = v]: the entry keeps its place, a new key goes last. *)
Fixpoint dict_set (k : string) (v : yaml) (d : list (string * yaml))
    : list (string * yaml) :=
  match d with
  | [] => [(k, v)]
  | (k', v') :: d' =>
      if String.eqb k' k then (k', v) :: d' else (k', v') :: dict_set k v d'
  end.

Definition of_option (o : option string) : yaml :=
  match o with
  | Some s => YStr s
  | None => YNull
  end.

End Yaml.

Export Yaml.

(** ** Data classes *)

Module TaskConfig.

(** [yaml_manager.TaskConfig].  The fields carry the annotated types;
    [created_at: str = None] is a string on every instance because
    [__post_init__] replaces a missing value by the current time. *)
Record t := {
  id : string;
  title : string;
  description : string;
  prompt_template : string;
  status : string;
  created_at : string;
  started_at : option string;
  completed_at : option string;
  attempts : Z;
  max_attempts : Z;
  last_error : option string;
  session_id : option string;
  workspace_path : option string
}.

(** The arguments of [TaskConfig(...)] as the generated [__init__] binds
    them, defaults filled in, before [__post_init__] runs: [created_at]
    may still be [None]. *)
Record args := {
  a_id : string;
  a_title : string;
  a_description : string;
  a_prompt_template : string;
  a_status : string;
  a_created_at : option string;
  a_started_at : option string;
  a_completed_at : option string;
  a_attempts : Z;
  a_max_attempts : Z;
  a_last_error : option string;
  a_session_id : option string;
  a_workspace_path : option string
}.

(** The instance once [created_at] is known. *)
Definition with_created_at (a : args) (created_at : string) : t :=
  {| id := a_id a; title := a_title a; description := a_description a;
     prompt_template := a_prompt_template a; status := a_status a;
     created_at := created_at; started_at := a_started_at a;
     completed_at := a_completed_at a; attempts := a_attempts a;
     max_attempts := a_max_attempts a; last_error := a_last_error a;
     session_id := a_session_id a; workspace_path := a_workspace_path a |}.

End TaskConfig.

Module WorkspaceInfo.

(** [workspace_manager.WorkspaceInfo]; a [Path] is its string. *)
Record t := {
  task_id : string;
  workspace_path : string;
  created_at : string;
  is_temporary : bool;
  base_template : option string
}.

(** The value the registry file keeps under a task id: the same fields
    without the id. *)
Record entry := {
  e_workspace_path : string;
  e_created_at : string;
  e_is_temporary : bool;
  e_base_template : option string
}.

Definition to_entry (info : t) : entry :=
  {| e_workspace_path := workspace_path info;
     e_created_at := created_at info;
     e_is_temporary := is_temporary info;
     e_base_template := base_template info |}.

Definition of_entry (task_id : string) (e : entry) : t :=
  {| task_id := task_id;
     workspace_path := e_workspace_path e;
     created_at := e_created_at e;
     is_temporary := e_is_temporary e;
     base_template := e_base_template e |}.

End WorkspaceInfo.

Module TokenUsageInfo.

Inductive SubscriptionPlan := PRO | MAX_5X | MAX_20X.

(** [token_monitor.TokenUsageInfo]; [time_until_reset] is the
    [timedelta] in whole seconds. *)
Record t := {
  messages_used : Z;
  messages_limit : Z;
  percentage_used : Qc;
  time_until_reset : option Z;
  plan : option SubscriptionPlan;
  raw_output : string;
  timestamp : string
}.

End TokenUsageInfo.

(** ** The world the scheduler runs in *)

(** Exceptions the Python code raises.  [IllTyped] marks the border of
    the embedding: a stored value that does not have the type the
    [TaskConfig] annotation gives its field. *)
Inductive exn :=
| KeyError (key : string)
| TypeError (msg : string)
| AttributeError (msg : string)
| NameError (name : string)
| IllTyped (field : string).

(** [str(e)] *)
Definition exn_str (e : exn) : string :=
  match e with
  | KeyError key => "'" +:+ key +:+ "'"
  | TypeError msg => msg
  | AttributeError msg => msg
  | NameError name => "name '" +:+ name +:+ "' is not defined"
  | IllTyped field => "ill-typed field " +:+ field
  end.

Inductive result (A : Type) :=
| Ok (a : A)
| Raise (e : exn).

Arguments Ok {A} a.
Arguments Raise {A} e.

(** A step that reads no state: it returns or raises. *)
Definition rbind {A B} (r : result A) (k : A → result B) : result B :=
  match r with
  | Ok a => k a
  | Raise e => Raise e
  end.

Notation "x <~ c1 ;; c2" := (rbind c1 (λ x, c2))
  (at level 100, c1 at next level, right associativity).

(** The tasks file on disk: absent, not parsable as YAML, or a document. *)
Inductive file :=
| Missing
| Unparsable
| Doc (data : yaml).

Record world := {
  (** [config/tasks.yaml] *)
  tasks_file : file;
  (** [datetime.now(timezone.utc).isoformat()]: the k-th reading of the clock *)
  clock : nat → string;
  ticks : nat;
  (** [WorkspaceManager.base_workspace_dir] *)
  base_workspace_dir : string;
  (** [WorkspaceManager.active_workspaces] *)
  active_workspaces : gmap string WorkspaceInfo.t;
  (** [.workspace_registry.json] in that directory; [None] when the file
      does not exist *)
  registry_file : option (gmap string WorkspaceInfo.entry);
  (** the registry files of the other directories, by directory *)
  registry_elsewhere : string → option (gmap string WorkspaceInfo.entry);
  (** the directories that exist *)
  dirs : gset string;
  (** [tempfile.mkdtemp(prefix, dir)]: the directory it picks, given the
      directories that exist *)
  mkdtemp_pick : string → string → gset string → string
}.

Definition set_tasks_file (f : file) (w : world) : world :=
  {| tasks_file := f; clock := clock w; ticks := ticks w;
     base_workspace_dir := base_workspace_dir w;
     active_workspaces := active_workspaces w;
     registry_file := registry_file w;
     registry_elsewhere := registry_elsewhere w; dirs := dirs w;
     mkdtemp_pick := mkdtemp_pick w |}.

Definition set_ticks (n : nat) (w : world) : world :=
  {| tasks_file := tasks_file w; clock := clock w; ticks := n;
     base_workspace_dir := base_workspace_dir w;
     active_workspaces := active_workspaces w;
     registry_file := registry_file w;
     registry_elsewhere := registry_elsewhere w; dirs := dirs w;
     mkdtemp_pick := mkdtemp_pick w |}.

Definition set_active_workspaces (m : gmap string WorkspaceInfo.t) (w : world) : world :=
  {| tasks_file := tasks_file w; clock := clock w; ticks := ticks w;
     base_workspace_dir := base_workspace_dir w;
     active_workspaces := m;
     registry_file := registry_file w;
     registry_elsewhere := registry_elsewhere w; dirs := dirs w;
     mkdtemp_pick := mkdtemp_pick w |}.

Definition set_registry_file (r : option (gmap string WorkspaceInfo.entry)) (w : world)
    : world :=
  {| tasks_file := tasks_file w; clock := clock w; ticks := ticks w;
     base_workspace_dir := base_workspace_dir w;
     active_workspaces := active_workspaces w;
     registry_file := r;
     registry_elsewhere := registry_elsewhere w; dirs := dirs w;
     mkdtemp_pick := mkdtemp_pick w |}.

Definition set_dirs (d : gset string) (w : world) : world :=
  {| tasks_file := tasks_file w; clock := clock w; ticks := ticks w;
     base_workspace_dir := base_workspace_dir w;
     active_workspaces := active_workspaces w;
     registry_file := registry_file w;
     registry_elsewhere := registry_elsewhere w; dirs := d;
     mkdtemp_pick := mkdtemp_pick w |}.

(** A computation reads and changes the world and returns or raises; what
    it changed before raising stays changed. *)
Definition M (A : Type) : Type := world → result A * world.

Definition ret {A} (a : A) : M A := λ w, (Ok a, w).

Definition raise {A} (e : exn) : M A := λ w, (Raise e, w).

Definition bind {A B} (m : M A) (k : A → M B) : M B :=
  λ w, match m w with
       | (Ok a, w') => k a w'
       | (Raise e, w') => (Raise e, w')
       end.

(** [try: m except Exception as e: h(e)] *)
Definition try_except {A} (m : M A) (h : exn → M A) : M A :=
  λ w, match m w with
       | (Ok a, w') => (Ok a, w')
       | (Raise e, w') => h e w'
       end.

Definition lift {A} (r : result A) : M A := λ w, (r, w).

Notation "x <- c1 ;; c2" := (bind c1 (λ x, c2))
  (at level 100, c1 at next level, right associativity).
Notation "c1 ;;; c2" := (bind c1 (λ _, c2))
  (at level 100, right associativity).

(** [datetime.now(timezone.utc).isoformat()] *)
Definition now : M string :=
  λ w, (Ok (clock w (ticks w)), set_ticks (S (ticks w)) w).

(** ** The task store ([services/yaml_manager.py]) *)

Module YamlTaskManager.

Import TaskConfig.

Definition read_file : M file := λ w, (Ok (tasks_file w), w).

(** [yaml.dump(data, f)] into the tasks file *)
Definition write_file (data : yaml) : M unit :=
  λ w, (Ok (), set_tasks_file (Doc data) w).

(** [d[k]] *)
Definition getitem (d : yaml) (k : string) : M yaml :=
  match d with
  | YMap entries =>
      match dict_get k entries with
      | Some v => ret v
      | None => raise (KeyError k)
      end
  | YList _ => raise (TypeError "list indices must be integers or slices, not str")
  | YStr _ => raise (TypeError "string indices must be integers")
  | _ => raise (TypeError "object is not subscriptable")
  end.

(** [d[k] = v] *)
Definition setitem (d : yaml) (k : string) (v : yaml) : M yaml :=
  match d with
  | YMap entries => ret (YMap (dict_set k v entries))
  | YList _ => raise (TypeError "list indices must be integers or slices, not str")
  | _ => raise (TypeError "object does not support item assignment")
  end.

(** [d.get(k, default)] *)
Definition get_default (d : yaml) (k : string) (dflt : yaml) : M yaml :=
  match d with
  | YMap entries => ret (default dflt (dict_get k entries))
  | _ => raise (AttributeError "object has no attribute 'get'")
  end.

(** [for x in v]: the elements of a list, the characters of a string,
    the keys of a mapping. *)
Definition iterate (v : yaml) : M (list yaml) :=
  match v with
  | YList items => ret items
  | YStr s => ret ((λ c, YStr (String c "")) <$> String.list_ascii_of_string s)
  | YMap entries => ret ((λ kv, YStr kv.1) <$> entries)
  | _ => raise (TypeError "object is not iterable")
  end.

Fixpoint mapM {A B} (f : A → M B) (l : list A) : M (list B) :=
  match l with
  | [] => ret []
  | x :: l' => y <- f x ;; ys <- mapM f l' ;; ret (y :: ys)
  end.

(** [asdict(TasksFileMetadata())]: [__post_init__] reads the clock. *)
Definition new_metadata : M yaml :=
  last_updated <- now ;;
  ret (YMap [("version", YStr "1.0"); ("last_updated", YStr last_updated)]).

Definition empty_data : M yaml :=
  meta <- new_metadata ;;
  ret (YMap [("meta", meta); ("tasks", YList [])]).

Definition _load_tasks_data : M yaml :=
  f <- read_file ;;
  match f with
  | Doc YNull => empty_data
  | Doc data => ret data
  | Missing | Unparsable => empty_data
  end.

Definition _save_tasks_data (data : yaml) : M unit :=
  last_updated <- now ;;
  meta <- getitem data "meta" ;;
  meta' <- setitem meta "last_updated" (YStr last_updated) ;;
  data' <- setitem data "meta" meta' ;;
  write_file data'.

Definition _initialize_tasks_file : M unit :=
  initial_data <- empty_data ;;
  _save_tasks_data initial_data.

(** The directory of the tasks file, [config/tasks.yaml]. *)
Definition tasks_dir : string := "config".

(** [path.mkdir(parents=True, exist_ok=True)] on a directory that lies in
    the working directory. *)
Definition make_dir (path : string) : M unit :=
  λ w, (Ok (), set_dirs ({[path]} ∪ dirs w) w).

(** [YamlTaskManager.__init__] *)
Definition init : M unit :=
  make_dir tasks_dir ;;;
  f <- read_file ;;
  match f with
  | Missing => _initialize_tasks_file
  | _ => ret ()
  end.

(** [TaskConfig.__post_init__] *)
Definition __post_init__ (a : TaskConfig.args) : M TaskConfig.t :=
  created_at <- match a_created_at a with
                | Some c => ret c
                | None => now
                end ;;
  ret (with_created_at a created_at).

Definition field_names : list string :=
  [ "id"; "title"; "description"; "prompt_template"; "status"; "created_at";
    "started_at"; "completed_at"; "attempts"; "max_attempts"; "last_error";
    "session_id"; "workspace_path" ].

Definition required_str (kw : list (string * yaml)) (k : string) : result string :=
  match dict_get k kw with
  | None => Raise (TypeError "__init__() missing a required positional argument")
  | Some (YStr s) => Ok s
  | Some _ => Raise (IllTyped k)
  end.

Definition str_arg (kw : list (string * yaml)) (k dflt : string) : result string :=
  match dict_get k kw with
  | None => Ok dflt
  | Some (YStr s) => Ok s
  | Some _ => Raise (IllTyped k)
  end.

Definition opt_str_arg (kw : list (string * yaml)) (k : string)
    : result (option string) :=
  match dict_get k kw with
  | None | Some YNull => Ok None
  | Some (YStr s) => Ok (Some s)
  | Some _ => Raise (IllTyped k)
  end.

Definition int_arg (kw : list (string * yaml)) (k : string) (dflt : Z) : result Z :=
  match dict_get k kw with
  | None => Ok dflt
  | Some (YInt n) => Ok n
  | Some _ => Raise (IllTyped k)
  end.

(** The binding of the keywords [kw] to the parameters of
    [TaskConfig.__init__], with its defaults. *)
Definition bind_kwargs (kw : list (string * yaml)) : result TaskConfig.args :=
  if forallb (λ kv, existsb (String.eqb kv.1) field_names) kw then
    id <~ required_str kw "id" ;;
    title <~ required_str kw "title" ;;
    description <~ required_str kw "description" ;;
    prompt_template <~ str_arg kw "prompt_template" "default" ;;
    status <~ str_arg kw "status" "pending" ;;
    created_at <~ opt_str_arg kw "created_at" ;;
    started_at <~ opt_str_arg kw "started_at" ;;
    completed_at <~ opt_str_arg kw "completed_at" ;;
    attempts <~ int_arg kw "attempts" 0 ;;
    max_attempts <~ int_arg kw "max_attempts" 3 ;;
    last_error <~ opt_str_arg kw "last_error" ;;
    session_id <~ opt_str_arg kw "session_id" ;;
    workspace_path <~ opt_str_arg kw "workspace_path" ;;
    Ok {| a_id := id; a_title := title; a_description := description;
          a_prompt_template := prompt_template; a_status := status;
          a_created_at := created_at; a_started_at := started_at;
          a_completed_at := completed_at; a_attempts := attempts;
          a_max_attempts := max_attempts; a_last_error := last_error;
          a_session_id := session_id; a_workspace_path := workspace_path |}
  else Raise (TypeError "__init__() got an unexpected keyword argument").

(** [TaskConfig] called with the entries of [task_dict] as keywords *)
Definition TaskConfig_kwargs (task_dict : yaml) : M TaskConfig.t :=
  match task_dict with
  | YMap kw => a <- lift (bind_kwargs kw) ;; __post_init__ a
  | _ => raise (TypeError "argument after ** must be a mapping")
  end.

(** [asdict(task)] *)
Definition asdict (task : TaskConfig.t) : yaml :=
  YMap [ ("id", YStr (id task));
         ("title", YStr (title task));
         ("description", YStr (description task));
         ("prompt_template", YStr (prompt_template task));
         ("status", YStr (status task));
         ("created_at", YStr (created_at task));
         ("started_at", Yaml.of_option (started_at task));
         ("completed_at", Yaml.of_option (completed_at task));
         ("attempts", YInt (attempts task));
         ("max_attempts", YInt (max_attempts task));
         ("last_error", Yaml.of_option (last_error task));
         ("session_id", Yaml.of_option (session_id task));
         ("workspace_path", Yaml.of_option (workspace_path task)) ].

Definition load_tasks : M (list TaskConfig.t) :=
  data <- _load_tasks_data ;;
  items <- get_default data "tasks" (YList []) ;;
  task_dicts <- iterate items ;;
  mapM TaskConfig_kwargs task_dicts.

Definition save_tasks (tasks : list TaskConfig.t) : M unit :=
  data <- _load_tasks_data ;;
  data' <- setitem data "tasks" (YList (asdict <$> tasks)) ;;
  _save_tasks_data data'.

(** [f"task-{n:03d}"] *)
Definition task_id_of (n : nat) : string := "task-" +:+ Py.fmt03d n.

(** [any(t.id == task_id for t in tasks)] *)
Definition id_taken (tasks : list TaskConfig.t) (task_id : string) : bool :=
  Py.any (λ t, String.eqb (id t) task_id) tasks.

(** The second candidate of [add_task]: the loop body assigns this same
    value on every round. *)
Definition retry_id (tasks : list TaskConfig.t) : string :=
  task_id_of (length tasks + 1
              + length (List.filter (λ t, Py.startswith (id t) "task-") tasks)).

(** The [while] loop of [add_task], run for at most [fuel] tests of its
    condition; [None] when the loop is still running after them. *)
Fixpoint unique_id_loop (fuel : nat) (tasks : list TaskConfig.t) (task_id : string)
    : option string :=
  match fuel with
  | O => None
  | S fuel' =>
      if id_taken tasks task_id
      then unique_id_loop fuel' tasks (retry_id tasks)
      else Some task_id
  end.

(** [add_task]; [None] when its loop did not end within [fuel] rounds
    (nothing is written in that case). *)
Definition add_task (fuel : nat) (title description prompt_template : string)
    : M (option TaskConfig.t) :=
  tasks <- load_tasks ;;
  match unique_id_loop fuel tasks (task_id_of (length tasks + 1)) with
  | None => ret None
  | Some task_id =>
      new_task <- __post_init__
                    {| a_id := task_id; a_title := title;
                       a_description := description;
                       a_prompt_template := prompt_template;
                       a_status := "pending"; a_created_at := None;
                       a_started_at := None; a_completed_at := None;
                       a_attempts := 0; a_max_attempts := 3;
                       a_last_error := None; a_session_id := None;
                       a_workspace_path := None |} ;;
      save_tasks (tasks ++ [new_task]) ;;;
      ret (Some new_task)
  end.

(** [next((task for task in tasks if task.id == task_id), None)] *)
Definition get_task (task_id : string) : M (option TaskConfig.t) :=
  tasks <- load_tasks ;;
  ret (List.find (λ task, String.eqb (id task) task_id) tasks).

(** One keyword of [update_task(task_id, **updates)].  [set_other] is a
    keyword that names no field: [hasattr] is false for it (or it names a
    method, whose rebinding no field shows). *)
Inductive update :=
| set_id (v : string)
| set_title (v : string)
| set_description (v : string)
| set_prompt_template (v : string)
| set_status (v : string)
| set_created_at (v : string)
| set_started_at (v : option string)
| set_completed_at (v : option string)
| set_attempts (v : Z)
| set_max_attempts (v : Z)
| set_last_error (v : option string)
| set_session_id (v : option string)
| set_workspace_path (v : option string)
| set_other (key : string).

(** [setattr(task, key, value)] *)
Definition setattr (task : TaskConfig.t) (u : update) : TaskConfig.t :=
  let '{| id := i; title := ti; description := d; prompt_template := p;
          status := s; created_at := c; started_at := st; completed_at := co;
          attempts := a; max_attempts := m; last_error := e; session_id := se;
          workspace_path := wp |} := task in
  match u with
  | set_id v => Build_t v ti d p s c st co a m e se wp
  | set_title v => Build_t i v d p s c st co a m e se wp
  | set_description v => Build_t i ti v p s c st co a m e se wp
  | set_prompt_template v => Build_t i ti d v s c st co a m e se wp
  | set_status v => Build_t i ti d p v c st co a m e se wp
  | set_created_at v => Build_t i ti d p s v st co a m e se wp
  | set_started_at v => Build_t i ti d p s c v co a m e se wp
  | set_completed_at v => Build_t i ti d p s c st v a m e se wp
  | set_attempts v => Build_t i ti d p s c st co v m e se wp
  | set_max_attempts v => Build_t i ti d p s c st co a v e se wp
  | set_last_error v => Build_t i ti d p s c st co a m v se wp
  | set_session_id v => Build_t i ti d p s c st co a m e v wp
  | set_workspace_path v => Build_t i ti d p s c st co a m e se v
  | set_other _ => task
  end.

(** The loop of [update_task] over the loaded list: the first task with
    the id gets the updates; [None] when no task has it. *)
Fixpoint update_first (task_id : string) (updates : list update)
    (tasks : list TaskConfig.t) : option (list TaskConfig.t) :=
  match tasks with
  | [] => None
  | task :: rest =>
      if String.eqb (id task) task_id
      then Some (foldl setattr task updates :: rest)
      else (task ::.) <$> update_first task_id updates rest
  end.

Definition update_task (task_id : string) (updates : list update) : M bool :=
  tasks <- load_tasks ;;
  match update_first task_id updates tasks with
  | Some tasks' => save_tasks tasks' ;;; ret true
  | None => ret false
  end.

Definition delete_task (task_id : string) : M bool :=
  tasks <- load_tasks ;;
  let original_count := length tasks in
  let tasks := List.filter (λ task, negb (String.eqb (id task) task_id)) tasks in
  if (length tasks <? original_count)%nat
  then save_tasks tasks ;;; ret true
  else ret false.

Definition get_tasks_by_status (status : string) : M (list TaskConfig.t) :=
  tasks <- load_tasks ;;
  ret (List.filter (λ task, String.eqb (TaskConfig.status task) status) tasks).

Definition get_pending_tasks : M (list TaskConfig.t) := get_tasks_by_status "pending".

Definition mark_task_running (task_id : string) (session_id : option string) : M bool :=
  started_at <- now ;;
  probe <- get_task task_id ;;
  attempts <- match probe with
              | Some _ =>
                  task <- get_task task_id ;;
                  match task with
                  | Some task => ret (attempts task + 1)
                  | None =>
                      raise (AttributeError
                               "'NoneType' object has no attribute 'attempts'")
                  end
              | None => ret 1
              end ;;
  let updates :=
    [set_status "running"; set_started_at (Some started_at); set_attempts attempts]
    ++ (if Py.truthy session_id then [set_session_id session_id] else []) in
  update_task task_id updates.

Definition mark_task_completed (task_id : string) : M bool :=
  completed_at <- now ;;
  update_task task_id
    [set_status "completed"; set_completed_at (Some completed_at); set_last_error None].

Definition mark_task_failed (task_id error : string) : M bool :=
  completed_at <- now ;;
  update_task task_id
    [set_status "failed"; set_completed_at (Some completed_at);
     set_last_error (Some error)].

Definition mark_task_paused (task_id reason : string) : M bool :=
  update_task task_id [set_status "paused"; set_last_error (Some reason)].

Definition reset_task (task_id : string) : M bool :=
  update_task task_id
    [set_status "pending"; set_started_at None; set_completed_at None;
     set_last_error None; set_session_id None].

Definition get_running_tasks : M (list TaskConfig.t) := get_tasks_by_status "running".

Definition get_failed_tasks : M (list TaskConfig.t) := get_tasks_by_status "failed".

(** The dictionary [get_task_statistics] returns, a field for each key. *)
Record statistics := {
  total : nat;
  pending : nat;
  running : nat;
  completed : nat;
  failed : nat;
  paused : nat
}.

Definition get_task_statistics : M statistics :=
  tasks <- load_tasks ;;
  let count (s : string) : nat :=
    length (List.filter (λ t, String.eqb (status t) s) tasks) in
  ret {| total := length tasks;
         pending := count "pending";
         running := count "running";
         completed := count "completed";
         failed := count "failed";
         paused := count "paused" |}.

End YamlTaskManager.

(** ** The quota monitor ([services/token_monitor.py]) *)

Module TokenMonitor.

Import TokenUsageInfo.

Record t := {
  warning_threshold : Qc;
  critical_threshold : Qc
}.

(** [TokenMonitor()]: the doubles written [0.8] and [0.95]. *)
Definition default : t :=
  {| warning_threshold := Q2Qc (Qmake 3602879701896397 4503599627370496);
     critical_threshold := Q2Qc (Qmake 4278419646001971 4503599627370496) |}.

Section format.

(** [f"{x:.1%}"]: the rounding of the float to one decimal of a percent is
    taken as given. *)
Variable format_percent : Qc → string.

(** [can_run_tasks], given what [check_token_status] returned. *)
Definition can_run_tasks (self : t) (status : option TokenUsageInfo.t) : bool * string :=
  match status with
  | None => (false, "Could not check Claude Code token status")
  | Some status =>
      if bool_decide (critical_threshold self ≤ percentage_used status)%Qc then
        let time_str :=
          match time_until_reset status with
          | Some seconds =>
              if bool_decide (seconds = 0) then ""
              else
                let hours := seconds / 3600 in
                let minutes := (seconds mod 3600) / 60 in
                " (resets in " +:+ pretty hours +:+ "h " +:+ pretty minutes +:+ "m)"
          | None => ""
          end in
        (false,
         "Token usage at " +:+ format_percent (percentage_used status)
         +:+ ", above critical threshold" +:+ time_str)
      else (true, "Token usage within acceptable limits")
  end.

End format.

(** [plan.value] *)
Definition plan_value (p : SubscriptionPlan) : string :=
  match p with
  | PRO => "pro"
  | MAX_5X => "max5"
  | MAX_20X => "max20"
  end.

(** How the [/status] subprocess of [check_token_status] ended: it
    exited, or [subprocess.run] raised (a timeout or anything else). *)
Inductive status_process :=
| StatusExited (stdout stderr : string) (returncode : Z)
| StatusRaised.

(** What a search for the time that remains found: the two groups of the
    first two patterns, or the one group of the last two with the text
    that matched. *)
Inductive time_found :=
| two_groups (hours minutes : Z)
| one_group (n : Z) (matched : string).

(** [timedelta(hours=hours, minutes=minutes)] in seconds, for arguments
    that are not negative; beyond 999999999 days the constructor raises
    [OverflowError]. *)
Definition timedelta (hours minutes : Z) : option Z :=
  let seconds := hours * 3600 + minutes * 60 in
  if bool_decide (seconds < 1000000000 * 86400) then Some seconds else None.

(** The plan of a limit. *)
Definition plan_of_limit (messages_limit : Z) : option SubscriptionPlan :=
  if bool_decide (messages_limit ≤ 50) then Some PRO
  else if bool_decide (messages_limit ≤ 250) then Some MAX_5X
  else if bool_decide (messages_limit ≤ 1000) then Some MAX_20X
  else None.

(** The summary [get_usage_summary] returns when the status is known, a
    field for each key. *)
Record summary_fields := {
  s_status : string;
  s_messages_used : Z;
  s_messages_limit : Z;
  s_percentage_used : string;
  s_plan : string;
  s_time_until_reset : string;
  s_can_run_tasks : bool;
  s_warning_active : bool;
  s_last_check : string
}.

Inductive usage_summary :=
| summary_unknown (message : string)
| summary_known (fields : summary_fields).

(** [usage_summary.get("status")] *)
Definition summary_status (s : usage_summary) : string :=
  match s with
  | summary_unknown _ => "unknown"
  | summary_known fields => s_status fields
  end.

Section status.

(** Taken as given: the regular-expression searches of
    [_parse_status_output] (the first message pattern that matches with
    its two numbers, the stand-alone usage number, the first time pattern
    that matches; a group of digits is the number it denotes), the float
    quotient of two integers ([None] when Python raises [OverflowError]),
    and the printing of percentages, durations and dates. *)
Variable search_messages : string → option (Z * Z).
Variable search_usage : string → option Z.
Variable search_time : string → option time_found.
Variable true_div : Z → Z → option Qc.
Variable format_percent : Qc → string.
Variable str_timedelta : Z → string.
Variable strftime : string → string.

(** [_parse_status_output]; [timestamp] is the reading of the clock.
    [None] when the body raised and the handler returned [None]. *)
Definition _parse_status_output (output timestamp : string) : option TokenUsageInfo.t :=
  let '(messages_used, messages_limit) :=
    match search_messages output with
    | Some found => found
    | None => (0, 0)
    end in
  let '(messages_used, messages_limit) :=
    if bool_decide (messages_limit = 0) then
      match search_usage output with
      | Some used =>
          (used,
           if bool_decide (used ≤ 50) then 45
           else if bool_decide (used ≤ 250) then 225
           else 900)
      | None => (messages_used, messages_limit)
      end
    else (messages_used, messages_limit) in
  time_until_reset ←
    match search_time output with
    | None => Some None
    | Some (two_groups hours minutes) => Some <$> timedelta hours minutes
    | Some (one_group n matched) =>
        if Py.contains "h" matched || Py.contains "hour" matched
        then Some <$> timedelta n 0
        else Some <$> timedelta 0 n
    end ;
  let plan := plan_of_limit messages_limit in
  percentage_used ←
    (if bool_decide (0 < messages_limit)
     then true_div messages_used messages_limit
     else Some (Q2Qc 0)) ;
  Some {| messages_used := messages_used;
          messages_limit := messages_limit;
          percentage_used := percentage_used;
          time_until_reset := time_until_reset;
          plan := plan;
          raw_output := output;
          timestamp := timestamp |}.

(** [check_token_status], given how the subprocess ended. *)
Definition check_token_status (p : status_process) (timestamp : string)
    : option TokenUsageInfo.t :=
  match p with
  | StatusExited stdout _ returncode =>
      if bool_decide (returncode = 0) then _parse_status_output stdout timestamp
      else None
  | StatusRaised => None
  end.

(** [get_usage_summary], given what [check_token_status] returned. *)
Definition get_usage_summary (self : t) (status : option TokenUsageInfo.t)
    : usage_summary :=
  match status with
  | None => summary_unknown "Could not retrieve token status"
  | Some status =>
      summary_known
        {| s_status :=
             if bool_decide (percentage_used status < critical_threshold self)%Qc
             then "ok" else "critical";
           s_messages_used := messages_used status;
           s_messages_limit := messages_limit status;
           s_percentage_used := format_percent (percentage_used status);
           s_plan :=
             match plan status with
             | Some p => plan_value p
             | None => "unknown"
             end;
           s_time_until_reset :=
             match time_until_reset status with
             | Some seconds =>
                 if bool_decide (seconds = 0) then "unknown"
                 else str_timedelta seconds
             | None => "unknown"
             end;
           s_can_run_tasks :=
             bool_decide (percentage_used status < critical_threshold self)%Qc;
           s_warning_active :=
             bool_decide (warning_threshold self ≤ percentage_used status)%Qc;
           s_last_check := strftime (timestamp status) |}
  end.

(** [get_estimated_tasks_remaining], given what [check_token_status]
    returned. *)
Definition get_estimated_tasks_remaining (status : option TokenUsageInfo.t) : Z :=
  match status with
  | None => 0
  | Some status =>
      let remaining_messages := messages_limit status - messages_used status in
      Z.max 0 (remaining_messages / 10)
  end.

End status.

End TokenMonitor.

(** ** The workspace manager ([services/workspace_manager.py]) *)

Module WorkspaceManager.

Import WorkspaceInfo.

(** [a / b] on paths *)
Definition joinpath (a b : string) : string := a +:+ "/" +:+ b.

Definition get_world : M world := λ w, (Ok w, w).

(** [path.exists()] *)
Definition path_exists (path : string) : M bool :=
  λ w, (Ok (bool_decide (path ∈ dirs w)), w).

(** [path.mkdir(exist_ok=True)] *)
Definition mkdir (path : string) : M unit :=
  λ w, (Ok (), set_dirs ({[path]} ∪ dirs w) w).

(** [path] is [root] or lies below it. *)
Definition under (root path : string) : bool :=
  String.eqb path root || Py.startswith path (root +:+ "/").

(** [shutil.rmtree(root)]: the directory goes with all below it. *)
Definition rmtree (root : string) : M unit :=
  λ w, (Ok (), set_dirs (filter (λ d, under root d = false) (dirs w)) w).

(** [tempfile.mkdtemp(prefix=prefix, dir=dir)] *)
Definition mkdtemp (prefix dir : string) : M string :=
  λ w, let path := mkdtemp_pick w prefix dir (dirs w) in
       (Ok path, set_dirs ({[path]} ∪ dirs w) w).

(** The image of [d], a directory below [src], below [dst]. *)
Definition relocate (src dst d : string) : string :=
  dst +:+ String.substring (String.length src)
            (String.length d - String.length src) d.

(** The loop of [_apply_workspace_template]: every directory below the
    template is copied below the workspace. *)
Definition copy_contents (src dst : string) : M unit :=
  λ w, let below : gset string :=
         filter (λ d, Py.startswith d (src +:+ "/") = true) (dirs w) in
       (Ok (), set_dirs (dirs w ∪ set_map (relocate src dst) below) w).

Definition _save_workspace_registry : M unit :=
  λ w, (Ok (), set_registry_file (Some (to_entry <$> active_workspaces w)) w).

(** The registry file in the directory [base]. *)
Definition registry_in (base : string) (w : world)
    : option (gmap string WorkspaceInfo.entry) :=
  if bool_decide (base = base_workspace_dir w) then registry_file w
  else registry_elsewhere w base.

(** [WorkspaceManager.__init__] with [_load_workspace_registry]: the
    entries of the registry file of the base directory whose directory
    exists.  The manager made has [base_workspace_dir] for its base
    directory, so the registry file of the world is from now on the one
    in that directory; every directory keeps the registry file it has. *)
Definition init (base_workspace_dir : string) : M unit :=
  λ w, let w := set_dirs ({[base_workspace_dir]} ∪ dirs w) w in
       let registry := registry_in base_workspace_dir w in
       let loaded : gmap string WorkspaceInfo.t :=
         match registry with
         | Some data =>
             map_imap (λ task_id e,
                         if bool_decide (e_workspace_path e ∈ dirs w)
                         then Some (of_entry task_id e) else None) data
         | None => ∅
         end in
       (Ok (),
        {| tasks_file := tasks_file w; clock := clock w; ticks := ticks w;
           base_workspace_dir := base_workspace_dir;
           active_workspaces := loaded;
           registry_file := registry;
           registry_elsewhere := (λ base, registry_in base w);
           dirs := dirs w;
           mkdtemp_pick := mkdtemp_pick w |}).

(** [_create_basic_workspace]: the three directories are made; building
    the text of the readme then evaluates [datetime.now()], and the module
    binds no name [datetime] (its two imports of it are local to
    [create_workspace] and [backup_workspace]), so the call raises
    [NameError] before the readme is written. *)
Definition _create_basic_workspace (workspace_path : string) : M unit :=
  mkdir (joinpath workspace_path "src") ;;;
  mkdir (joinpath workspace_path "docs") ;;;
  mkdir (joinpath workspace_path ".claude") ;;;
  raise (NameError "datetime").

Definition _apply_workspace_template (workspace_path template_name : string) : M unit :=
  let template_dir := joinpath (joinpath "templates" "workspaces") template_name in
  found <- path_exists template_dir ;;
  if found then copy_contents template_dir workspace_path
  else _create_basic_workspace workspace_path.

Definition register (task_id : string) (info : WorkspaceInfo.t) : M unit :=
  λ w, (Ok (), set_active_workspaces (<[task_id := info]> (active_workspaces w)) w).

Definition create_workspace (task_id : string) (template_name : option string)
    (temporary : bool) : M string :=
  w <- get_world ;;
  match active_workspaces w !! task_id with
  | Some info => ret (workspace_path info)
  | None =>
      workspace_path <-
        (if temporary
         then mkdtemp ("task_" +:+ task_id +:+ "_") (base_workspace_dir w)
         else (let path := joinpath (base_workspace_dir w) task_id in
               mkdir path ;;; ret path)) ;;
      match template_name with
      | Some name =>
          if Py.truthy template_name
          then _apply_workspace_template workspace_path name
          else _create_basic_workspace workspace_path
      | None => _create_basic_workspace workspace_path
      end ;;;
      created_at <- now ;;
      register task_id
        {| task_id := task_id; workspace_path := workspace_path;
           created_at := created_at; is_temporary := temporary;
           base_template := template_name |} ;;;
      _save_workspace_registry ;;;
      ret workspace_path
  end.

Definition get_workspace (task_id : string) : M (option string) :=
  w <- get_world ;;
  match active_workspaces w !! task_id with
  | Some info =>
      if bool_decide (workspace_path info ∈ dirs w)
      then ret (Some (workspace_path info)) else ret None
  | None => ret None
  end.

Definition unregister (task_id : string) : M unit :=
  λ w, (Ok (), set_active_workspaces (delete task_id (active_workspaces w)) w).

Definition cleanup_workspace (task_id : string) (force : bool) : M bool :=
  w <- get_world ;;
  match active_workspaces w !! task_id with
  | None => ret true
  | Some info =>
      if negb (is_temporary info) && negb force then ret false
      else
        found <- path_exists (workspace_path info) ;;
        (if found then rmtree (workspace_path info) else ret ()) ;;;
        unregister task_id ;;;
        _save_workspace_registry ;;;
        ret true
  end.

(** The second loop of [cleanup_all_temporary_workspaces]. *)
Fixpoint cleanup_each (task_ids : list string) (cleaned_count : nat) : M nat :=
  match task_ids with
  | [] => ret cleaned_count
  | task_id :: rest =>
      cleaned <- cleanup_workspace task_id false ;;
      cleanup_each rest (if cleaned then S cleaned_count else cleaned_count)
  end.

(** The ids its first loop collects. *)
Definition temporary_ids (active : gmap string WorkspaceInfo.t) : list string :=
  (filter (λ kv : string * WorkspaceInfo.t, is_temporary kv.2 = true)
     (map_to_list active)).*1.

Definition cleanup_all_temporary_workspaces : M nat :=
  w <- get_world ;;
  cleanup_each (temporary_ids (active_workspaces w)) 0.

Definition list_workspaces : M (list WorkspaceInfo.t) :=
  w <- get_world ;;
  ret ((map_to_list (active_workspaces w)).*2).

End WorkspaceManager.

(** ** The execution adapter ([flows/claude_executor.py]) *)

Module ClaudeResult.

(** What one run of the external process gave. *)
Record t := {
  stdout : string;
  stderr : string;
  return_code : Z;
  session_id : option string;
  error_message : option string
}.

End ClaudeResult.

Module ClaudeExecutionResult.

Record t := {
  success : bool;
  stdout : string;
  stderr : string;
  return_code : Z;
  execution_time : Qc;
  changed_files : list string;
  workspace_path : string;
  session_id : option string;
  error_message : option string;
  token_limit_hit : bool
}.

End ClaudeExecutionResult.

Module ClaudeCodeExecutor.

Import ClaudeExecutionResult.

(** How [subprocess.run] ended: the process exited, the timeout expired,
    or the call raised something else (its message). *)
Inductive process :=
| Exited (out err : string) (code : Z)
| TimeoutExpired
| Raised (msg : string).

(** What the adapter observes during one execution: the two scans of the
    workspace (relative path to modification time), the process, and the
    wall-clock time that passed. *)
Record observation := {
  initial_files : gmap string Qc;
  final_files : gmap string Qc;
  proc : process;
  elapsed : Qc
}.

Definition default_timeout : Z := 300.

Definition limit_indicators : list string :=
  [ "rate limit"; "usage limit"; "token limit"; "quota exceeded";
    "limit reached"; "too many requests"; "capacity limit" ].

Definition _check_token_limit_in_output (stdout stderr : string) : bool :=
  let combined_output := Py.lower (stdout +:+ stderr) in
  Py.any (λ indicator, Py.contains indicator combined_output) limit_indicators.

(** [for file_path in files]: the keys of a scan. *)
Definition keys (files : gmap string Qc) : list string := (map_to_list files).*1.

(** The test of the first loop of [_detect_file_changes]. *)
Definition is_new (initial_files : gmap string Qc) (file_path : string) : Prop :=
  initial_files !! file_path = None.

(** The test of its second loop. *)
Definition is_modified (initial_files final_files : gmap string Qc)
    (file_path : string) : Prop :=
  match initial_files !! file_path, final_files !! file_path with
  | Some t0, Some t1 => (t0 < t1)%Qc
  | _, _ => False
  end.

#[global] Instance is_new_dec i f : Decision (is_new i f).
Proof. unfold is_new. apply _. Defined.

#[global] Instance is_modified_dec i fin f : Decision (is_modified i fin f).
Proof. unfold is_modified. destruct (i !! f), (fin !! f); apply _. Defined.

Definition _detect_file_changes (initial_files final_files : gmap string Qc)
    (workspace_path : string) : list string :=
  filter (is_new initial_files) (keys final_files)
  ++ filter (is_modified initial_files final_files) (keys initial_files).

Definition ignore_patterns : list string :=
  [ ".git"; "__pycache__"; "*.pyc"; ".DS_Store"; "node_modules"; ".venv"; ".env" ].

(** [_should_ignore_file], on the text of the path: each pattern is
    looked for as a piece of that text. *)
Definition _should_ignore_file (file_path : string) : bool :=
  Py.any (λ pattern, Py.contains pattern file_path) ignore_patterns.

(** [_get_workspace_files].  [tree] holds the regular files that
    [workspace_path.rglob] finds, by their path relative to the workspace,
    with their modification times; the path that is tested is the one
    [rglob] yields, the workspace path joined with the relative path (the
    workspace path has a name: it is not [.] or the root). *)
Definition _get_workspace_files (tree : gmap string Qc) (workspace_path : string)
    : gmap string Qc :=
  filter (λ kv : string * Qc,
            _should_ignore_file (WorkspaceManager.joinpath workspace_path kv.1) = false)
    tree.

(** [_create_prompt_file]: the directory [.claude] of the workspace is
    made if it is not there.  The prompt file written into it is a file,
    and the world holds directories. *)
Definition _create_prompt_file (workspace_path prompt : string) : M unit :=
  WorkspaceManager.mkdir (WorkspaceManager.joinpath workspace_path ".claude").

(** How [claude-code --version] ended. *)
Inductive version_probe :=
| ProbeExited (stdout stderr : string) (returncode : Z)
| ProbeTimeoutExpired
| ProbeFileNotFound
| ProbeRaised (msg : string).

(** [check_claude_availability], given how the probe ended. *)
Definition check_claude_availability (p : version_probe) : bool * string :=
  match p with
  | ProbeExited stdout stderr returncode =>
      if bool_decide (returncode = 0)
      then (true, "Claude Code available: " +:+ Py.strip stdout)
      else (false, "Claude Code not working: " +:+ stderr)
  | ProbeTimeoutExpired => (false, "Claude Code command timed out")
  | ProbeFileNotFound => (false, "Claude Code not found in PATH")
  | ProbeRaised msg => (false, "Error checking Claude Code: " +:+ msg)
  end.

Section session.

(** [_extract_session_id]: the regular-expression search of the output
    for a session identifier is taken as given. *)
Variable _extract_session_id : string → option string.

Definition run_result (session : option string) (out err : string) (code : Z)
    : ClaudeResult.t :=
  {| ClaudeResult.stdout := out;
     ClaudeResult.stderr := err;
     ClaudeResult.return_code := code;
     ClaudeResult.session_id := session;
     ClaudeResult.error_message := if bool_decide (code = 0) then None else Some err |}.

Definition _start_new_claude_session (out err : string) (code : Z) : ClaudeResult.t :=
  run_result (_extract_session_id out) out err code.

Definition _resume_claude_session (session_id : string) (out err : string) (code : Z)
    : ClaudeResult.t :=
  run_result (Some session_id) out err code.

(** What [execute_task] returns, given what the execution shows. *)
Definition execute_task (workspace_path prompt : string) (auto_accept : bool)
    (session_id : option string) (timeout : option Z) (obs : observation)
    : ClaudeExecutionResult.t :=
  let timeout := default default_timeout timeout in
  match proc obs with
  | Exited out err code =>
      let result :=
        match session_id with
        | Some sid =>
            if String.eqb sid "" then _start_new_claude_session out err code
            else _resume_claude_session sid out err code
        | None => _start_new_claude_session out err code
        end in
      let changed_files :=
        _detect_file_changes (initial_files obs) (final_files obs) workspace_path in
      let token_limit_hit :=
        _check_token_limit_in_output (ClaudeResult.stdout result)
          (ClaudeResult.stderr result) in
      {| success := bool_decide (ClaudeResult.return_code result = 0)
                    && negb token_limit_hit;
         stdout := ClaudeResult.stdout result;
         stderr := ClaudeResult.stderr result;
         return_code := ClaudeResult.return_code result;
         execution_time := elapsed obs;
         changed_files := changed_files;
         workspace_path := workspace_path;
         session_id := ClaudeResult.session_id result;
         error_message := ClaudeResult.error_message result;
         token_limit_hit := token_limit_hit |}
  | TimeoutExpired =>
      {| success := false;
         stdout := "";
         stderr := "Claude Code execution timed out";
         return_code := -1;
         execution_time := elapsed obs;
         changed_files := [];
         workspace_path := workspace_path;
         session_id := None;
         error_message :=
           Some ("Execution timed out after " +:+ pretty timeout +:+ " seconds");
         token_limit_hit := false |}
  | Raised msg =>
      {| success := false;
         stdout := "";
         stderr := msg;
         return_code := -1;
         execution_time := elapsed obs;
         changed_files := [];
         workspace_path := workspace_path;
         session_id := None;
         error_message := Some ("Execution failed: " +:+ msg);
         token_limit_hit := false |}
  end.

(** A call of [execute_task]: before the process starts, the prompt file
    is made in the workspace; the call then returns the result above. *)
Definition execute_task_call (workspace_path prompt : string) (auto_accept : bool)
    (session_id : option string) (timeout : option Z) (obs : observation)
    : M ClaudeExecutionResult.t :=
  _create_prompt_file workspace_path prompt ;;;
  ret (execute_task workspace_path prompt auto_accept session_id timeout obs).

End session.

End ClaudeCodeExecutor.

(** ** The flow ([flows/task_processor.py]) *)

Module TaskProcessor.

Import ClaudeCodeExecutor.

(** The dictionary [process_single_task] returns. *)
Record task_result := {
  r_task_id : string;
  r_success : bool;
  r_error : option string;
  r_status : string;
  r_changed_files : list string;
  r_session_id : option string;
  r_continue_processing : bool
}.

(** The dictionary [check_token_limits] returns. *)
Record token_check := {
  can_proceed : bool;
  reason : string;
  usage_summary : TokenMonitor.usage_summary;
  wait_for_reset : bool
}.

(** What one run of [process_tasks_flow] meets outside the scheduler:
    how the version probe ended, what the two status checks of
    [check_token_limits] returned, what [wait_for_token_reset] answered
    (its polling and sleeping are not embedded), and, for the task at
    position [k] of the pending list on its [j]-th try, what the status
    check returned and what the execution showed. *)
Record flow_inputs := {
  availability : version_probe;
  first_status : option TokenUsageInfo.t;
  second_status : option TokenUsageInfo.t;
  wait_success : bool;
  task_status : nat → nat → option TokenUsageInfo.t;
  task_observation : nat → nat → observation
}.

(** An entry of the flow's [results]: the dictionary of
    [process_single_task], or the one the flow makes when the call
    raised. *)
Inductive flow_entry :=
| processed_entry (result : task_result)
| failed_entry (task_id error : string).

(** The dictionary [process_tasks_flow] returns; a key that is absent is
    [None]. *)
Record flow_result := {
  f_success : bool;
  f_error : option string;
  f_processed : nat;
  f_results : list flow_entry;
  f_message : option string;
  f_cleanup_count : option nat;
  f_timestamp : option string
}.

(** The dictionary [cleanup_flow] returns. *)
Record cleanup_result := {
  cleaned_workspaces : nat;
  reset_tasks : nat;
  c_timestamp : string
}.

(** The dictionary [get_task_status_flow] returns. *)
Record status_report := {
  task_statistics : YamlTaskManager.statistics;
  token_usage : TokenMonitor.usage_summary;
  active_workspaces_count : nat;
  s_timestamp : string
}.

(** A Prefect task declared with [retries]: a call that raises is made
    again, at most [retries] more times; [call j] is the [j]-th try. *)
Fixpoint retried {A} (retries : nat) (j : nat) (call : nat → M A) : M A :=
  match retries with
  | O => call j
  | S n => try_except (call j) (λ _, retried n (S j) call)
  end.

Section flow.

(** Text functions taken as given: the prompt rendered from a template,
    the session identifier found in the output, the percentage printed. *)
Variable generate_prompt_from_template : string → string → string → string.
Variable _extract_session_id : string → option string.
Variable format_percent : Qc → string.

(** [process_single_task].  [token_status] is what the quota check
    returns when asked, [obs] what the execution shows. *)
Definition process_single_task (task_config : TaskConfig.t)
    (token_monitor : TokenMonitor.t) (token_status : option TokenUsageInfo.t)
    (obs : observation) (timeout : Z) : M task_result :=
  let task_id := TaskConfig.id task_config in
  try_except
    (YamlTaskManager.mark_task_running task_id None ;;;
     let '(can_run, reason) :=
       TokenMonitor.can_run_tasks format_percent token_monitor token_status in
     if negb can_run then
       YamlTaskManager.mark_task_paused task_id reason ;;;
       ret {| r_task_id := task_id; r_success := false; r_error := Some reason;
              r_status := "paused"; r_changed_files := []; r_session_id := None;
              r_continue_processing := false |}
     else
       workspace_path <- WorkspaceManager.create_workspace task_id None true ;;
       YamlTaskManager.update_task task_id
         [YamlTaskManager.set_workspace_path (Some workspace_path)] ;;;
       let prompt :=
         generate_prompt_from_template (TaskConfig.prompt_template task_config)
           (TaskConfig.title task_config) (TaskConfig.description task_config) in
       execution_result <-
         execute_task_call _extract_session_id workspace_path prompt true
           (TaskConfig.session_id task_config) (Some timeout) obs ;;
       if ClaudeExecutionResult.success execution_result then
         YamlTaskManager.mark_task_completed task_id ;;;
         ret {| r_task_id := task_id; r_success := true; r_error := None;
                r_status := "completed";
                r_changed_files :=
                  ClaudeExecutionResult.changed_files execution_result;
                r_session_id := None; r_continue_processing := true |}
       else if ClaudeExecutionResult.token_limit_hit execution_result then
         (if Py.truthy (ClaudeExecutionResult.session_id execution_result)
          then YamlTaskManager.update_task task_id
                 [YamlTaskManager.set_session_id
                    (ClaudeExecutionResult.session_id execution_result)]
          else ret false) ;;;
         YamlTaskManager.mark_task_paused task_id
           "Token limit reached during execution" ;;;
         ret {| r_task_id := task_id; r_success := false;
                r_error := Some "Token limit reached"; r_status := "paused";
                r_changed_files := [];
                r_session_id := ClaudeExecutionResult.session_id execution_result;
                r_continue_processing := false |}
       else
         let error_msg :=
           Py.or_else (ClaudeExecutionResult.error_message execution_result)
             "Claude Code execution failed" in
         status <-
           (if bool_decide (TaskConfig.max_attempts task_config
                            ≤ TaskConfig.attempts task_config)
            then YamlTaskManager.mark_task_failed task_id error_msg ;;; ret "failed"
            else YamlTaskManager.reset_task task_id ;;; ret "pending") ;;
         ret {| r_task_id := task_id; r_success := false; r_error := Some error_msg;
                r_status := status; r_changed_files := []; r_session_id := None;
                r_continue_processing := true |})
    (λ e,
       YamlTaskManager.mark_task_failed task_id
         ("Unexpected error: " +:+ exn_str e) ;;;
       ret {| r_task_id := task_id; r_success := false; r_error := Some (exn_str e);
              r_status := "failed"; r_changed_files := []; r_session_id := None;
              r_continue_processing := true |}).

(** [get_pending_tasks]: the pending tasks, then the paused ones that
    hold a session id, cut to [max_tasks]. *)
Definition get_pending_tasks (max_tasks : Z) : M (list TaskConfig.t) :=
  pending_tasks <- YamlTaskManager.get_pending_tasks ;;
  paused_tasks <- YamlTaskManager.get_tasks_by_status "paused" ;;
  let resumable_tasks :=
    List.filter (λ task, Py.truthy (TaskConfig.session_id task)) paused_tasks in
  ret (Py.slice_to max_tasks (pending_tasks ++ resumable_tasks)).

(** Printing of durations and dates, taken as given. *)
Variable str_timedelta : Z → string.
Variable strftime : string → string.

(** [check_token_limits], given what the status check of [can_run_tasks]
    and the one of [get_usage_summary] returned. *)
Definition check_token_limits (token_monitor : TokenMonitor.t)
    (first second : option TokenUsageInfo.t) : token_check :=
  let '(can_run, reason) :=
    TokenMonitor.can_run_tasks format_percent token_monitor first in
  let usage_summary :=
    TokenMonitor.get_usage_summary format_percent str_timedelta strftime
      token_monitor second in
  {| can_proceed := can_run;
     reason := reason;
     usage_summary := usage_summary;
     wait_for_reset :=
       negb can_run
       && String.eqb (TokenMonitor.summary_status usage_summary) "critical" |}.

Definition cleanup_temporary_workspaces : M nat :=
  WorkspaceManager.cleanup_all_temporary_workspaces.

(** The loop of [process_tasks_flow] from position [k] of the pending
    list on.  [process_single_task] is a Prefect task with two retries. *)
Fixpoint process_each (token_monitor : TokenMonitor.t) (task_timeout : Z)
    (inputs : flow_inputs) (k : nat) (pending_tasks : list TaskConfig.t)
    (results : list flow_entry) (processed_count : nat)
    : M (list flow_entry * nat) :=
  match pending_tasks with
  | [] => ret (results, processed_count)
  | task_config :: rest =>
      entry <-
        try_except
          (result <-
             retried 2 0
               (λ j, process_single_task task_config token_monitor
                       (task_status inputs k j) (task_observation inputs k j)
                       task_timeout) ;;
           ret (processed_entry result))
          (λ e,
             YamlTaskManager.mark_task_failed (TaskConfig.id task_config)
               ("Unexpected error: " +:+ exn_str e) ;;;
             ret (failed_entry (TaskConfig.id task_config) (exn_str e))) ;;
      match entry with
      | processed_entry result =>
          if r_continue_processing result
          then process_each token_monitor task_timeout inputs (S k) rest
                 (results ++ [entry]) (S processed_count)
          else ret (results ++ [entry], S processed_count)
      | failed_entry _ _ =>
          process_each token_monitor task_timeout inputs (S k) rest
            (results ++ [entry]) processed_count
      end
  end.

(** The body of [process_tasks_flow]. *)
Definition process_tasks_run (max_tasks : Z) (check_tokens : bool) (task_timeout : Z)
    (inputs : flow_inputs) : M flow_result :=
  YamlTaskManager.init ;;;
  let token_monitor := TokenMonitor.default in
  WorkspaceManager.init "workspaces" ;;;
  let '(available, _) := check_claude_availability (availability inputs) in
  if negb available then
    ret {| f_success := false; f_error := Some "Claude Code not available";
           f_processed := 0; f_results := []; f_message := None;
           f_cleanup_count := None; f_timestamp := None |}
  else
    let reset_wait_failed :=
      if check_tokens then
        let token_check :=
          check_token_limits token_monitor (first_status inputs)
            (second_status inputs) in
        if negb (can_proceed token_check) then
          if wait_for_reset token_check then negb (wait_success inputs) else false
        else false
      else false in
    if reset_wait_failed then
      ret {| f_success := false;
             f_error := Some "Token limits reached and reset wait failed";
             f_processed := 0; f_results := []; f_message := None;
             f_cleanup_count := None; f_timestamp := None |}
    else
      pending_tasks <- get_pending_tasks max_tasks ;;
      match pending_tasks with
      | [] =>
          ret {| f_success := true; f_error := None; f_processed := 0;
                 f_results := []; f_message := Some "No pending tasks";
                 f_cleanup_count := None; f_timestamp := None |}
      | _ :: _ =>
          out <- process_each token_monitor task_timeout inputs 0 pending_tasks [] 0 ;;
          cleanup_count <- cleanup_temporary_workspaces ;;
          timestamp <- now ;;
          ret {| f_success := true; f_error := None; f_processed := out.2;
                 f_results := out.1; f_message := None;
                 f_cleanup_count := Some cleanup_count;
                 f_timestamp := Some timestamp |}
      end.

(** [process_tasks_flow], a Prefect flow with one retry: when its body
    raises it is run once more, on what it meets then. *)
Definition process_tasks_flow (max_tasks : Z) (check_tokens : bool) (task_timeout : Z)
    (inputs again : flow_inputs) : M flow_result :=
  try_except (process_tasks_run max_tasks check_tokens task_timeout inputs)
    (λ _, process_tasks_run max_tasks check_tokens task_timeout again).

(** [get_task_status_flow], given what the status check returned. *)
Definition get_task_status_flow (status : option TokenUsageInfo.t) : M status_report :=
  YamlTaskManager.init ;;;
  let token_monitor := TokenMonitor.default in
  WorkspaceManager.init "workspaces" ;;;
  stats <- YamlTaskManager.get_task_statistics ;;
  let usage_summary :=
    TokenMonitor.get_usage_summary format_percent str_timedelta strftime
      token_monitor status in
  workspaces <- WorkspaceManager.list_workspaces ;;
  timestamp <- now ;;
  ret {| task_statistics := stats; token_usage := usage_summary;
         active_workspaces_count := length workspaces;
         s_timestamp := timestamp |}.

(** The two loops of [cleanup_flow]. *)
Fixpoint reset_each (tasks : list TaskConfig.t) (reset_count : nat) : M nat :=
  match tasks with
  | [] => ret reset_count
  | task :: rest =>
      YamlTaskManager.reset_task (TaskConfig.id task) ;;;
      reset_each rest (S reset_count)
  end.

Fixpoint delete_each (tasks : list TaskConfig.t) : M unit :=
  match tasks with
  | [] => ret ()
  | task :: rest =>
      YamlTaskManager.delete_task (TaskConfig.id task) ;;;
      delete_each rest
  end.

Definition cleanup_flow (cleanup_failed cleanup_completed : bool) : M cleanup_result :=
  YamlTaskManager.init ;;;
  WorkspaceManager.init "workspaces" ;;;
  cleaned_workspaces <- WorkspaceManager.cleanup_all_temporary_workspaces ;;
  reset_count <-
    (if cleanup_failed then
       failed_tasks <- YamlTaskManager.get_failed_tasks ;;
       reset_each failed_tasks 0
     else ret 0%nat) ;;
  (if cleanup_completed then
     completed_tasks <- YamlTaskManager.get_tasks_by_status "completed" ;;
     delete_each completed_tasks
   else ret ()) ;;;
  timestamp <- now ;;
  ret {| cleaned_workspaces := cleaned_workspaces; reset_tasks := reset_count;
         c_timestamp := timestamp |}.

End flow.

End TaskProcessor.

(** ** Sample states

    Concrete worlds on which the properties below are exercised. *)

Module Samples.

(** A clock whose k-th reading names k. *)
Definition numbered_clock (k : nat) : string :=
  "2025-01-01T00:00:00+00:00#" +:+ pretty k.

(** A [mkdtemp] that numbers its directories by how many exist. *)
Definition numbered_pick (prefix dir : string) (existing : gset string) : string :=
  WorkspaceManager.joinpath dir (prefix +:+ pretty (size existing)).

Definition task (id status : string) (attempts max_attempts : Z) : TaskConfig.t :=
  {| TaskConfig.id := id;
     TaskConfig.title := "Write tests";
     TaskConfig.description := "Cover the parser";
     TaskConfig.prompt_template := "default";
     TaskConfig.status := status;
     TaskConfig.created_at := "2024-12-31T00:00:00+00:00";
     TaskConfig.started_at := None;
     TaskConfig.completed_at := None;
     TaskConfig.attempts := attempts;
     TaskConfig.max_attempts := max_attempts;
     TaskConfig.last_error := None;
     TaskConfig.session_id := None;
     TaskConfig.workspace_path := None |}.

(** The tasks file as the store writes it for [tasks]. *)
Definition store (tasks : list TaskConfig.t) : file :=
  Doc (YMap [ ("meta", YMap [ ("version", YStr "1.0");
                              ("last_updated", YStr "2024-12-31T00:00:00+00:00") ]);
              ("tasks", YList (YamlTaskManager.asdict <$> tasks)) ]).

Definition world_of (f : file) (active : gmap string WorkspaceInfo.t)
    (existing : gset string) : world :=
  {| tasks_file := f; clock := numbered_clock; ticks := 0;
     base_workspace_dir := "workspaces";
     active_workspaces := active;
     registry_file := Some (WorkspaceInfo.to_entry <$> active);
     registry_elsewhere := (λ _, None);
     dirs := existing;
     mkdtemp_pick := numbered_pick |}.

(** No tasks file yet, no workspace. *)
Definition fresh_world : world := world_of Missing ∅ {["workspaces"]}.

(** A store of two tasks, one of them completed. *)
Definition two_tasks : list TaskConfig.t :=
  [ task "task-001" "completed" 1 3; task "task-002" "pending" 0 3 ].

Definition two_tasks_world : world := world_of (store two_tasks) ∅ {["workspaces"]}.

(** The task [add_task] makes third in that store, at the first reading
    of the clock. *)
Definition third_task : TaskConfig.t :=
  {| TaskConfig.id := "task-003";
     TaskConfig.title := "Write docs";
     TaskConfig.description := "Document the parser";
     TaskConfig.prompt_template := "default";
     TaskConfig.status := "pending";
     TaskConfig.created_at := numbered_clock 0;
     TaskConfig.started_at := None;
     TaskConfig.completed_at := None;
     TaskConfig.attempts := 0;
     TaskConfig.max_attempts := 3;
     TaskConfig.last_error := None;
     TaskConfig.session_id := None;
     TaskConfig.workspace_path := None |}.

(** A hand-written tasks file: no metadata block, one task without
    [created_at]. *)
Definition bare_store : file :=
  Doc (YMap [ ("tasks",
               YList [ YMap [ ("id", YStr "task-001");
                              ("title", YStr "Write tests");
                              ("description", YStr "Cover the parser") ] ]) ]).

Definition bare_world : world := world_of bare_store ∅ {["workspaces"]}.

(** The store after five tasks were added and the first, second and
    fourth deleted. *)
Definition gapped_tasks : list TaskConfig.t :=
  [ task "task-003" "pending" 0 3; task "task-005" "pending" 0 3 ].

Definition gapped_world : world := world_of (store gapped_tasks) ∅ {["workspaces"]}.

Definition workspace (task_id path : string) (temporary : bool) : WorkspaceInfo.t :=
  {| WorkspaceInfo.task_id := task_id;
     WorkspaceInfo.workspace_path := path;
     WorkspaceInfo.created_at := "2024-12-31T00:00:00+00:00";
     WorkspaceInfo.is_temporary := temporary;
     WorkspaceInfo.base_template := Some "python" |}.

(** A task on its third attempt of three whose workspace is registered. *)
Definition last_attempt_task : TaskConfig.t := task "task-001" "pending" 2 3.

Definition last_attempt_world : world :=
  world_of (store [last_attempt_task])
    {[ "task-001" := workspace "task-001" "workspaces/task-001" false ]}
    {[ "workspaces"; "workspaces/task-001" ]}.

(** Usage 45 of 225: a fifth. *)
Definition low_usage : TokenUsageInfo.t :=
  {| TokenUsageInfo.messages_used := 45;
     TokenUsageInfo.messages_limit := 225;
     TokenUsageInfo.percentage_used := Q2Qc (Qmake 1 5);
     TokenUsageInfo.time_until_reset := None;
     TokenUsageInfo.plan := Some TokenUsageInfo.MAX_5X;
     TokenUsageInfo.raw_output := "45/225 messages";
     TokenUsageInfo.timestamp := "2025-01-01T00:00:00+00:00" |}.

(** Usage at the double written [0.96], two hours before the reset. *)
Definition high_usage : TokenUsageInfo.t :=
  {| TokenUsageInfo.messages_used := 216;
     TokenUsageInfo.messages_limit := 225;
     TokenUsageInfo.percentage_used :=
       Q2Qc (Qmake 1080863910568919 1125899906842624);
     TokenUsageInfo.time_until_reset := Some 7380;
     TokenUsageInfo.plan := Some TokenUsageInfo.MAX_5X;
     TokenUsageInfo.raw_output := "216/225 messages, 2h 3m remaining";
     TokenUsageInfo.timestamp := "2025-01-01T00:00:00+00:00" |}.

(** A printing of percentages, a rendering of prompts and a search for
    session ids, fixed for the samples. *)
Definition format_percent (x : Qc) : string := "96.0%".

Definition render_prompt (template_name title description : string) : string :=
  "# Task: " +:+ title.

Definition no_session_id (output : string) : option string := None.

(** The process exits with code 1 and says nothing about quota. *)
Definition failed_run : ClaudeCodeExecutor.observation :=
  {| ClaudeCodeExecutor.initial_files := ∅;
     ClaudeCodeExecutor.final_files := ∅;
     ClaudeCodeExecutor.proc := ClaudeCodeExecutor.Exited "" "compile error" 1;
     ClaudeCodeExecutor.elapsed := Q2Qc (Qmake 3 2) |}.


(** One scan of a workspace, and the same scan with one file more. *)
Definition scan : gmap string Qc :=
  {[ "README.md" := Q2Qc (Qmake 17 1); "src/main.py" := Q2Qc (Qmake 18 1) ]}.

(** A store of three tasks: one completed, one failed on its last
    attempt, one pending. *)
Definition mixed_tasks : list TaskConfig.t :=
  [ task "task-001" "completed" 1 3; task "task-002" "failed" 3 3;
    task "task-003" "pending" 0 3 ].

Definition mixed_world : world := world_of (store mixed_tasks) ∅ {["workspaces"]}.

(** The store of two tasks where the workspace template [python] exists. *)
Definition template_world : world :=
  world_of (store two_tasks) ∅ {[ "workspaces"; "templates/workspaces/python" ]}.

(** A tasks file with a key of its owner's beside the two of the store. *)
Definition annotated_entries : list (string * yaml) :=
  [ ("meta", YMap [ ("version", YStr "1.0");
                    ("last_updated", YStr "2024-12-31T00:00:00+00:00") ]);
    ("owner", YStr "platform team");
    ("tasks", YList []) ].

Definition annotated_world : world :=
  world_of (Doc (YMap annotated_entries)) ∅ {["workspaces"]}.

(** The process exits with code 0 and leaves one file more. *)
Definition successful_run : ClaudeCodeExecutor.observation :=
  {| ClaudeCodeExecutor.initial_files := scan;
     ClaudeCodeExecutor.final_files := <["notes.txt" := Q2Qc (Qmake 19 1)]> scan;
     ClaudeCodeExecutor.proc := ClaudeCodeExecutor.Exited "done" "" 0;
     ClaudeCodeExecutor.elapsed := Q2Qc (Qmake 3 2) |}.

(** The process exits with code 1 and names the rate limit. *)
Definition quota_run : ClaudeCodeExecutor.observation :=
  {| ClaudeCodeExecutor.initial_files := scan;
     ClaudeCodeExecutor.final_files := scan;
     ClaudeCodeExecutor.proc :=
       ClaudeCodeExecutor.Exited "" "Error: Rate limit exceeded" 1;
     ClaudeCodeExecutor.elapsed := Q2Qc (Qmake 3 2) |}.

(** The process does not exit within the timeout. *)
Definition timed_out_run : ClaudeCodeExecutor.observation :=
  {| ClaudeCodeExecutor.initial_files := scan;
     ClaudeCodeExecutor.final_files := scan;
     ClaudeCodeExecutor.proc := ClaudeCodeExecutor.TimeoutExpired;
     ClaudeCodeExecutor.elapsed := Q2Qc (Qmake 300 1) |}.

(** A search for session ids that finds one, and two printings. *)
Definition one_session_id (output : string) : option string :=
  Some "0f8fad5b-d9cb-469f-a165-70867728950e".

Definition str_timedelta (seconds : Z) : string := "2:03:00".

Definition strftime (timestamp : string) : string := "2025-01-01 00:00:00 UTC".

(** A run of the flow in which Claude Code answers the version probe and
    no status check returns anything. *)
Definition no_status_inputs : TaskProcessor.flow_inputs :=
  {| TaskProcessor.availability := ClaudeCodeExecutor.ProbeExited "1.0.0" "" 0;
     TaskProcessor.first_status := None;
     TaskProcessor.second_status := None;
     TaskProcessor.wait_success := false;
     TaskProcessor.task_status := λ _ _, None;
     TaskProcessor.task_observation := λ _ _, failed_run |}.

(** A run of the flow on a machine without Claude Code. *)
Definition unavailable_inputs : TaskProcessor.flow_inputs :=
  {| TaskProcessor.availability := ClaudeCodeExecutor.ProbeFileNotFound;
     TaskProcessor.first_status := Some low_usage;
     TaskProcessor.second_status := Some low_usage;
     TaskProcessor.wait_success := true;
     TaskProcessor.task_status := λ _ _, Some low_usage;
     TaskProcessor.task_observation := λ _ _, successful_run |}.

End Samples.

(** ** Vocabulary of the properties *)

(** [p] occurs in [s]: [s] can be cut around a copy of [p]. *)
Definition occurs (p s : string) : Prop :=
  ∃ pre post, s = pre +:+ p +:+ post.

(** The capitals of ASCII. *)
Definition is_capital (c : ascii) : Prop := (65 ≤ nat_of_ascii c ≤ 90)%nat.

(** Two ASCII characters are the same letter when they are equal or one
    is the capital of the other, 32 places before it. *)
Definition same_letter (a b : ascii) : Prop :=
  a = b
  ∨ (is_capital a ∧ nat_of_ascii b = (nat_of_ascii a + 32)%nat)
  ∨ (is_capital b ∧ nat_of_ascii a = (nat_of_ascii b + 32)%nat).

(** [mid] spells [p] when case is ignored: character by character, [mid]
    has the letter of [p] in either case, or, where [p] has the letter k,
    the Kelvin sign, which is a capital of k. *)
Inductive spells : string → string → Prop :=
| spells_nil : spells "" ""
| spells_letter (a b : ascii) (mid p : string) :
    same_letter a b → spells mid p → spells (String a mid) (String b p)
| spells_kelvin (b : ascii) (mid p : string) :
    b = "k"%char ∨ b = "K"%char → spells mid p →
    spells (Py.kelvin_sign +:+ mid) (String b p).

(** [p] occurs in [s] when case is ignored: [s] can be cut around a piece
    that spells [p]. *)
Definition occurs_ci (p s : string) : Prop :=
  ∃ pre mid post, s = pre +:+ mid +:+ post ∧ spells mid p.

(** A plain phrase: ASCII characters, none of them a capital, the last
    one not [i] (the lower-case form of the capital I with dot above
    begins with [i]). *)
Definition plain_char (c : ascii) : bool :=
  let n := nat_of_ascii c in
  (n <? 128)%nat && negb ((65 <=? n)%nat && (n <=? 90)%nat).

Fixpoint plain (p : string) : bool :=
  match p with
  | EmptyString => true
  | String c p' =>
      plain_char c
      && match p' with
         | EmptyString => negb (Ascii.eqb c "i")
         | String _ _ => plain p'
         end
  end.

(** The text begins a code point: bytes 128 to 191 continue one, every
    other byte begins one. *)
Definition begins_code_point (s : string) : Prop :=
  match s with
  | EmptyString => True
  | String c _ => ¬ (128 ≤ nat_of_ascii c ≤ 191)%nat
  end.

(** The tasks file can be rewritten: it is absent, unreadable or empty (the
    store then starts from its empty structure), or a mapping that has the
    metadata block of the file format. *)
Definition has_meta (f : file) : Prop :=
  match f with
  | Missing | Unparsable | Doc YNull => True
  | Doc (YMap entries) => ∃ meta, dict_get "meta" entries = Some (YMap meta)
  | Doc _ => False
  end.

(** The tasks file is the one the store writes for [tasks]. *)
Definition stored (tasks : list TaskConfig.t) (w : world) : Prop :=
  ∃ entries meta,
    tasks_file w = Doc (YMap entries)
    ∧ dict_get "tasks" entries = Some (YList (YamlTaskManager.asdict <$> tasks))
    ∧ dict_get "meta" entries = Some (YMap meta).


(** Every task's id is one the store gave out: [task-] and a number
    between one and the count of tasks. *)
Definition numbered (tasks : list TaskConfig.t) : Prop :=
  ∀ task, task ∈ tasks →
    ∃ k : nat, (1 ≤ k ≤ length tasks)%nat
               ∧ TaskConfig.id task = YamlTaskManager.task_id_of k.

(** No keyword of an update names the field [id]. *)
Definition keeps_id (updates : list YamlTaskManager.update) : Prop :=
  ∀ v, YamlTaskManager.set_id v ∉ updates.

(** The statuses the scheduler knows. *)
Definition known_statuses : list string :=
  ["pending"; "running"; "completed"; "failed"; "paused"].

(** The number that a string of decimal digits writes, with the power of
    ten of its length. *)
Fixpoint decimal (s : string) : N * N :=
  match s with
  | EmptyString => (0, 1)%N
  | String c s' =>
      let '(v, p) := decimal s' in
      (((N.of_nat (nat_of_ascii c) - 48) * p + v)%N, (10 * p)%N)
  end.

(** [w'] differs from [w] at most in the tasks file and in how often the
    clock was read: workspaces and directories are the same. *)
Definition same_workspaces (w w' : world) : Prop :=
  base_workspace_dir w' = base_workspace_dir w
  ∧ active_workspaces w' = active_workspaces w
  ∧ registry_file w' = registry_file w
  ∧ dirs w' = dirs w
  ∧ mkdtemp_pick w' = mkdtemp_pick w
  ∧ clock w' = clock w
  ∧ registry_elsewhere w' = registry_elsewhere w.

(** The store [tasks'] holds the ids of [tasks] in the same order, and
    under every id but [task_id] the task that [tasks] holds. *)
Definition others_kept (task_id : string) (tasks tasks' : list TaskConfig.t) : Prop :=
  TaskConfig.id <$> tasks' = TaskConfig.id <$> tasks
  ∧ ∀ other, other ≠ task_id →
      List.find (λ task, String.eqb (TaskConfig.id task) other) tasks'
      = List.find (λ task, String.eqb (TaskConfig.id task) other) tasks.

(** The task as [reset_task] leaves it. *)
Definition as_reset (task : TaskConfig.t) : TaskConfig.t :=
  {| TaskConfig.id := TaskConfig.id task;
     TaskConfig.title := TaskConfig.title task;
     TaskConfig.description := TaskConfig.description task;
     TaskConfig.prompt_template := TaskConfig.prompt_template task;
     TaskConfig.status := "pending";
     TaskConfig.created_at := TaskConfig.created_at task;
     TaskConfig.started_at := None;
     TaskConfig.completed_at := None;
     TaskConfig.attempts := TaskConfig.attempts task;
     TaskConfig.max_attempts := TaskConfig.max_attempts task;
     TaskConfig.last_error := None;
     TaskConfig.session_id := None;
     TaskConfig.workspace_path := TaskConfig.workspace_path task |}.

(** What the loop of the flow adds to the results for the tasks
    [pending]: an entry for each of the first of them, in their order,
    each the result of [process_single_task] with a status other than
    running, none paused before the last; the entries stop short of the
    list only after a paused one. *)
Definition run_entries (pending : list TaskConfig.t)
    (more : list TaskProcessor.flow_entry) : Prop :=
  (length more ≤ length pending)%nat
  ∧ (∀ i entry, more !! i = Some entry →
       ∃ result task_config,
         entry = TaskProcessor.processed_entry result
         ∧ pending !! i = Some task_config
         ∧ TaskProcessor.r_task_id result = TaskConfig.id task_config
         ∧ TaskProcessor.r_status result ∈ ["paused"; "completed"; "pending"; "failed"]
         ∧ (TaskProcessor.r_status result = "paused" → S i = length more))
  ∧ ((length more < length pending)%nat →
     ∃ result, last more = Some (TaskProcessor.processed_entry result)
               ∧ TaskProcessor.r_status result = "paused").

(** * Properties *)

(** A decidable proposition about concrete data, settled by evaluating its
    decision procedure. *)
Ltac decide_by_computation :=
  match goal with
  | |- ?P => apply (bool_decide_unpack P); vm_compute; exact I
  end.

(** ** Strings *)

Section string_facts.

Lemma append_nil (s : string) : "" +:+ s = s.
Proof. reflexivity. Qed.

Lemma append_cons (c : ascii) (a b : string) :
  String c a +:+ b = String c (a +:+ b).
Proof. reflexivity. Qed.

Lemma append_assoc (a b c : string) : (a +:+ b) +:+ c = a +:+ b +:+ c.
Proof.
  induction a as [|x a IH]; [done |]. by rewrite !append_cons, IH.
Qed.

Lemma startswith_occurs (s p : string) :
  Py.startswith s p = true ↔ ∃ post, s = p +:+ post.
Proof.
  revert s. induction p as [|a p IH]; intros s; simpl.
  - split; [intros _; exists s; reflexivity | done].
  - destruct s as [|b s].
    + split; [done | intros [post H]; rewrite append_cons in H; discriminate].
    + destruct (Ascii.eqb a b) eqn:E.
      * apply Ascii.eqb_eq in E as ->. rewrite IH.
        split; intros [post H]; exists post; rewrite append_cons in *; congruence.
      * apply Ascii.eqb_neq in E.
        split; [done | intros [post H]; rewrite append_cons in H; congruence].
Qed.

Lemma contains_occurs (p s : string) :
  Py.contains p s = true ↔ occurs p s.
Proof.
  unfold occurs. induction s as [|c s IH]; simpl.
  - rewrite orb_false_r, startswith_occurs. split.
    + intros [post H]. exists "", post. by rewrite append_nil.
    + intros ([|x pre] & post & H).
      * exists post. by rewrite append_nil in H.
      * rewrite append_cons in H. discriminate.
  - rewrite orb_true_iff, startswith_occurs, IH. split.
    + intros [[post H] | (pre & post & H)].
      * exists "", post. by rewrite append_nil.
      * exists (String c pre), post. by rewrite append_cons, H.
    + intros ([|x pre] & post & H).
      * left. exists post. by rewrite append_nil in H.
      * right. exists pre, post. rewrite append_cons in H. congruence.
Qed.

(** The three equations of [Py.lower]. *)
Lemma lower_capital_i_with_dot (s : string) :
  Py.lower (Py.capital_i_with_dot +:+ s)
  = String "i" (Py.combining_dot_above +:+ Py.lower s).
Proof. reflexivity. Qed.

Lemma lower_kelvin_sign (s : string) :
  Py.lower (Py.kelvin_sign +:+ s) = String "k" (Py.lower s).
Proof. reflexivity. Qed.

Lemma lower_other (c : ascii) (s : string) :
  Py.startswith (String c s) Py.capital_i_with_dot = false →
  Py.startswith (String c s) Py.kelvin_sign = false →
  Py.lower (String c s) = String (Py.lower_ascii c) (Py.lower s).
Proof.
  intros Hi Hk. destruct s as [|c1 [|c2 s3]]; [done | |].
  - cbn in Hi |- *. destruct (Ascii.eqb c "196") eqn:E1; [| done].
    apply Ascii.eqb_eq in E1 as ->. cbn in Hi.
    destruct (Ascii.eqb c1 "176") eqn:E2; [| done].
    apply Ascii.eqb_eq in E2 as ->. done.
  - cbn [Py.lower].
    destruct (Ascii.eqb c "196" && Ascii.eqb c1 "176") eqn:E1.
    { apply andb_true_iff in E1 as [->%Ascii.eqb_eq ->%Ascii.eqb_eq]. done. }
    destruct (Ascii.eqb c "226" && Ascii.eqb c1 "132" && Ascii.eqb c2 "170") eqn:E2;
      [| done].
    apply andb_true_iff in E2 as [[->%Ascii.eqb_eq ->%Ascii.eqb_eq]%andb_true_iff
                                    ->%Ascii.eqb_eq].
    done.
Qed.

(** How a text begins, as [Py.lower] reads it. *)
Lemma lower_cases (s : string) :
  s = ""
  ∨ (∃ s', s = Py.capital_i_with_dot +:+ s')
  ∨ (∃ s', s = Py.kelvin_sign +:+ s')
  ∨ (∃ c s', s = String c s'
             ∧ Py.lower s = String (Py.lower_ascii c) (Py.lower s')).
Proof.
  destruct s as [|c s1]; [by left | right].
  destruct (Py.startswith (String c s1) Py.capital_i_with_dot) eqn:Hi.
  { left. by apply startswith_occurs. }
  right. destruct (Py.startswith (String c s1) Py.kelvin_sign) eqn:Hk.
  { left. by apply startswith_occurs. }
  right. exists c, s1. split; [done |]. by apply lower_other.
Qed.

(** The text after a code point is shorter than the text. *)
Ltac shorter :=
  unfold Py.capital_i_with_dot, Py.kelvin_sign;
  rewrite ?append_cons, ?append_nil; cbn [String.length]; lia.

Lemma lower_ascii_same_letter (c : ascii) : same_letter c (Py.lower_ascii c).
Proof.
  unfold Py.lower_ascii, same_letter, is_capital.
  destruct ((65 <=? nat_of_ascii c)%nat && (nat_of_ascii c <=? 90)%nat) eqn:E;
    [| by left].
  apply andb_true_iff in E as [H1%Nat.leb_le H2%Nat.leb_le].
  right. left. split; [lia |]. apply nat_ascii_embedding. lia.
Qed.

Lemma plain_char_lower (c : ascii) :
  plain_char c = true → Py.lower_ascii c = c.
Proof.
  unfold plain_char, Py.lower_ascii.
  intros [_ H%negb_true_iff]%andb_true_iff. by rewrite H.
Qed.

(** A character that [Py.lower_ascii] takes to a plain one is an ASCII
    character: it begins neither of the two longer code points. *)
Lemma lower_ascii_plain (c : ascii) :
  plain_char (Py.lower_ascii c) = true → (nat_of_ascii c < 128)%nat.
Proof.
  unfold plain_char, Py.lower_ascii.
  destruct ((65 <=? nat_of_ascii c)%nat && (nat_of_ascii c <=? 90)%nat) eqn:E.
  - apply andb_true_iff in E as [_ H2%Nat.leb_le]. lia.
  - by intros [H%Nat.ltb_lt _]%andb_true_iff.
Qed.

Lemma plain_cons (b : ascii) (p : string) :
  plain (String b p) = true → plain_char b = true ∧ plain p = true.
Proof.
  cbn [plain]. intros [Hb Hp]%andb_true_iff. split; [done |].
  by destruct p.
Qed.

Lemma ascii_starts_no_code_point (c : ascii) (s : string) :
  (nat_of_ascii c < 128)%nat →
  Py.startswith (String c s) Py.capital_i_with_dot = false
  ∧ Py.startswith (String c s) Py.kelvin_sign = false.
Proof.
  intros Hc. unfold Py.capital_i_with_dot, Py.kelvin_sign.
  split; cbn [Py.startswith].
  - destruct (Ascii.eqb "196" c) eqn:E; [| done].
    apply Ascii.eqb_eq in E as <-. vm_compute in Hc. lia.
  - destruct (Ascii.eqb "226" c) eqn:E; [| done].
    apply Ascii.eqb_eq in E as <-. vm_compute in Hc. lia.
Qed.

(** The lowered text begins with a plain phrase only where the text
    begins with a piece that spells it. *)
Lemma lower_prefix_spells (p : string) :
  plain p = true →
  ∀ s r, Py.lower s = p +:+ r →
  ∃ mid post, s = mid +:+ post ∧ spells mid p ∧ Py.lower post = r.
Proof.
  induction p as [|b p IH]; intros Hp s r H.
  - exists "", s. split; [done |]. split; [constructor | exact H].
  - pose proof Hp as [Hb Hp']%plain_cons. rewrite append_cons in H.
    destruct (lower_cases s) as [-> | [[s' ->] | [[s' ->] | (c & s' & -> & Hl)]]].
    + discriminate.
    + rewrite lower_capital_i_with_dot in H. injection H as <- H.
      destruct p as [|b' p].
      * discriminate.
      * rewrite !append_cons in H. injection H as <- _.
        apply plain_cons in Hp' as [Hb' _]. discriminate.
    + rewrite lower_kelvin_sign in H. injection H as <- H.
      destruct (IH Hp' _ _ H) as (mid & post & -> & Hmid & Hpost).
      exists (Py.kelvin_sign +:+ mid), post. rewrite append_assoc.
      split; [done |]. split; [| done]. constructor; [by left | done].
    + rewrite Hl in H. injection H as <- H.
      destruct (IH Hp' _ _ H) as (mid & post & -> & Hmid & Hpost).
      exists (String c mid), post. rewrite append_cons.
      split; [done |]. split; [| done].
      constructor; [apply lower_ascii_same_letter | done].
Qed.

(** A plain phrase found in the lowered text is spelled by a piece of the
    text. *)
Lemma lower_occurs_spells (p : string) :
  plain p = true →
  ∀ s, occurs p (Py.lower s) → occurs_ci p s.
Proof.
  intros Hp s. remember (String.length s) as n eqn:Hn.
  revert s Hn. induction (lt_wf n) as [n _ IH]. intros s -> (pre & post & H).
  destruct pre as [|x pre].
  { rewrite append_nil in H.
    destruct (lower_prefix_spells p Hp _ _ H) as (mid & post' & -> & Hmid & _).
    exists "", mid, post'. by rewrite append_nil. }
  assert (Hgrow : ∀ a s', s = a +:+ s' → occurs_ci p s' → occurs_ci p s).
  { intros a s' -> (pre' & mid & post' & -> & Hmid).
    exists (a +:+ pre'), mid, post'. by rewrite append_assoc. }
  destruct p as [|b p].
  { exists "", "", s. split; [done | constructor]. }
  apply plain_cons in Hp as Hb. destruct Hb as [Hb _].
  rewrite append_cons in H.
  destruct (lower_cases s) as [-> | [[s' ->] | [[s' ->] | (c & s' & -> & Hl)]]].
  - discriminate.
  - rewrite lower_capital_i_with_dot in H. injection H as <- H.
    destruct pre as [|y [|z pre]].
    + rewrite append_nil, !append_cons in H. injection H as <- _. discriminate.
    + rewrite !append_cons, append_nil in H. injection H as _ <- _. discriminate.
    + rewrite !append_cons in H. injection H as _ _ H.
      apply (Hgrow Py.capital_i_with_dot s'); [done |].
      apply (IH (String.length s')); [shorter | done |]. by exists pre, post.
  - rewrite lower_kelvin_sign in H. injection H as <- H.
    apply (Hgrow Py.kelvin_sign s'); [done |].
    apply (IH (String.length s')); [shorter | done |]. by exists pre, post.
  - rewrite Hl in H. injection H as <- H.
    apply (Hgrow (String c "") s'); [done |].
    apply (IH (String.length s')); [shorter | done |]. by exists pre, post.
Qed.

(** The lowered text of a piece that spells a plain phrase is the phrase,
    whatever follows the piece. *)
Lemma spells_lower (mid p : string) :
  spells mid p → plain p = true →
  ∀ post, Py.lower (mid +:+ post) = p +:+ Py.lower post.
Proof.
  induction 1 as [|a b mid p Hab Hmid IH|b mid p Hb Hmid IH]; intros Hp post.
  - done.
  - apply plain_cons in Hp as [Hb Hp]. rewrite !append_cons.
    assert (Py.lower_ascii a = b) as Hlow.
    { destruct Hab as [-> | [[Ha Hn] | [Hcap _]]].
      - by apply plain_char_lower.
      - unfold Py.lower_ascii, is_capital in *.
        rewrite (proj2 (Nat.leb_le _ _) (proj1 Ha)), (proj2 (Nat.leb_le _ _) (proj2 Ha)).
        cbn [andb]. by rewrite <- Hn, ascii_nat_embedding.
      - unfold plain_char, is_capital in *.
        apply andb_true_iff in Hb as [_ Hb%negb_true_iff].
        apply andb_false_iff in Hb as [Hb%Nat.leb_gt | Hb%Nat.leb_gt]; lia. }
    assert (nat_of_ascii a < 128)%nat as Ha
      by (apply lower_ascii_plain; by rewrite Hlow).
    destruct (ascii_starts_no_code_point a (mid +:+ post) Ha) as [Hi Hk].
    by rewrite (lower_other _ _ Hi Hk), Hlow, IH.
  - apply plain_cons in Hp as [Hb' Hp]. rewrite append_assoc, lower_kelvin_sign.
    destruct Hb as [-> | ->]; [| discriminate]. by rewrite IH, append_cons.
Qed.

(** [Py.lower] works code point by code point: it lowers two texts put
    together one after the other, if the second begins a code point. *)
Lemma lower_app (a b : string) :
  begins_code_point b →
  Py.lower (a +:+ b) = Py.lower a +:+ Py.lower b.
Proof.
  intros Hb. remember (String.length a) as n eqn:Hn.
  revert a Hn. induction (lt_wf n) as [n _ IH]. intros a ->.
  destruct (lower_cases a) as [-> | [[s' ->] | [[s' ->] | (c & s' & -> & Hl)]]].
  - done.
  - rewrite append_assoc, !lower_capital_i_with_dot, append_cons.
    rewrite (IH (String.length s')); [| shorter | done].
    by rewrite append_assoc.
  - rewrite append_assoc, !lower_kelvin_sign, append_cons.
    by rewrite (IH (String.length s')); [| shorter | done].
  - rewrite Hl, !append_cons.
    rewrite <- (IH (String.length s')); [| shorter | done].
    apply lower_other.
    + destruct s' as [|c1 s'].
      * rewrite append_nil. destruct b as [|x b];
          [unfold Py.capital_i_with_dot; cbn [Py.startswith];
           by destruct (Ascii.eqb "196" c) |].
        unfold Py.capital_i_with_dot. cbn [Py.startswith].
        destruct (Ascii.eqb "196" c); [| done].
        destruct (Ascii.eqb "176" x) eqn:E; [| done].
        apply Ascii.eqb_eq in E as <-. destruct Hb. split; apply Nat.leb_le; reflexivity.
      * rewrite append_cons.
        destruct (Py.startswith (String c (String c1 (s' +:+ b)))
                    Py.capital_i_with_dot) eqn:E; [| done].
        apply startswith_occurs in E as [post E]. injection E as -> -> _.
        pose proof (lower_capital_i_with_dot s') as Hl'.
        change (Py.capital_i_with_dot +:+ s')
          with (String "196" (String "176" s')) in Hl'.
        rewrite Hl' in Hl. injection Hl as Hc _. vm_compute in Hc. discriminate.
    + destruct s' as [|c1 [|c2 s']].
      * rewrite append_nil. destruct b as [|x b];
          [unfold Py.kelvin_sign; cbn [Py.startswith];
           by destruct (Ascii.eqb "226" c) |].
        unfold Py.kelvin_sign. cbn [Py.startswith].
        destruct (Ascii.eqb "226" c); [| done].
        destruct (Ascii.eqb "132" x) eqn:E; [| done].
        apply Ascii.eqb_eq in E as <-. destruct Hb. split; apply Nat.leb_le; reflexivity.
      * rewrite append_cons, append_nil.
        destruct b as [|x b];
          [unfold Py.kelvin_sign; cbn [Py.startswith];
           by destruct (Ascii.eqb "226" c), (Ascii.eqb "132" c1) |].
        unfold Py.kelvin_sign. cbn [Py.startswith].
        destruct (Ascii.eqb "226" c); [| done].
        destruct (Ascii.eqb "132" c1); [| done].
        destruct (Ascii.eqb "170" x) eqn:E; [| done].
        apply Ascii.eqb_eq in E as <-. destruct Hb. split; apply Nat.leb_le; reflexivity.
      * rewrite !append_cons.
        destruct (Py.startswith (String c (String c1 (String c2 (s' +:+ b))))
                    Py.kelvin_sign) eqn:E; [| done].
        apply startswith_occurs in E as [post E]. injection E as -> -> -> _.
        pose proof (lower_kelvin_sign s') as Hl'.
        change (Py.kelvin_sign +:+ s')
          with (String "226" (String "132" (String "170" s'))) in Hl'.
        rewrite Hl' in Hl. injection Hl as Hc _. vm_compute in Hc. discriminate.
Qed.

Lemma spells_begins_code_point (mid p post : string) :
  spells mid p → plain p = true → p ≠ "" → begins_code_point (mid +:+ post).
Proof.
  destruct 1 as [|a b mid p Hab Hmid|b mid p Hb Hmid]; intros Hp Hne; [done | |].
  - apply plain_cons in Hp as [Hb _]. rewrite append_cons. cbn.
    destruct Hab as [-> | [[Ha _] | [Hcap _]]].
    + unfold plain_char in Hb. apply andb_true_iff in Hb as [Hb%Nat.ltb_lt _]. lia.
    + unfold is_capital in Ha. lia.
    + unfold plain_char, is_capital in *.
      apply andb_true_iff in Hb as [_ Hb%negb_true_iff].
      apply andb_false_iff in Hb as [Hb%Nat.leb_gt | Hb%Nat.leb_gt]; lia.
  - unfold Py.kelvin_sign. rewrite !append_cons. cbn [begins_code_point].
    change (nat_of_ascii "226") with 226%nat. lia.
Qed.

(** Searching the lowered text for a plain phrase is searching the text
    with case ignored. *)
Lemma contains_lower_ci (p s : string) :
  plain p = true →
  Py.contains p (Py.lower s) = true ↔ occurs_ci p s.
Proof.
  intros Hp. rewrite contains_occurs. split; [by apply lower_occurs_spells |].
  intros (pre & mid & post & -> & Hmid).
  destruct p as [|b p]; [by exists "", (Py.lower (pre +:+ mid +:+ post)) |].
  exists (Py.lower pre), (Py.lower post).
  rewrite lower_app by (by eapply spells_begins_code_point).
  by rewrite (spells_lower _ _ Hmid Hp).
Qed.

End string_facts.

(** ** The execution adapter *)

Section executor_facts.

Import ClaudeCodeExecutor.

Lemma limit_indicators_plain :
  Forall (λ p, plain p = true) limit_indicators.
Proof. repeat constructor. Qed.

(** The scan of the output finds a phrase exactly when one of the fixed
    phrases occurs in stdout followed by stderr, case ignored. *)
Lemma check_token_limit_spec (out err : string) :
  _check_token_limit_in_output out err = true ↔
  ∃ phrase, phrase ∈ limit_indicators ∧ occurs_ci phrase (out +:+ err).
Proof.
  unfold _check_token_limit_in_output, Py.any. rewrite existsb_exists.
  pose proof limit_indicators_plain as Hlow.
  rewrite Forall_forall in Hlow.
  split; intros (phrase & Hin & H); exists phrase.
  - apply list_elem_of_In in Hin. split; [done |].
    by apply contains_lower_ci; [apply Hlow |].
  - split; [by apply list_elem_of_In |].
    by apply contains_lower_ci; [apply Hlow |].
Qed.

(** C3.  When the process exits with [out], [err] and [code], the result's
    success flag is set exactly when [code] is 0 and no quota-exhaustion
    phrase occurs, case ignored, in [out] followed by [err]; its
    quota-exhausted flag is set exactly when such a phrase occurs. *)
Theorem execute_task_flags (extract : string → option string)
    (workspace_path prompt : string) (auto_accept : bool)
    (session_id : option string) (timeout : option Z)
    (initial final : gmap string Qc) (time : Qc) (out err : string) (code : Z) :
  let result :=
    execute_task extract workspace_path prompt auto_accept session_id timeout
      {| initial_files := initial; final_files := final;
         proc := Exited out err code; elapsed := time |} in
  (ClaudeExecutionResult.success result = true ↔
     code = 0 ∧
     ∀ phrase, phrase ∈ limit_indicators → ¬ occurs_ci phrase (out +:+ err))
  ∧ (ClaudeExecutionResult.token_limit_hit result = true ↔
     ∃ phrase, phrase ∈ limit_indicators ∧ occurs_ci phrase (out +:+ err))
  ∧ ClaudeExecutionResult.stdout result = out
  ∧ ClaudeExecutionResult.stderr result = err
  ∧ ClaudeExecutionResult.return_code result = code.
Proof.
  intros result.
  assert (Hhit : ClaudeExecutionResult.token_limit_hit result
                 = _check_token_limit_in_output out err).
  { subst result. unfold execute_task. simpl.
    destruct session_id as [sid|]; [destruct (String.eqb sid "") |]; reflexivity. }
  assert (Hsucc : ClaudeExecutionResult.success result
                  = bool_decide (code = 0)
                    && negb (_check_token_limit_in_output out err)).
  { subst result. unfold execute_task. simpl.
    destruct session_id as [sid|]; [destruct (String.eqb sid "") |]; reflexivity. }
  split; [| split; [| split; [| split]]].
  - rewrite Hsucc, andb_true_iff, bool_decide_eq_true, negb_true_iff.
    rewrite <- not_true_iff_false, check_token_limit_spec.
    split; intros [Hcode Hnone]; (split; [done |]).
    + intros phrase Hin Hocc. apply Hnone. by exists phrase.
    + intros (phrase & Hin & Hocc). by apply (Hnone phrase).
  - rewrite Hhit. apply check_token_limit_spec.
  - subst result. unfold execute_task. simpl.
    destruct session_id as [sid|]; [destruct (String.eqb sid "") |]; reflexivity.
  - subst result. unfold execute_task. simpl.
    destruct session_id as [sid|]; [destruct (String.eqb sid "") |]; reflexivity.
  - subst result. unfold execute_task. simpl.
    destruct session_id as [sid|]; [destruct (String.eqb sid "") |]; reflexivity.
Qed.

(** A call of [execute_task] returns, and leaves the directory of the
    prompt file. *)
Lemma execute_task_call_ok (extract : string → option string)
    (workspace_path prompt : string) (auto_accept : bool)
    (session_id : option string) (timeout : option Z) (obs : observation)
    (w : world) :
  execute_task_call extract workspace_path prompt auto_accept session_id timeout
    obs w
  = (Ok (execute_task extract workspace_path prompt auto_accept session_id timeout
           obs),
     set_dirs ({[WorkspaceManager.joinpath workspace_path ".claude"]} ∪ dirs w) w).
Proof. reflexivity. Qed.

(** The keys of a scan are those of its files, each once. *)
Lemma elem_of_keys (files : gmap string Qc) (f : string) :
  f ∈ keys files ↔ is_Some (files !! f).
Proof.
  unfold keys. rewrite list_elem_of_fmap. split.
  - intros ([k t] & -> & H). apply elem_of_map_to_list in H. by exists t.
  - intros [t H]. exists (f, t). split; [done |]. by apply elem_of_map_to_list.
Qed.

Lemma NoDup_keys (files : gmap string Qc) : NoDup (keys files).
Proof. apply NoDup_fst_map_to_list. Qed.

(** Which files [_detect_file_changes] lists. *)
Lemma detect_file_changes_elem (initial final : gmap string Qc)
    (workspace_path f : string) :
  f ∈ _detect_file_changes initial final workspace_path ↔
  (is_Some (final !! f) ∧ initial !! f = None)
  ∨ (∃ t0 t1, initial !! f = Some t0 ∧ final !! f = Some t1 ∧ (t0 < t1)%Qc).
Proof.
  unfold _detect_file_changes.
  rewrite elem_of_app, !list_elem_of_filter, !elem_of_keys.
  unfold is_new, is_modified. split.
  - intros [[Hnew Hfin] | [Hmod Hini]]; [by left | right].
    destruct (initial !! f) as [t0|], (final !! f) as [t1|]; try done.
    by exists t0, t1.
  - intros [[Hfin Hnew] | (t0 & t1 & H0 & H1 & Hlt)]; [by left | right].
    rewrite H0, H1. split; [done | by exists t0].
Qed.

Lemma detect_file_changes_NoDup (initial final : gmap string Qc)
    (workspace_path : string) :
  NoDup (_detect_file_changes initial final workspace_path).
Proof.
  unfold _detect_file_changes. apply NoDup_app. split; [| split].
  - apply NoDup_filter, NoDup_keys.
  - intros f [Hnew _]%list_elem_of_filter [Hmod _]%list_elem_of_filter.
    unfold is_new in Hnew. unfold is_modified in Hmod. by rewrite Hnew in Hmod.
  - apply NoDup_filter, NoDup_keys.
Qed.

(** A list without repetition whose only member is [x] is [[x]]. *)
Lemma NoDup_singleton_elem {A} (l : list A) (x : A) :
  NoDup l → (∀ y, y ∈ l ↔ y = x) → l = [x].
Proof.
  intros Hnd Hl. destruct l as [|a [|b l]].
  - assert (x ∈ @nil A) as H by (by apply Hl). by apply elem_of_nil in H.
  - f_equal. apply Hl. by left.
  - assert (a = x) as -> by (apply Hl; by left).
    assert (b = x) as -> by (apply Hl; right; by left).
    apply NoDup_cons in Hnd as [Hnd _]. exfalso. apply Hnd. by left.
Qed.

(** C9.  The changed-file list holds, each once, the files absent from the
    initial scan and the files of both scans whose time strictly grew; a
    file absent from the final scan is never listed; equal scans give the
    empty list, and one added file gives the list of that file alone. *)
Theorem detect_file_changes_spec (initial final : gmap string Qc)
    (workspace_path : string) :
  (∀ f, f ∈ _detect_file_changes initial final workspace_path ↔
        (is_Some (final !! f) ∧ initial !! f = None)
        ∨ (∃ t0 t1, initial !! f = Some t0 ∧ final !! f = Some t1 ∧ (t0 < t1)%Qc))
  ∧ NoDup (_detect_file_changes initial final workspace_path)
  ∧ (∀ f, final !! f = None →
          f ∉ _detect_file_changes initial final workspace_path)
  ∧ _detect_file_changes initial initial workspace_path = []
  ∧ (∀ f t, initial !! f = None →
            _detect_file_changes initial (<[f := t]> initial) workspace_path = [f]).
Proof.
  split; [| split; [| split; [| split]]].
  - intros f. apply detect_file_changes_elem.
  - apply detect_file_changes_NoDup.
  - intros f Hgone [[[t H] _] | (t0 & t1 & _ & H & _)]%detect_file_changes_elem;
      congruence.
  - apply elem_of_nil_inv. intros f.
    intros [[[t H] Hn] | (t0 & t1 & H0 & H1 & Hlt)]%detect_file_changes_elem.
    + congruence.
    + assert (t0 = t1) as -> by congruence. by apply Qclt_not_eq in Hlt.
  - intros f t Hnew. apply NoDup_singleton_elem.
    + apply detect_file_changes_NoDup.
    + intros g. rewrite detect_file_changes_elem. split.
      * intros [[Hfin Hg] | (t0 & t1 & H0 & H1 & Hlt)].
        -- destruct (decide (f = g)) as [-> | Hne]; [done |].
           rewrite lookup_insert_ne in Hfin by done.
           destruct Hfin as [t' H]. congruence.
        -- destruct (decide (f = g)) as [-> | Hne]; [done |].
           rewrite lookup_insert_ne in H1 by done.
           assert (t0 = t1) as -> by congruence. by apply Qclt_not_eq in Hlt.
      * intros ->. left. rewrite lookup_insert_eq. by split; [eexists |].
Qed.

End executor_facts.

(** ** The task store *)

Section store_facts.

Import YamlTaskManager.

Lemma dict_get_set_eq (k : string) (v : yaml) (d : list (string * yaml)) :
  dict_get k (dict_set k v d) = Some v.
Proof.
  induction d as [|[k' v'] d IH]; simpl.
  - by rewrite String.eqb_refl.
  - destruct (String.eqb k' k) eqn:E; simpl; rewrite E; [done | exact IH].
Qed.

Lemma dict_get_set_ne (k k' : string) (v : yaml) (d : list (string * yaml)) :
  k ≠ k' → dict_get k' (dict_set k v d) = dict_get k' d.
Proof.
  intros Hne. induction d as [|[k0 v0] d IH]; simpl.
  - apply String.eqb_neq in Hne. by rewrite Hne.
  - destruct (String.eqb k0 k) eqn:E; simpl.
    + apply String.eqb_eq in E as ->.
      apply String.eqb_neq in Hne. by rewrite Hne.
    + by rewrite IH.
Qed.

(** Reading the file never writes it. *)
Lemma load_tasks_data_frame (w : world) :
  ∃ data w1, _load_tasks_data w = (Ok data, w1) ∧ tasks_file w1 = tasks_file w.
Proof.
  unfold _load_tasks_data, bind, read_file.
  destruct (tasks_file w) as [| |[]] eqn:E; simpl; eauto.
Qed.

(** On a file that [has_meta], what is read is a mapping with a metadata
    mapping. *)
Lemma load_tasks_data_meta (w : world) :
  has_meta (tasks_file w) →
  ∃ entries meta w1,
    _load_tasks_data w = (Ok (YMap entries), w1) ∧
    dict_get "meta" entries = Some (YMap meta) ∧
    tasks_file w1 = tasks_file w ∧
    active_workspaces w1 = active_workspaces w.
Proof.
  unfold has_meta, _load_tasks_data, bind, read_file.
  destruct (tasks_file w) as [| |[]] eqn:E; simpl; try done;
    try (intros _; by eexists _, _, _).
  intros [meta H]. by eexists _, meta, _.
Qed.

Lemma post_init_frame (a : TaskConfig.args) (w : world) :
  ∃ t w1, __post_init__ a w = (Ok t, w1) ∧ tasks_file w1 = tasks_file w
          ∧ TaskConfig.id t = TaskConfig.a_id a.
Proof.
  unfold __post_init__, bind. destruct (TaskConfig.a_created_at a); simpl; eauto.
Qed.

Lemma TaskConfig_kwargs_frame (d : yaml) (w : world) r w1 :
  TaskConfig_kwargs d w = (r, w1) → tasks_file w1 = tasks_file w.
Proof.
  destruct d; simpl; try (intros [= <- <-]; done).
  unfold bind, lift. destruct (bind_kwargs entries) as [a|e].
  - destruct (post_init_frame a w) as (t & w2 & -> & Hf & _). by intros [= <- <-].
  - by intros [= <- <-].
Qed.

Lemma mapM_kwargs_frame (ds : list yaml) (w : world) r w1 :
  mapM TaskConfig_kwargs ds w = (r, w1) → tasks_file w1 = tasks_file w.
Proof.
  revert w r w1. induction ds as [|d ds IH]; intros w r w1; simpl.
  - by intros [= <- <-].
  - unfold bind at 1.
    destruct (TaskConfig_kwargs d w) as [[t|e] w2] eqn:E1;
      apply TaskConfig_kwargs_frame in E1.
    + unfold bind.
      destruct (mapM TaskConfig_kwargs ds w2) as [[ts|e] w3] eqn:E2;
        apply IH in E2; intros [= <- <-]; congruence.
    + intros [= <- <-]. done.
Qed.

Lemma load_tasks_frame (w : world) r w1 :
  load_tasks w = (r, w1) → tasks_file w1 = tasks_file w.
Proof.
  unfold load_tasks. unfold bind at 1.
  destruct (load_tasks_data_frame w) as (data & w2 & -> & Hf).
  unfold bind at 1.
  assert (∃ r2, get_default data "tasks" (YList []) w2 = (r2, w2)) as [r2 ->]
    by (destruct data; simpl; eauto).
  destruct r2 as [items|e]; [| intros [= <- <-]; done].
  unfold bind at 1.
  assert (∃ r3, iterate items w2 = (r3, w2)) as [r3 ->]
    by (destruct items; simpl; eauto).
  destruct r3 as [ds|e]; [| intros [= <- <-]; done].
  intros H%mapM_kwargs_frame. congruence.
Qed.

(** Decoding what [asdict] wrote gives the task back and reads no clock. *)
Lemma TaskConfig_kwargs_asdict (t : TaskConfig.t) (w : world) :
  TaskConfig_kwargs (asdict t) w = (Ok t, w).
Proof.
  destruct t as [i ti d p s c st co a m e se wp].
  destruct st, co, e, se, wp; reflexivity.
Qed.

Lemma mapM_kwargs_asdict (ts : list TaskConfig.t) (w : world) :
  mapM TaskConfig_kwargs (asdict <$> ts) w = (Ok ts, w).
Proof.
  induction ts as [|t ts IH]; [done |].
  rewrite fmap_cons. cbn [mapM]. unfold bind.
  by rewrite TaskConfig_kwargs_asdict, IH.
Qed.

(** Loading a file whose task list is the image of [ts] gives [ts]. *)
Lemma load_tasks_of_saved (ts : list TaskConfig.t) (w : world) entries :
  tasks_file w = Doc (YMap entries) →
  dict_get "tasks" entries = Some (YList (asdict <$> ts)) →
  load_tasks w = (Ok ts, w).
Proof.
  intros Hf Ht. unfold load_tasks, _load_tasks_data, read_file, bind.
  rewrite Hf. simpl. rewrite Ht. simpl. apply mapM_kwargs_asdict.
Qed.

(** Saving on a file that [has_meta] returns, and leaves a mapping whose
    task list is the image of the saved tasks. *)
Lemma save_tasks_file (ts : list TaskConfig.t) (w : world) :
  has_meta (tasks_file w) →
  ∃ w' entries,
    save_tasks ts w = (Ok (), w') ∧
    tasks_file w' = Doc (YMap entries) ∧
    dict_get "tasks" entries = Some (YList (asdict <$> ts)) ∧
    has_meta (tasks_file w') ∧
    active_workspaces w' = active_workspaces w.
Proof.
  intros (entries & meta & w1 & Hload & Hmeta & Hf & Hact)%load_tasks_data_meta.
  unfold save_tasks, bind. rewrite Hload. simpl.
  unfold _save_tasks_data, bind, now. simpl.
  rewrite dict_get_set_ne by done. rewrite Hmeta. simpl.
  eexists _, _. split; [reflexivity |]. simpl. split; [reflexivity |].
  split; [| split; [| exact Hact]].
  - rewrite dict_get_set_ne by done. apply dict_get_set_eq.
  - eexists. apply dict_get_set_eq.
Qed.

(** The store keeps its file rewritable: [__init__] makes it so when there
    is no file, and every operation that returns or raises leaves it so. *)
Lemma init_has_meta (w : world) :
  tasks_file w = Missing →
  ∃ w', init w = (Ok (), w') ∧ has_meta (tasks_file w')
        ∧ load_tasks w' = (Ok [], w').
Proof.
  intros Hf. unfold init, bind, make_dir, read_file. simpl. rewrite Hf. simpl.
  eexists. split; [reflexivity |]. split; [simpl; by eexists | reflexivity].
Qed.

Lemma save_tasks_has_meta (ts : list TaskConfig.t) (w : world) r w' :
  has_meta (tasks_file w) → save_tasks ts w = (r, w') → has_meta (tasks_file w').
Proof.
  intros (w2 & entries & E & _ & _ & Hmeta & _)%(save_tasks_file ts) H. congruence.
Qed.

Lemma update_task_has_meta (task_id : string) (updates : list update) (w : world)
    r w' :
  has_meta (tasks_file w) → update_task task_id updates w = (r, w') →
  has_meta (tasks_file w').
Proof.
  intros Hmeta. unfold update_task. unfold bind at 1.
  destruct (load_tasks w) as [[ts|e] w1] eqn:El;
    pose proof (load_tasks_frame _ _ _ El) as Hf; rewrite <- Hf in Hmeta.
  - destruct (update_first task_id updates ts) as [ts'|].
    + unfold bind. destruct (save_tasks ts' w1) as [[[]|e] w2] eqn:Es;
        apply save_tasks_has_meta in Es; try done; by intros [= <- <-].
    + by intros [= <- <-].
  - by intros [= <- <-].
Qed.

Lemma delete_task_has_meta (task_id : string) (w : world) r w' :
  has_meta (tasks_file w) → delete_task task_id w = (r, w') →
  has_meta (tasks_file w').
Proof.
  intros Hmeta. unfold delete_task. unfold bind at 1.
  destruct (load_tasks w) as [[ts|e] w1] eqn:El;
    pose proof (load_tasks_frame _ _ _ El) as Hf; rewrite <- Hf in Hmeta.
  - destruct (_ <? _)%nat.
    + unfold bind.
      destruct (save_tasks _ w1) as [[[]|e] w2] eqn:Es;
        apply save_tasks_has_meta in Es; try done; by intros [= <- <-].
    + by intros [= <- <-].
  - by intros [= <- <-].
Qed.

(** C6.  On a tasks file that can be rewritten, saving a list of tasks
    returns, and loading afterwards returns that same list, field by
    field. *)
Theorem save_load_roundtrip (tasks : list TaskConfig.t) (w : world) :
  has_meta (tasks_file w) →
  ∃ w' w'', save_tasks tasks w = (Ok (), w') ∧ load_tasks w' = (Ok tasks, w'').
Proof.
  intros (w' & entries & Hsave & Hf & Ht & _)%(save_tasks_file tasks).
  exists w', w'. split; [done |]. by eapply load_tasks_of_saved.
Qed.

(** The ids of the loaded tasks do not depend on the clock. *)
Lemma TaskConfig_kwargs_id (d : yaml) (w : world) t w1 :
  TaskConfig_kwargs d w = (Ok t, w1) →
  ∀ w2, ∃ t2 w3, TaskConfig_kwargs d w2 = (Ok t2, w3)
                 ∧ TaskConfig.id t2 = TaskConfig.id t.
Proof.
  destruct d; simpl; try (intros [=]; done).
  unfold bind, lift. destruct (bind_kwargs entries) as [a|e]; [| intros [=]; done].
  intros H w2.
  destruct (post_init_frame a w) as (t1 & w1' & E1 & _ & Hid1).
  destruct (post_init_frame a w2) as (t2 & w3 & E2 & _ & Hid2).
  rewrite E1 in H. injection H as <- <-.
  exists t2, w3. split; [done | congruence].
Qed.

Lemma mapM_kwargs_ids (ds : list yaml) (w : world) ts w1 :
  mapM TaskConfig_kwargs ds w = (Ok ts, w1) →
  ∀ w2, ∃ ts2 w3, mapM TaskConfig_kwargs ds w2 = (Ok ts2, w3)
                  ∧ TaskConfig.id <$> ts2 = TaskConfig.id <$> ts.
Proof.
  revert w ts w1. induction ds as [|d ds IH]; intros w ts w1; simpl.
  - intros [= <- <-] w2. by exists [], w2.
  - unfold bind at 1.
    destruct (TaskConfig_kwargs d w) as [[t|e] wa] eqn:E1; [| intros [=]; done].
    unfold bind at 1.
    destruct (mapM TaskConfig_kwargs ds wa) as [[ts'|e] wb] eqn:E2;
      [| intros [=]; done].
    intros [= <- <-] w2.
    destruct (TaskConfig_kwargs_id _ _ _ _ E1 w2) as (t2 & w3 & E3 & Hid).
    destruct (IH _ _ _ E2 w3) as (ts2 & w4 & E4 & Hids).
    exists (t2 :: ts2), w4. unfold bind. rewrite E3, E4.
    split; [done |]. by rewrite !fmap_cons, Hid, Hids.
Qed.

Lemma load_tasks_ids (w : world) ts w1 (w2 : world) :
  load_tasks w = (Ok ts, w1) →
  tasks_file w2 = tasks_file w →
  ∃ ts2 w3, load_tasks w2 = (Ok ts2, w3)
            ∧ TaskConfig.id <$> ts2 = TaskConfig.id <$> ts.
Proof.
  intros Hl Hf. unfold load_tasks, _load_tasks_data, read_file, bind in *.
  rewrite Hf. destruct (tasks_file w) as [| |data]; simpl in *.
  - injection Hl as <- <-. by eexists [], _.
  - injection Hl as <- <-. by eexists [], _.
  - destruct data as [| | | | |entries]; simpl in *; try discriminate.
    + injection Hl as <- <-. by eexists [], _.
    + destruct (default (YList []) (dict_get "tasks" entries)) as [| | | | |];
        simpl in *; try discriminate; by eapply mapM_kwargs_ids.
Qed.

Lemma find_unknown (task_id : string) (ts : list TaskConfig.t) :
  task_id ∉ TaskConfig.id <$> ts →
  List.find (λ task, String.eqb (TaskConfig.id task) task_id) ts = None.
Proof.
  induction ts as [|t ts IH]; [done |]. rewrite fmap_cons, not_elem_of_cons.
  intros [Hne Hrest]. simpl.
  destruct (String.eqb (TaskConfig.id t) task_id) eqn:E; [| by apply IH].
  apply String.eqb_eq in E. congruence.
Qed.

Lemma update_first_unknown (task_id : string) (updates : list update)
    (ts : list TaskConfig.t) :
  task_id ∉ TaskConfig.id <$> ts → update_first task_id updates ts = None.
Proof.
  induction ts as [|t ts IH]; [done |]. rewrite fmap_cons, not_elem_of_cons.
  intros [Hne Hrest]. simpl.
  destruct (String.eqb (TaskConfig.id t) task_id) eqn:E.
  - apply String.eqb_eq in E. congruence.
  - by rewrite IH.
Qed.

(** Whatever the clock shows, an id that the file does not hold is not
    found and not updated, and the file stays as it is. *)
Lemma get_task_unknown (w : world) ts w1 (task_id : string) :
  load_tasks w = (Ok ts, w1) →
  task_id ∉ TaskConfig.id <$> ts →
  ∀ w2, tasks_file w2 = tasks_file w →
        ∃ w3, get_task task_id w2 = (Ok None, w3) ∧ tasks_file w3 = tasks_file w.
Proof.
  intros Hl Hid w2 Hf.
  destruct (load_tasks_ids _ _ _ w2 Hl Hf) as (ts2 & w3 & Hl2 & Hids).
  exists w3. unfold get_task, bind. rewrite Hl2. simpl. split.
  - rewrite find_unknown; [done |]. by rewrite Hids.
  - apply load_tasks_frame in Hl2. congruence.
Qed.

Lemma update_task_unknown (w : world) ts w1 (task_id : string)
    (updates : list update) :
  load_tasks w = (Ok ts, w1) →
  task_id ∉ TaskConfig.id <$> ts →
  ∀ w2, tasks_file w2 = tasks_file w →
        ∃ w3, update_task task_id updates w2 = (Ok false, w3)
              ∧ tasks_file w3 = tasks_file w.
Proof.
  intros Hl Hid w2 Hf.
  destruct (load_tasks_ids _ _ _ w2 Hl Hf) as (ts2 & w3 & Hl2 & Hids).
  exists w3. unfold update_task, bind. rewrite Hl2.
  rewrite update_first_unknown by (by rewrite Hids). split; [done |].
  apply load_tasks_frame in Hl2. congruence.
Qed.

(** C10.  For an id that no task of the loaded store has, [update_task]
    returns [False] and the tasks file is left as it was, and so does each
    status helper built on it. *)
Theorem update_task_unknown_id (task_id : string) (w : world)
    (tasks : list TaskConfig.t) (w1 : world) :
  load_tasks w = (Ok tasks, w1) →
  task_id ∉ TaskConfig.id <$> tasks →
  (∀ updates, ∃ w', update_task task_id updates w = (Ok false, w')
                    ∧ tasks_file w' = tasks_file w)
  ∧ (∀ session_id, ∃ w', mark_task_running task_id session_id w = (Ok false, w')
                         ∧ tasks_file w' = tasks_file w)
  ∧ (∃ w', mark_task_completed task_id w = (Ok false, w')
           ∧ tasks_file w' = tasks_file w)
  ∧ (∀ error, ∃ w', mark_task_failed task_id error w = (Ok false, w')
                    ∧ tasks_file w' = tasks_file w)
  ∧ (∀ reason, ∃ w', mark_task_paused task_id reason w = (Ok false, w')
                     ∧ tasks_file w' = tasks_file w)
  ∧ (∃ w', reset_task task_id w = (Ok false, w') ∧ tasks_file w' = tasks_file w).
Proof.
  intros Hl Hid.
  pose proof (λ updates, update_task_unknown _ _ _ _ updates Hl Hid) as Hupd.
  pose proof (get_task_unknown _ _ _ _ Hl Hid) as Hget.
  split; [| split; [| split; [| split; [| split]]]].
  - intros updates. by apply Hupd.
  - intros session_id. unfold mark_task_running, bind at 1, now.
    destruct (Hget (set_ticks (S (ticks w)) w) eq_refl) as (wa & Eget & Hfa).
    unfold bind at 1. rewrite Eget. unfold bind at 1, ret.
    by apply Hupd.
  - unfold mark_task_completed, bind, now. by apply Hupd.
  - intros error. unfold mark_task_failed, bind, now. by apply Hupd.
  - intros reason. by apply Hupd.
  - by apply Hupd.
Qed.

(** The first task with the id is the one [update_task] changes. *)
Lemma update_first_known (task_id : string) (updates : list update)
    (ts : list TaskConfig.t) :
  task_id ∈ TaskConfig.id <$> ts →
  ∃ old ts',
    List.find (λ task, String.eqb (TaskConfig.id task) task_id) ts = Some old ∧
    update_first task_id updates ts = Some ts' ∧
    (TaskConfig.id (foldl setattr old updates) = task_id →
     List.find (λ task, String.eqb (TaskConfig.id task) task_id) ts'
     = Some (foldl setattr old updates)).
Proof.
  induction ts as [|t ts IH]; [by intros ?%elem_of_nil |].
  rewrite fmap_cons. intros Hin. simpl.
  destruct (String.eqb (TaskConfig.id t) task_id) eqn:E.
  - exists t, (foldl setattr t updates :: ts). split; [done |]. split; [done |].
    intros Hid. simpl. apply String.eqb_eq in Hid. by rewrite Hid.
  - apply elem_of_cons in Hin as [Heq | Hin].
    { apply String.eqb_neq in E. congruence. }
    destruct (IH Hin) as (old & ts' & Hfind & Hupd & Hnew).
    exists old, (t :: ts'). split; [done |]. rewrite Hupd. split; [done |].
    intros Hid. simpl. rewrite E. by apply Hnew.
Qed.

Lemma update_task_known (task_id : string) (updates : list update) (w : world)
    ts w1 ts' :
  has_meta (tasks_file w) →
  load_tasks w = (Ok ts, w1) →
  update_first task_id updates ts = Some ts' →
  ∃ w', update_task task_id updates w = (Ok true, w')
        ∧ load_tasks w' = (Ok ts', w').
Proof.
  intros Hmeta Hl Hupd. unfold update_task, bind. rewrite Hl, Hupd.
  pose proof (load_tasks_frame _ _ _ Hl) as Hf. rewrite <- Hf in Hmeta.
  destruct (save_tasks_file ts' w1 Hmeta) as (w' & entries & -> & Hf' & Ht & _).
  exists w'. split; [done |]. by eapply load_tasks_of_saved.
Qed.

Lemma bind_ok {A B} (m : M A) (k : A → M B) (w : world) a w' :
  m w = (Ok a, w') → bind m k w = k a w'.
Proof. intros H. unfold bind. by rewrite H. Qed.

(** On a file the store wrote, loading reads no clock. *)
Lemma stored_load (ts : list TaskConfig.t) (w : world) :
  stored ts w → load_tasks w = (Ok ts, w).
Proof. intros (entries & meta & Hf & Ht & _). by eapply load_tasks_of_saved. Qed.

Lemma stored_get_task (ts : list TaskConfig.t) (w : world) (task_id : string) :
  stored ts w →
  get_task task_id w
  = (Ok (List.find (λ task, String.eqb (TaskConfig.id task) task_id) ts), w).
Proof. intros H. unfold get_task. by rewrite (bind_ok _ _ _ _ _ (stored_load _ _ H)). Qed.

Lemma update_first_find (task_id : string) (updates : list update)
    (ts : list TaskConfig.t) (old : TaskConfig.t) :
  List.find (λ task, String.eqb (TaskConfig.id task) task_id) ts = Some old →
  TaskConfig.id (foldl setattr old updates) = task_id →
  ∃ ts', update_first task_id updates ts = Some ts'
         ∧ List.find (λ task, String.eqb (TaskConfig.id task) task_id) ts'
           = Some (foldl setattr old updates).
Proof.
  intros Hfind Hid. induction ts as [|t ts IH]; [done |]. simpl in *.
  destruct (String.eqb (TaskConfig.id t) task_id) eqn:E.
  - injection Hfind as ->. eexists. split; [done |]. simpl.
    apply String.eqb_eq in Hid. by rewrite Hid.
  - destruct (IH Hfind) as (ts' & -> & Hnew). eexists. split; [done |].
    simpl. by rewrite E.
Qed.

(** An update of a stored task: the first task with the id is replaced,
    the file is again one the store wrote, the workspaces are not touched. *)
Lemma update_task_stored (task_id : string) (updates : list update) (w : world)
    (ts : list TaskConfig.t) (old : TaskConfig.t) :
  stored ts w →
  List.find (λ task, String.eqb (TaskConfig.id task) task_id) ts = Some old →
  TaskConfig.id (foldl setattr old updates) = task_id →
  ∃ w' ts',
    update_task task_id updates w = (Ok true, w')
    ∧ stored ts' w'
    ∧ List.find (λ task, String.eqb (TaskConfig.id task) task_id) ts'
      = Some (foldl setattr old updates)
    ∧ active_workspaces w' = active_workspaces w.
Proof.
  intros Hst Hfind Hid.
  destruct (update_first_find _ _ _ _ Hfind Hid) as (ts' & Hupd & Hnew).
  unfold update_task. rewrite (bind_ok _ _ _ _ _ (stored_load _ _ Hst)), Hupd.
  assert (has_meta (tasks_file w)) as Hmeta.
  { destruct Hst as (entries & meta & -> & _ & Hm). by exists meta. }
  destruct (save_tasks_file ts' w Hmeta)
    as (w' & entries & Hsave & Hf & Ht & Hm & Hact).
  exists w', ts'. rewrite (bind_ok _ _ _ _ _ Hsave).
  split; [done |]. split; [| by split].
  rewrite Hf in Hm. destruct Hm as [meta Hm]. by exists entries, meta.
Qed.

(** C5.  For an id that some task of the store has, whatever that task's
    status, [reset_task] returns [True], and the task then found under the
    id has status pending and no start time, completion time, error or
    session id; its other fields are those it had. *)
Theorem reset_task_clears (task_id : string) (w : world)
    (tasks : list TaskConfig.t) (w1 : world) :
  has_meta (tasks_file w) →
  load_tasks w = (Ok tasks, w1) →
  task_id ∈ TaskConfig.id <$> tasks →
  ∃ old w' task w'',
    List.find (λ task, String.eqb (TaskConfig.id task) task_id) tasks = Some old ∧
    reset_task task_id w = (Ok true, w') ∧
    get_task task_id w' = (Ok (Some task), w'') ∧
    task = {| TaskConfig.id := TaskConfig.id old;
              TaskConfig.title := TaskConfig.title old;
              TaskConfig.description := TaskConfig.description old;
              TaskConfig.prompt_template := TaskConfig.prompt_template old;
              TaskConfig.status := "pending";
              TaskConfig.created_at := TaskConfig.created_at old;
              TaskConfig.started_at := None;
              TaskConfig.completed_at := None;
              TaskConfig.attempts := TaskConfig.attempts old;
              TaskConfig.max_attempts := TaskConfig.max_attempts old;
              TaskConfig.last_error := None;
              TaskConfig.session_id := None;
              TaskConfig.workspace_path := TaskConfig.workspace_path old |}.
Proof.
  intros Hmeta Hl Hin.
  set (updates := [set_status "pending"; set_started_at None; set_completed_at None;
                   set_last_error None; set_session_id None]).
  destruct (update_first_known task_id updates tasks Hin)
    as (old & ts' & Hfind & Hupd & Hnew).
  destruct (update_task_known _ _ _ _ _ _ Hmeta Hl Hupd) as (w' & Hreset & Hl').
  assert (Hid : TaskConfig.id old = task_id).
  { apply find_some in Hfind as [_ E]. by apply String.eqb_eq in E. }
  exists old, w', (foldl setattr old updates), w'.
  split; [done |]. split; [exact Hreset |]. split.
  - unfold get_task, bind, ret. rewrite Hl'.
    rewrite Hnew; [done |]. by destruct old.
  - by destruct old.
Qed.

End store_facts.

(** ** The quota monitor *)

Section monitor_facts.

Import TokenMonitor TokenUsageInfo.

(** C4.  [can_run_tasks] answers no when the status check gave nothing; it
    answers no, with a reason that names the critical threshold, when the
    usage ratio is at or above the critical threshold; it answers yes when
    the ratio is strictly below it. *)
Theorem can_run_tasks_spec (format_percent : Qc → string) (self : TokenMonitor.t) :
  fst (can_run_tasks format_percent self None) = false
  ∧ (∀ status,
       (critical_threshold self ≤ percentage_used status)%Qc →
       fst (can_run_tasks format_percent self (Some status)) = false
       ∧ occurs "critical threshold"
           (snd (can_run_tasks format_percent self (Some status))))
  ∧ (∀ status,
       (percentage_used status < critical_threshold self)%Qc →
       fst (can_run_tasks format_percent self (Some status)) = true).
Proof.
  split; [done |]. split.
  - intros status Hcrit. unfold can_run_tasks.
    rewrite bool_decide_eq_true_2 by done. split; [done |]. simpl.
    exists ("Token usage at " +:+ format_percent (percentage_used status)
            +:+ ", above "). eexists.
    rewrite !append_assoc. reflexivity.
  - intros status Hlow. unfold can_run_tasks.
    rewrite bool_decide_eq_false_2; [done |]. by apply Qclt_not_le.
Qed.

End monitor_facts.

(** ** Adding a task *)

Section add_task_facts.

Import YamlTaskManager.

(** When the loop of [add_task] ends, the id it ends with is taken by no
    task. *)
Lemma unique_id_loop_fresh (fuel : nat) (tasks : list TaskConfig.t)
    (candidate task_id : string) :
  unique_id_loop fuel tasks candidate = Some task_id →
  id_taken tasks task_id = false.
Proof.
  revert candidate. induction fuel as [|fuel IH]; intros candidate; simpl.
  - done.
  - destruct (id_taken tasks candidate) eqn:E; [apply IH |].
    by intros [= <-].
Qed.

(** The loop ends at once on a free first candidate, after one round on a
    free second candidate, and never when both are taken: its body
    computes the same second candidate on every round. *)
Lemma unique_id_loop_cases (tasks : list TaskConfig.t) (candidate : string) :
  (id_taken tasks candidate = false →
   ∀ fuel, unique_id_loop (S fuel) tasks candidate = Some candidate)
  ∧ (id_taken tasks candidate = true →
     id_taken tasks (retry_id tasks) = false →
     ∀ fuel, unique_id_loop (S (S fuel)) tasks candidate = Some (retry_id tasks))
  ∧ (id_taken tasks candidate = true →
     id_taken tasks (retry_id tasks) = true →
     ∀ fuel, unique_id_loop fuel tasks candidate = None).
Proof.
  split; [| split].
  - intros H fuel. simpl. by rewrite H.
  - intros H1 H2 fuel. simpl. by rewrite H1, H2.
  - intros H1 H2 fuel.
    assert (∀ n, unique_id_loop n tasks (retry_id tasks) = None) as Hretry.
    { induction n as [|n IH]; simpl; [done |]. by rewrite H2. }
    destruct fuel as [|fuel]; simpl; [done |]. by rewrite H1.
Qed.

Lemma id_taken_elem (tasks : list TaskConfig.t) (task_id : string) :
  id_taken tasks task_id = false ↔ task_id ∉ TaskConfig.id <$> tasks.
Proof.
  unfold id_taken, Py.any. induction tasks as [|t ts IH]; cbn [existsb].
  - split; [intros _ H; by apply elem_of_nil in H | done].
  - rewrite orb_false_iff, IH, fmap_cons, not_elem_of_cons.
    rewrite String.eqb_neq. split; intros [H1 H2]; (split; [congruence | done]).
Qed.

(** When [add_task] returns a task, that task's id is the id of no task
    already stored, its status is pending, and the stored list is the old
    one with the new task at its end. *)
Lemma add_task_returns (fuel : nat) (title description prompt_template : string)
    (w : world) (tasks : list TaskConfig.t) (w1 : world) (new_task : TaskConfig.t)
    (w' : world) :
  load_tasks w = (Ok tasks, w1) →
  add_task fuel title description prompt_template w = (Ok (Some new_task), w') →
  (TaskConfig.id new_task ∉ TaskConfig.id <$> tasks)
  ∧ TaskConfig.status new_task = "pending"
  ∧ TaskConfig.title new_task = title
  ∧ TaskConfig.description new_task = description
  ∧ TaskConfig.prompt_template new_task = prompt_template
  ∧ ∃ w'', load_tasks w' = (Ok (tasks ++ [new_task]), w'').
Proof.
  intros Hl. unfold add_task. unfold bind at 1. rewrite Hl.
  destruct (unique_id_loop fuel tasks (task_id_of (length tasks + 1))) as [task_id|]
    eqn:Eloop; [| intros [=]; done].
  apply unique_id_loop_fresh, id_taken_elem in Eloop.
  unfold bind at 1, __post_init__, bind at 1, now, ret. cbn [TaskConfig.a_created_at].
  unfold bind at 1.
  set (t := TaskConfig.with_created_at _ _).
  set (w2 := set_ticks _ _).
  destruct (save_tasks (tasks ++ [t]) w2) as [[[]|e] w3] eqn:Esave;
    [| intros [=]; done].
  intros [= <- <-]. do 5 (split; [done |]).
  unfold save_tasks in Esave. unfold bind at 1 in Esave.
  destruct (load_tasks_data_frame w2) as (data & wa & Eld & _).
  rewrite Eld in Esave. unfold bind at 1 in Esave.
  destruct data as [| | | | |entries]; simpl in Esave; try discriminate.
  unfold _save_tasks_data, bind, now in Esave. simpl in Esave.
  rewrite dict_get_set_ne in Esave by done.
  destruct (dict_get "meta" entries) as [[| | | | |meta]|]; simpl in Esave;
    try discriminate.
  injection Esave as <-. eexists. eapply load_tasks_of_saved; [reflexivity |].
  rewrite dict_get_set_ne by done. apply dict_get_set_eq.
Qed.

(** C2 on the code.  When the id numbered one past the count of tasks is
    taken and the id the loop body computes is taken too, [add_task] has
    not returned after any number of rounds of its loop: it has loaded the
    tasks and written nothing. *)
Theorem add_task_never_returns (fuel : nat)
    (title description prompt_template : string) (w : world)
    (tasks : list TaskConfig.t) (w1 : world) :
  load_tasks w = (Ok tasks, w1) →
  id_taken tasks (task_id_of (length tasks + 1)) = true →
  id_taken tasks (retry_id tasks) = true →
  add_task fuel title description prompt_template w = (Ok None, w1).
Proof.
  intros Hl Hfirst Hsecond. unfold add_task. rewrite (bind_ok _ _ _ _ _ Hl).
  destruct (unique_id_loop_cases tasks (task_id_of (length tasks + 1)))
    as (_ & _ & Hloop).
  by rewrite Hloop.
Qed.

Lemma add_task_has_meta (fuel : nat) (title description prompt_template : string)
    (w : world) r w' :
  has_meta (tasks_file w) →
  add_task fuel title description prompt_template w = (r, w') →
  has_meta (tasks_file w').
Proof.
  intros Hmeta. unfold add_task. unfold bind at 1.
  destruct (load_tasks w) as [[ts|e] w1] eqn:El;
    pose proof (load_tasks_frame _ _ _ El) as Hf; rewrite <- Hf in Hmeta;
    [| by intros [= <- <-]].
  destruct (unique_id_loop fuel ts _) as [task_id|]; [| by intros [= <- <-]].
  unfold bind at 1, __post_init__, bind at 1, now, ret. cbn [TaskConfig.a_created_at].
  unfold bind at 1.
  destruct (save_tasks _ _) as [[[]|e] w2] eqn:Es;
    apply save_tasks_has_meta in Es; try done; by intros [= <- <-].
Qed.

End add_task_facts.

(** ** Workspaces *)

Section workspace_facts.

Import WorkspaceManager WorkspaceInfo.

Lemma create_workspace_lookup (task_id : string) (template_name : option string)
    (temporary : bool) (w : world) (info : WorkspaceInfo.t) :
  active_workspaces w !! task_id = Some info →
  create_workspace task_id template_name temporary w = (Ok (workspace_path info), w).
Proof. intros H. unfold create_workspace, bind, get_world. by rewrite H. Qed.

(** [create_workspace] for a registered id returns the registered path and
    changes nothing: no directory is made, no registry is written. *)
Theorem create_workspace_registered (task_id : string)
    (template_name : option string) (temporary : bool) (w : world)
    (info : WorkspaceInfo.t) :
  active_workspaces w !! task_id = Some info →
  create_workspace task_id template_name temporary w = (Ok (workspace_path info), w).
Proof. apply create_workspace_lookup. Qed.

Lemma create_basic_workspace_raises (path : string) (w : world) :
  ∃ w', _create_basic_workspace path w = (Raise (NameError "datetime"), w')
        ∧ active_workspaces w' = active_workspaces w
        ∧ registry_file w' = registry_file w
        ∧ dirs w ⊆ dirs w'.
Proof.
  eexists. split; [reflexivity |]. simpl. split; [done |]. split; [done |].
  set_solver.
Qed.

(** Without a template, [create_workspace] for an id that is not
    registered makes its directory and then raises: it returns no path and
    registers nothing. *)
Lemma create_workspace_scaffold_raises (task_id : string) (temporary : bool)
    (w : world) :
  active_workspaces w !! task_id = None →
  ∃ w', create_workspace task_id None temporary w = (Raise (NameError "datetime"), w')
        ∧ active_workspaces w' = active_workspaces w
        ∧ registry_file w' = registry_file w
        ∧ mkdtemp_pick w' = mkdtemp_pick w
        ∧ base_workspace_dir w' = base_workspace_dir w
        ∧ dirs w ⊆ dirs w'
        ∧ (if temporary
           then mkdtemp_pick w ("task_" +:+ task_id +:+ "_") (base_workspace_dir w)
                  (dirs w)
           else joinpath (base_workspace_dir w) task_id) ∈ dirs w'.
Proof.
  intros H. unfold create_workspace, bind at 1, get_world. rewrite H.
  destruct temporary; eexists; (split; [reflexivity |]); simpl;
    do 4 (split; [done |]); split; set_solver.
Qed.








(** C7 on the code.  For an id that is not registered, [create_workspace]
    with the default arguments raises [NameError] both times it is called:
    no path is returned, nothing is registered, and each call leaves the
    directory [mkdtemp] made for it; the two directories differ, the second
    being new when it is made. *)
Theorem create_workspace_twice_raises (task_id : string) (w : world) :
  active_workspaces w !! task_id = None →
  let first_dir :=
    mkdtemp_pick w ("task_" +:+ task_id +:+ "_") (base_workspace_dir w) (dirs w) in
  ∃ w1 w2,
    create_workspace task_id None true w = (Raise (NameError "datetime"), w1)
    ∧ create_workspace task_id None true w1 = (Raise (NameError "datetime"), w2)
    ∧ active_workspaces w2 = active_workspaces w
    ∧ registry_file w2 = registry_file w
    ∧ first_dir ∈ dirs w2
    ∧ (let second_dir :=
         mkdtemp_pick w ("task_" +:+ task_id +:+ "_") (base_workspace_dir w)
           (dirs w1) in
       second_dir ∈ dirs w2 ∧ (second_dir ∉ dirs w1 → first_dir ≠ second_dir)).
Proof.
  intros H first_dir.
  destruct (create_workspace_scaffold_raises task_id true w H)
    as (w1 & E1 & Hact1 & Hreg1 & Hpick1 & Hbase1 & Hsub1 & Hdir1).
  assert (H1 : active_workspaces w1 !! task_id = None) by (by rewrite Hact1).
  destruct (create_workspace_scaffold_raises task_id true w1 H1)
    as (w2 & E2 & Hact2 & Hreg2 & _ & _ & Hsub2 & Hdir2).
  rewrite Hpick1, Hbase1 in Hdir2.
  exists w1, w2. split; [exact E1 |]. split; [exact E2 |].
  split; [congruence |]. split; [congruence |].
  split; [set_solver |]. split; [exact Hdir2 |].
  intros Hfresh Heq. apply Hfresh. rewrite <- Heq. exact Hdir1.
Qed.

(** On a fresh manager the two directories are these. *)
Example fresh_manager_leaves_two_directories :
  let first := create_workspace "task-001" None true Samples.fresh_world in
  let second := create_workspace "task-001" None true (snd first) in
  fst first = Raise (NameError "datetime")
  ∧ fst second = Raise (NameError "datetime")
  ∧ active_workspaces (snd second) = ∅
  ∧ dirs Samples.fresh_world = {["workspaces"]}
  ∧ "workspaces/task_task-001_1" ∈ dirs (snd second)
  ∧ "workspaces/task_task-001_5" ∈ dirs (snd second).
Proof.
  cbv zeta. split; [vm_compute; reflexivity |]. split; [vm_compute; reflexivity |].
  split; [vm_compute; reflexivity |]. split; [reflexivity |].
  split; decide_by_computation.
Qed.

End workspace_facts.

(** ** The flow *)

Section flow_facts.

Import YamlTaskManager TaskProcessor.

Variable generate_prompt_from_template : string → string → string → string.
Variable _extract_session_id : string → option string.
Variable format_percent : Qc → string.

(** C1 on the code.  Take a task as the store holds it, with a registered
    workspace and enough quota, whose stored attempts are one below
    [max_attempts]: marking it running stores [max_attempts] attempts.  If
    its execution then fails with no quota signal, the flow returns status
    pending and the task is stored as pending, with its attempts equal to
    its [max_attempts]. *)
Theorem process_single_task_retries_at_max_attempts (task_config : TaskConfig.t)
    (token_monitor : TokenMonitor.t) (usage : TokenUsageInfo.t)
    (obs : ClaudeCodeExecutor.observation) (timeout : Z) (w : world)
    (tasks : list TaskConfig.t) (info : WorkspaceInfo.t) :
  let task_id := TaskConfig.id task_config in
  let execution :=
    ClaudeCodeExecutor.execute_task _extract_session_id
      (WorkspaceInfo.workspace_path info)
      (generate_prompt_from_template (TaskConfig.prompt_template task_config)
         (TaskConfig.title task_config) (TaskConfig.description task_config))
      true (TaskConfig.session_id task_config) (Some timeout) obs in
  stored tasks w →
  List.find (λ task, String.eqb (TaskConfig.id task) task_id) tasks
  = Some task_config →
  active_workspaces w !! task_id = Some info →
  (TokenUsageInfo.percentage_used usage
   < TokenMonitor.critical_threshold token_monitor)%Qc →
  ClaudeExecutionResult.success execution = false →
  ClaudeExecutionResult.token_limit_hit execution = false →
  TaskConfig.attempts task_config + 1 = TaskConfig.max_attempts task_config →
  ∃ result w' task w'',
    process_single_task generate_prompt_from_template _extract_session_id
      format_percent task_config token_monitor (Some usage) obs timeout w
    = (Ok result, w')
    ∧ r_status result = "pending"
    ∧ get_task task_id w' = (Ok (Some task), w'')
    ∧ TaskConfig.status task = "pending"
    ∧ TaskConfig.attempts task = TaskConfig.max_attempts task.
Proof.
  intros task_id execution Hst Hfind Hws Hlow Hfail Hnoquota Hmax.
  set (wa := set_ticks (S (ticks w)) w).
  assert (Hsta : stored tasks wa) by exact Hst.
  pose proof (stored_get_task _ _ task_id Hsta) as Hget. rewrite Hfind in Hget.
  set (ups1 := [set_status "running"; set_started_at (Some (clock w (ticks w)));
                set_attempts (TaskConfig.attempts task_config + 1)]).
  destruct (update_task_stored task_id ups1 wa tasks task_config Hsta Hfind)
    as (wb & ts1 & Hupd1 & Hst1 & Hfind1 & Hact1); [by destruct task_config |].
  assert (Hmark : mark_task_running task_id None w = (Ok true, wb)).
  { unfold mark_task_running, bind, now. fold wa.
    rewrite Hget. cbv beta iota. rewrite Hget. cbv beta iota. exact Hupd1. }
  set (path := WorkspaceInfo.workspace_path info).
  set (t1 := foldl setattr task_config ups1) in *.
  destruct (update_task_stored task_id [set_workspace_path (Some path)] wb ts1 t1
              Hst1 Hfind1)
    as (wc & ts2 & Hupd2 & Hst2 & Hfind2 & Hact2); [by destruct task_config |].
  set (t2 := foldl setattr t1 [set_workspace_path (Some path)]) in *.
  set (wp := set_dirs ({[WorkspaceManager.joinpath path ".claude"]} ∪ dirs wc) wc).
  assert (Hst2p : stored ts2 wp) by exact Hst2.
  set (resets := [set_status "pending"; set_started_at None; set_completed_at None;
                  set_last_error None; set_session_id None]).
  destruct (update_task_stored task_id resets wp ts2 t2 Hst2p Hfind2)
    as (wd & ts3 & Hupd3 & Hst3 & Hfind3 & Hact3); [by destruct task_config |].
  set (t3 := foldl setattr t2 resets) in *.
  eexists _, wd, t3, wd.
  split; [| split; [| split; [| split]]].
  - unfold process_single_task, try_except. fold task_id.
    rewrite (bind_ok _ _ _ _ _ Hmark).
    unfold TokenMonitor.can_run_tasks.
    rewrite bool_decide_eq_false_2 by (by apply Qclt_not_le).
    cbn [negb]. cbv iota.
    assert (Hws_b : active_workspaces wb !! task_id = Some info)
      by (by rewrite Hact1).
    rewrite (bind_ok _ _ _ _ _
               (create_workspace_lookup task_id None true wb info Hws_b)).
    fold path. rewrite (bind_ok _ _ _ _ _ Hupd2).
    rewrite (bind_ok _ _ _ _ _
               (execute_task_call_ok _ _ _ _ _ _ _ wc)).
    fold wp. unfold path. fold execution. rewrite Hfail, Hnoquota.
    rewrite bool_decide_eq_false_2 by lia.
    rewrite (bind_ok _ _ wp "pending" wd)
      by (by rewrite (bind_ok _ _ _ _ _ (Hupd3 : reset_task task_id wp = _))).
    reflexivity.
  - reflexivity.
  - rewrite (stored_get_task _ _ task_id Hst3). by rewrite Hfind3.
  - by destruct task_config.
  - subst t3 t2 t1 ups1. destruct task_config. simpl in *. exact Hmax.
Qed.

End flow_facts.

(** ** Closed instances *)

Section instances.

Import YamlTaskManager TaskProcessor.

Lemma load_two_tasks :
  load_tasks Samples.two_tasks_world = (Ok Samples.two_tasks, Samples.two_tasks_world).
Proof. by eapply load_tasks_of_saved. Qed.

(** A tasks file without its metadata block loads (the task's missing
    fields get their defaults, [created_at] the time of loading), but
    cannot be saved: [_save_tasks_data] raises [KeyError] on the block. *)
Example bare_store_loads_and_does_not_save :
  fst (load_tasks Samples.bare_world)
  = Ok [ {| TaskConfig.id := "task-001";
            TaskConfig.title := "Write tests";
            TaskConfig.description := "Cover the parser";
            TaskConfig.prompt_template := "default";
            TaskConfig.status := "pending";
            TaskConfig.created_at := Samples.numbered_clock 0;
            TaskConfig.started_at := None;
            TaskConfig.completed_at := None;
            TaskConfig.attempts := 0;
            TaskConfig.max_attempts := 3;
            TaskConfig.last_error := None;
            TaskConfig.session_id := None;
            TaskConfig.workspace_path := None |} ]
  ∧ fst (save_tasks [] Samples.bare_world) = Raise (KeyError "meta")
  ∧ tasks_file (snd (save_tasks [] Samples.bare_world)) = Samples.bare_store.
Proof. repeat split; vm_compute; reflexivity. Qed.

(** An instance of [add_task_returns]: a third task added to the sample
    store. *)
Lemma add_third_task :
  ∃ w',
    add_task 1 "Write docs" "Document the parser" "default" Samples.two_tasks_world
    = (Ok (Some Samples.third_task), w')
    ∧ (TaskConfig.id Samples.third_task ∉ TaskConfig.id <$> Samples.two_tasks)
    ∧ TaskConfig.status Samples.third_task = "pending"
    ∧ ∃ w'', load_tasks w' = (Ok (Samples.two_tasks ++ [Samples.third_task]), w'').
Proof.
  set (run := add_task 1 "Write docs" "Document the parser" "default"
                Samples.two_tasks_world).
  assert (E : run = (Ok (Some Samples.third_task), snd run))
    by (vm_compute; reflexivity).
  destruct (add_task_returns 1 "Write docs" "Document the parser" "default"
              Samples.two_tasks_world Samples.two_tasks Samples.two_tasks_world
              Samples.third_task (snd run) load_two_tasks E)
    as (Hfresh & Hstatus & _ & _ & _ & Hload).
  exists (snd run). by repeat split.
Defined.

(** An instance of [create_workspace_registered]. *)
Lemma create_registered_workspace :
  WorkspaceManager.create_workspace "task-001" None true Samples.last_attempt_world
  = (Ok "workspaces/task-001", Samples.last_attempt_world).
Proof.
  apply (create_workspace_registered "task-001" None true Samples.last_attempt_world
           (Samples.workspace "task-001" "workspaces/task-001" false)).
  vm_compute. reflexivity.
Defined.

(** With the ids task-003 and task-005 stored, the loop of [add_task] is
    still running after any number of rounds. *)
Example gapped_store_never_gets_an_id (fuel : nat) :
  add_task fuel "Write docs" "Document the parser" "default" Samples.gapped_world
  = (Ok None, Samples.gapped_world).
Proof.
  unfold add_task, bind.
  assert (load_tasks Samples.gapped_world
          = (Ok Samples.gapped_tasks, Samples.gapped_world)) as ->
    by (by eapply load_tasks_of_saved).
  destruct (unique_id_loop_cases Samples.gapped_tasks
              (task_id_of (length Samples.gapped_tasks + 1))) as (_ & _ & Hloop).
  rewrite Hloop; [done | vm_compute; reflexivity | vm_compute; reflexivity].
Qed.

(** An instance of C2: a thousand rounds on that store. *)
Lemma add_task_on_gapped_store :
  add_task 1000 "Write docs" "Document the parser" "default" Samples.gapped_world
  = (Ok None, Samples.gapped_world).
Proof.
  apply (add_task_never_returns 1000 "Write docs" "Document the parser" "default"
           Samples.gapped_world Samples.gapped_tasks Samples.gapped_world).
  - vm_compute. reflexivity.
  - vm_compute. reflexivity.
  - vm_compute. reflexivity.
Defined.

(** The run of C1 on the sample store: 2 attempts of at most 3 stored, the
    process exits with code 1. *)
Lemma retry_on_last_attempt :
  ∃ result w' task w'',
    process_single_task Samples.render_prompt Samples.no_session_id
      Samples.format_percent Samples.last_attempt_task TokenMonitor.default
      (Some Samples.low_usage) Samples.failed_run 300 Samples.last_attempt_world
    = (Ok result, w')
    ∧ r_status result = "pending"
    ∧ get_task "task-001" w' = (Ok (Some task), w'')
    ∧ TaskConfig.status task = "pending"
    ∧ TaskConfig.attempts task = TaskConfig.max_attempts task.
Proof.
  apply (process_single_task_retries_at_max_attempts Samples.render_prompt
           Samples.no_session_id Samples.format_percent Samples.last_attempt_task
           TokenMonitor.default Samples.low_usage Samples.failed_run 300
           Samples.last_attempt_world [Samples.last_attempt_task]
           (Samples.workspace "task-001" "workspaces/task-001" false)).
  - do 2 eexists. repeat split; reflexivity.
  - reflexivity.
  - vm_compute. reflexivity.
  - decide_by_computation.
  - vm_compute. reflexivity.
  - vm_compute. reflexivity.
  - reflexivity.
Defined.

(** The same run, evaluated: the task ends pending with 3 attempts of 3. *)
Example last_attempt_run :
  let run :=
    process_single_task Samples.render_prompt Samples.no_session_id
      Samples.format_percent Samples.last_attempt_task TokenMonitor.default
      (Some Samples.low_usage) Samples.failed_run 300 Samples.last_attempt_world in
  ∃ result task,
    fst run = Ok result
    ∧ r_status result = "pending"
    ∧ fst (get_task "task-001" (snd run)) = Ok (Some task)
    ∧ TaskConfig.status task = "pending"
    ∧ TaskConfig.attempts task = 3
    ∧ TaskConfig.max_attempts task = 3.
Proof.
  cbv zeta. do 2 eexists. split; [vm_compute; reflexivity |].
  split; [reflexivity |]. split; [vm_compute; reflexivity |]. by repeat split.
Qed.

(** An instance of C7: a fresh manager. *)
Lemma create_workspace_twice_on_fresh_manager :
  ∃ w1 w2,
    WorkspaceManager.create_workspace "task-001" None true Samples.fresh_world
    = (Raise (NameError "datetime"), w1)
    ∧ WorkspaceManager.create_workspace "task-001" None true w1
      = (Raise (NameError "datetime"), w2)
    ∧ active_workspaces w2 = ∅.
Proof.
  destruct (create_workspace_twice_raises "task-001" Samples.fresh_world)
    as (w1 & w2 & E1 & E2 & Hact & _).
  - reflexivity.
  - by exists w1, w2.
Defined.

(** An instance of C4: the default monitor at usage 0.96 and at usage 0.2. *)
Lemma can_run_tasks_default_thresholds :
  (fst (TokenMonitor.can_run_tasks Samples.format_percent TokenMonitor.default
          (Some Samples.high_usage)) = false
   ∧ occurs "critical threshold"
       (snd (TokenMonitor.can_run_tasks Samples.format_percent TokenMonitor.default
               (Some Samples.high_usage))))
  ∧ fst (TokenMonitor.can_run_tasks Samples.format_percent TokenMonitor.default
           (Some Samples.low_usage)) = true.
Proof.
  destruct (can_run_tasks_spec Samples.format_percent TokenMonitor.default)
    as (_ & Hhigh & Hlow).
  split.
  - apply Hhigh. decide_by_computation.
  - apply Hlow. decide_by_computation.
Defined.

(** An instance of C5: resetting the completed task of the sample store. *)
Lemma reset_completed_task :
  ∃ w' task w'',
    reset_task "task-001" Samples.two_tasks_world = (Ok true, w')
    ∧ get_task "task-001" w' = (Ok (Some task), w'')
    ∧ TaskConfig.status task = "pending"
    ∧ TaskConfig.started_at task = None
    ∧ TaskConfig.completed_at task = None
    ∧ TaskConfig.last_error task = None
    ∧ TaskConfig.session_id task = None.
Proof.
  destruct (reset_task_clears "task-001" Samples.two_tasks_world Samples.two_tasks
              Samples.two_tasks_world)
    as (old & w' & task & w'' & _ & Hreset & Hget & ->).
  - simpl. by eexists.
  - exact load_two_tasks.
  - decide_by_computation.
  - eexists w', _, w''. split; [exact Hreset |]. split; [exact Hget |].
    by repeat split.
Defined.

(** An instance of C6: saving two tasks into a store that has no file yet. *)
Lemma save_load_two_tasks :
  ∃ w' w'',
    save_tasks Samples.two_tasks Samples.fresh_world = (Ok (), w')
    ∧ load_tasks w' = (Ok Samples.two_tasks, w'').
Proof. apply save_load_roundtrip. exact I. Defined.

(** An instance of C10: an id the sample store does not hold. *)
Lemma update_missing_task :
  (∀ updates, ∃ w',
      update_task "task-404" updates Samples.two_tasks_world = (Ok false, w')
      ∧ tasks_file w' = tasks_file Samples.two_tasks_world)
  ∧ (∀ session_id, ∃ w',
       mark_task_running "task-404" session_id Samples.two_tasks_world = (Ok false, w')
       ∧ tasks_file w' = tasks_file Samples.two_tasks_world).
Proof.
  destruct (update_task_unknown_id "task-404" Samples.two_tasks_world
              Samples.two_tasks Samples.two_tasks_world) as (Hupd & Hrun & _).
  - exact load_two_tasks.
  - decide_by_computation.
  - by split.
Defined.

(** An instance of C9: one file added to a scan. *)
Lemma detect_one_added_file :
  ClaudeCodeExecutor._detect_file_changes Samples.scan
    (<["notes.txt" := Q2Qc (Qmake 19 1)]> Samples.scan) "workspaces/task-001"
  = ["notes.txt"].
Proof.
  apply (detect_file_changes_spec Samples.scan Samples.scan "workspaces/task-001").
  vm_compute. reflexivity.
Defined.

(** A capital in the text for the small letter of the phrase. *)
Ltac in_capitals :=
  right; left; split;
  [unfold is_capital; split; apply Nat.leb_le; reflexivity | reflexivity].

(** An instance of [execute_task_flags]: the process exits with code 0
    and its error output has a phrase in capitals whose k is written with
    the Kelvin sign. *)
Lemma kelvin_phrase_is_flagged :
  let result :=
    ClaudeCodeExecutor.execute_task Samples.no_session_id "workspaces/task-001"
      "# Task: Write tests" true None (Some 300)
      {| ClaudeCodeExecutor.initial_files := Samples.scan;
         ClaudeCodeExecutor.final_files := Samples.scan;
         ClaudeCodeExecutor.proc :=
           ClaudeCodeExecutor.Exited "done"
             ("Error: TO" +:+ Py.kelvin_sign +:+ "EN Limit hit") 0;
         ClaudeCodeExecutor.elapsed := Q2Qc (Qmake 3 2) |} in
  ClaudeExecutionResult.token_limit_hit result = true
  ∧ ClaudeExecutionResult.success result = false.
Proof.
  intros result.
  destruct (execute_task_flags Samples.no_session_id "workspaces/task-001"
              "# Task: Write tests" true None (Some 300) Samples.scan Samples.scan
              (Q2Qc (Qmake 3 2)) "done"
              ("Error: TO" +:+ Py.kelvin_sign +:+ "EN Limit hit") 0)
    as (Hsuccess & Hhit & _).
  assert (Hfound : ∃ phrase, phrase ∈ ClaudeCodeExecutor.limit_indicators
                             ∧ occurs_ci phrase
                                 ("done" +:+ "Error: TO" +:+ Py.kelvin_sign
                                  +:+ "EN Limit hit")).
  { exists "token limit". split; [decide_by_computation |].
    exists "doneError: ", ("TO" +:+ Py.kelvin_sign +:+ "EN Limit"), " hit".
    split; [reflexivity |].
    apply spells_letter; [in_capitals |].
    apply spells_letter; [in_capitals |].
    apply (spells_kelvin "k"); [by left |].
    apply spells_letter; [in_capitals |].
    apply spells_letter; [in_capitals |].
    apply spells_letter; [by left |].
    apply spells_letter; [in_capitals |].
    apply spells_letter; [by left |].
    apply spells_letter; [by left |].
    apply spells_letter; [by left |].
    apply spells_letter; [by left |].
    apply spells_nil. }
  split.
  - apply Hhit. exact Hfound.
  - destruct (ClaudeExecutionResult.success result) eqn:E; [| reflexivity].
    apply Hsuccess in E as [_ Hnone].
    destruct Hfound as (phrase & Hin & Hocc). destruct (Hnone phrase Hin Hocc).
Defined.

(** What the scan itself answers on three outputs: the phrase above is
    found; a phrase whose I is the capital I with dot above is not, since
    the lower-case form of that letter is [i] with a combining dot; a
    phrase cut in two by another word is not. *)
Example scan_of_three_outputs :
  ClaudeCodeExecutor._check_token_limit_in_output "done"
    ("Error: TO" +:+ Py.kelvin_sign +:+ "EN Limit hit") = true
  ∧ ClaudeCodeExecutor._check_token_limit_in_output ""
      ("RATE L" +:+ Py.capital_i_with_dot +:+ "MIT") = false
  ∧ ClaudeCodeExecutor._check_token_limit_in_output "rate" " of the limit" = false.
Proof. repeat split; vm_compute; reflexivity. Qed.

End instances.

(** * The task store: updates, deletions and new ids *)

Section store_coverage.

Import YamlTaskManager.

Lemma stored_has_meta (ts : list TaskConfig.t) (w : world) :
  stored ts w → has_meta (tasks_file w).
Proof. intros (entries & meta & -> & _ & Hm). by exists meta. Qed.

(** Saving on a file the store wrote: the clock is read once and the file
    is rewritten; nothing else changes. *)
Lemma save_tasks_stored (ts0 ts : list TaskConfig.t) (w : world) :
  stored ts0 w →
  ∃ f, save_tasks ts w = (Ok (), set_tasks_file f (set_ticks (S (ticks w)) w))
       ∧ stored ts (set_tasks_file f (set_ticks (S (ticks w)) w)).
Proof.
  intros (entries & meta & Hf & _ & Hm).
  unfold save_tasks, _load_tasks_data, read_file, bind. rewrite Hf. simpl.
  unfold _save_tasks_data, bind, now. simpl.
  rewrite dict_get_set_ne by done. rewrite Hm. simpl.
  eexists. split; [reflexivity |].
  eexists _, _. simpl. split; [reflexivity |]. split.
  - rewrite dict_get_set_ne by done. apply dict_get_set_eq.
  - apply dict_get_set_eq.
Qed.

Lemma update_first_app (task_id : string) (updates : list update)
    (pre : list TaskConfig.t) (old : TaskConfig.t) (post : list TaskConfig.t) :
  task_id ∉ TaskConfig.id <$> pre →
  TaskConfig.id old = task_id →
  update_first task_id updates (pre ++ old :: post)
  = Some (pre ++ foldl setattr old updates :: post).
Proof.
  intros Hpre Hold. induction pre as [|t pre IH]; simpl.
  - apply String.eqb_eq in Hold. by rewrite Hold.
  - rewrite fmap_cons, not_elem_of_cons in Hpre. destruct Hpre as [Hne Hpre].
    destruct (String.eqb (TaskConfig.id t) task_id) eqn:E.
    + apply String.eqb_eq in E. congruence.
    + by rewrite IH.
Qed.

Lemma find_id_split (task_id : string) (ts : list TaskConfig.t) (old : TaskConfig.t) :
  List.find (λ task, String.eqb (TaskConfig.id task) task_id) ts = Some old →
  ∃ pre post, ts = pre ++ old :: post
              ∧ (task_id ∉ TaskConfig.id <$> pre)
              ∧ TaskConfig.id old = task_id.
Proof.
  induction ts as [|t ts IH]; [done |]. simpl.
  destruct (String.eqb (TaskConfig.id t) task_id) eqn:E.
  - intros [= ->]. exists [], ts. apply String.eqb_eq in E.
    split; [done |]. split; [| done]. rewrite fmap_nil. apply not_elem_of_nil.
  - intros (pre & post & -> & Hpre & Hold)%IH. exists (t :: pre), post.
    split; [done |]. split; [| done].
    rewrite fmap_cons, not_elem_of_cons. split; [| done].
    apply String.eqb_neq in E. congruence.
Qed.

Lemma find_id_app (task_id : string) (pre : list TaskConfig.t) (t : TaskConfig.t)
    (post : list TaskConfig.t) :
  task_id ∉ TaskConfig.id <$> pre →
  List.find (λ task, String.eqb (TaskConfig.id task) task_id) (pre ++ t :: post)
  = if String.eqb (TaskConfig.id t) task_id then Some t
    else List.find (λ task, String.eqb (TaskConfig.id task) task_id) post.
Proof.
  intros Hpre. induction pre as [|p pre IH]; simpl; [done |].
  rewrite fmap_cons, not_elem_of_cons in Hpre. destruct Hpre as [Hne Hpre].
  destruct (String.eqb (TaskConfig.id p) task_id) eqn:E.
  - apply String.eqb_eq in E. congruence.
  - by apply IH.
Qed.

(** An update on a file the store wrote: the outcome follows the loop
    over the stored list. *)
Lemma update_task_on_stored (task_id : string) (updates : list update)
    (ts : list TaskConfig.t) (w : world) :
  stored ts w →
  match update_first task_id updates ts with
  | Some ts' =>
      ∃ f, update_task task_id updates w
           = (Ok true, set_tasks_file f (set_ticks (S (ticks w)) w))
           ∧ stored ts' (set_tasks_file f (set_ticks (S (ticks w)) w))
  | None => update_task task_id updates w = (Ok false, w)
  end.
Proof.
  intros Hst. unfold update_task.
  rewrite (bind_ok _ _ _ _ _ (stored_load _ _ Hst)).
  destruct (update_first task_id updates ts) as [ts'|]; [| done].
  destruct (save_tasks_stored ts ts' w Hst) as (f & Hsave & Hst').
  exists f. by rewrite (bind_ok _ _ _ _ _ Hsave).
Qed.

(** [update_task] changes the first task that carries the id and nothing
    else: the tasks before it and after it, later tasks with the same id
    among them, are stored as they were, in their order; the workspaces
    are not touched. *)
Theorem update_task_changes_first_only (task_id : string) (updates : list update)
    (pre : list TaskConfig.t) (old : TaskConfig.t) (post : list TaskConfig.t)
    (w : world) :
  stored (pre ++ old :: post) w →
  task_id ∉ TaskConfig.id <$> pre →
  TaskConfig.id old = task_id →
  ∃ w', update_task task_id updates w = (Ok true, w')
        ∧ stored (pre ++ foldl setattr old updates :: post) w'
        ∧ active_workspaces w' = active_workspaces w
        ∧ registry_file w' = registry_file w
        ∧ dirs w' = dirs w.
Proof.
  intros Hst Hpre Hold.
  pose proof (update_task_on_stored task_id updates _ w Hst) as H.
  rewrite (update_first_app _ _ _ _ _ Hpre Hold) in H.
  destruct H as (f & Hupd & Hst'). eexists. split; [exact Hupd |]. by split.
Qed.

Lemma filter_other_ids (task_id : string) (ts : list TaskConfig.t) :
  let kept := List.filter (λ task, negb (String.eqb (TaskConfig.id task) task_id)) ts in
  (task_id ∉ TaskConfig.id <$> kept)
  ∧ (∀ other, other ≠ task_id →
       List.find (λ task, String.eqb (TaskConfig.id task) other) kept
       = List.find (λ task, String.eqb (TaskConfig.id task) other) ts)
  ∧ (task_id ∈ TaskConfig.id <$> ts → (length kept < length ts)%nat)
  ∧ (task_id ∉ TaskConfig.id <$> ts → kept = ts).
Proof.
  induction ts as [|t ts (IH1 & IH2 & IH3 & IH4)]; simpl.
  - split; [apply not_elem_of_nil |]. split; [done |].
    split; [by intros ?%elem_of_nil | done].
  - assert (length (List.filter
                      (λ task, negb (String.eqb (TaskConfig.id task) task_id)) ts)
            ≤ length ts)%nat as Hle by apply List.filter_length_le.
    destruct (String.eqb (TaskConfig.id t) task_id) eqn:E; simpl.
    + apply String.eqb_eq in E. split; [done |]. split; [| split].
      * intros other Hne. rewrite IH2 by done.
        destruct (String.eqb (TaskConfig.id t) other) eqn:E'; [| done].
        apply String.eqb_eq in E'. congruence.
      * intros _. lia.
      * rewrite not_elem_of_cons. intros [Hne _]. congruence.
    + apply String.eqb_neq in E. split; [| split; [| split]].
      * rewrite not_elem_of_cons. split; [congruence | done].
      * intros other Hne. rewrite IH2 by done. done.
      * intros [Heq | Hin]%elem_of_cons; [congruence |]. apply IH3 in Hin. lia.
      * rewrite not_elem_of_cons. intros [_ Hout]. by rewrite IH4.
Qed.

(** A deletion on a file the store wrote. *)
Lemma delete_task_on_stored (task_id : string) (ts : list TaskConfig.t) (w : world) :
  stored ts w →
  (∃ w', delete_task task_id w = (Ok true, w')
         ∧ stored (List.filter
                     (λ task, negb (String.eqb (TaskConfig.id task) task_id)) ts) w')
  ∨ delete_task task_id w = (Ok false, w).
Proof.
  intros Hst. unfold delete_task.
  rewrite (bind_ok _ _ _ _ _ (stored_load _ _ Hst)).
  destruct (_ <? _)%nat; [left | by right].
  destruct (save_tasks_stored ts
              (List.filter (λ task, negb (String.eqb (TaskConfig.id task) task_id)) ts)
              w Hst) as (f & Hsave & Hst').
  eexists. by rewrite (bind_ok _ _ _ _ _ Hsave).
Qed.

(** [delete_task] on an id that some stored task has removes every task
    with that id and keeps the others in their order; afterwards the id
    is not found and every other id is found as before.  On an id that no
    task has it returns [False] and writes nothing. *)
Theorem delete_task_spec (task_id : string) (tasks : list TaskConfig.t) (w : world) :
  stored tasks w →
  let kept :=
    List.filter (λ task, negb (String.eqb (TaskConfig.id task) task_id)) tasks in
  (task_id ∈ TaskConfig.id <$> tasks →
   ∃ w', delete_task task_id w = (Ok true, w')
         ∧ stored kept w'
         ∧ get_task task_id w' = (Ok None, w')
         ∧ ∀ other, other ≠ task_id →
             get_task other w'
             = (Ok (List.find (λ task, String.eqb (TaskConfig.id task) other) tasks),
                w'))
  ∧ (task_id ∉ TaskConfig.id <$> tasks → delete_task task_id w = (Ok false, w)).
Proof.
  intros Hst kept.
  destruct (filter_other_ids task_id tasks) as (Hgone & Hothers & Hless & Hsame).
  fold kept in Hgone, Hothers, Hless, Hsame.
  unfold delete_task. rewrite (bind_ok _ _ _ _ _ (stored_load _ _ Hst)).
  fold kept. split.
  - intros Hin. apply Hless in Hin. apply Nat.ltb_lt in Hin. rewrite Hin.
    destruct (save_tasks_stored tasks kept w Hst) as (f & Hsave & Hst').
    eexists. rewrite (bind_ok _ _ _ _ _ Hsave). split; [done |].
    split; [exact Hst' |]. split.
    + rewrite (stored_get_task _ _ _ Hst'). by rewrite find_unknown.
    + intros other Hne. rewrite (stored_get_task _ _ _ Hst'). by rewrite Hothers.
  - intros Hout. rewrite (Hsame Hout), Nat.ltb_irrefl. done.
Qed.


(** [mark_task_running] on a stored task: the task found under the id
    afterwards is the old one with status running, the clock's reading as
    start time and one attempt more; its session id is the one passed
    when that is a non-empty string and the old one otherwise. *)
Theorem mark_task_running_spec (task_id : string) (session_id : option string)
    (tasks : list TaskConfig.t) (old : TaskConfig.t) (w : world) :
  stored tasks w →
  List.find (λ task, String.eqb (TaskConfig.id task) task_id) tasks = Some old →
  ∃ w' tasks',
    mark_task_running task_id session_id w = (Ok true, w')
    ∧ stored tasks' w'
    ∧ List.find (λ task, String.eqb (TaskConfig.id task) task_id) tasks'
      = Some {| TaskConfig.id := TaskConfig.id old;
                TaskConfig.title := TaskConfig.title old;
                TaskConfig.description := TaskConfig.description old;
                TaskConfig.prompt_template := TaskConfig.prompt_template old;
                TaskConfig.status := "running";
                TaskConfig.created_at := TaskConfig.created_at old;
                TaskConfig.started_at := Some (clock w (ticks w));
                TaskConfig.completed_at := TaskConfig.completed_at old;
                TaskConfig.attempts := TaskConfig.attempts old + 1;
                TaskConfig.max_attempts := TaskConfig.max_attempts old;
                TaskConfig.last_error := TaskConfig.last_error old;
                TaskConfig.session_id :=
                  if Py.truthy session_id then session_id
                  else TaskConfig.session_id old;
                TaskConfig.workspace_path := TaskConfig.workspace_path old |}.
Proof.
  intros Hst Hfind.
  set (wa := set_ticks (S (ticks w)) w).
  assert (Hsta : stored tasks wa) by exact Hst.
  pose proof (stored_get_task _ _ task_id Hsta) as Hget. rewrite Hfind in Hget.
  set (updates :=
         [set_status "running"; set_started_at (Some (clock w (ticks w)));
          set_attempts (TaskConfig.attempts old + 1)]
         ++ (if Py.truthy session_id then [set_session_id session_id] else [])).
  destruct (update_task_stored task_id updates wa tasks old Hsta Hfind)
    as (w' & tasks' & Hupd & Hst' & Hfind' & _).
  { apply find_some in Hfind as [_ E]. apply String.eqb_eq in E.
    subst updates. destruct old, (Py.truthy session_id); exact E. }
  exists w', tasks'. split; [| split; [exact Hst' |]].
  - unfold mark_task_running, bind, now. fold wa.
    rewrite Hget. cbv beta iota. rewrite Hget. cbv beta iota. exact Hupd.
  - rewrite Hfind'. subst updates. by destruct old, (Py.truthy session_id).
Qed.

(** The three helpers that end a run, on a stored task.  Completion sets
    the status, the completion time and clears the error; failure sets
    the status, the completion time and the error; pausing sets the
    status and the reason and keeps the times and the session id.  None
    of them changes the count of attempts. *)
Theorem finish_task_spec (task_id : string) (tasks : list TaskConfig.t)
    (old : TaskConfig.t) (w : world) :
  stored tasks w →
  List.find (λ task, String.eqb (TaskConfig.id task) task_id) tasks = Some old →
  (∃ w' tasks',
     mark_task_completed task_id w = (Ok true, w')
     ∧ stored tasks' w'
     ∧ List.find (λ task, String.eqb (TaskConfig.id task) task_id) tasks'
       = Some {| TaskConfig.id := TaskConfig.id old;
                 TaskConfig.title := TaskConfig.title old;
                 TaskConfig.description := TaskConfig.description old;
                 TaskConfig.prompt_template := TaskConfig.prompt_template old;
                 TaskConfig.status := "completed";
                 TaskConfig.created_at := TaskConfig.created_at old;
                 TaskConfig.started_at := TaskConfig.started_at old;
                 TaskConfig.completed_at := Some (clock w (ticks w));
                 TaskConfig.attempts := TaskConfig.attempts old;
                 TaskConfig.max_attempts := TaskConfig.max_attempts old;
                 TaskConfig.last_error := None;
                 TaskConfig.session_id := TaskConfig.session_id old;
                 TaskConfig.workspace_path := TaskConfig.workspace_path old |})
  ∧ (∀ error, ∃ w' tasks',
       mark_task_failed task_id error w = (Ok true, w')
       ∧ stored tasks' w'
       ∧ List.find (λ task, String.eqb (TaskConfig.id task) task_id) tasks'
         = Some {| TaskConfig.id := TaskConfig.id old;
                   TaskConfig.title := TaskConfig.title old;
                   TaskConfig.description := TaskConfig.description old;
                   TaskConfig.prompt_template := TaskConfig.prompt_template old;
                   TaskConfig.status := "failed";
                   TaskConfig.created_at := TaskConfig.created_at old;
                   TaskConfig.started_at := TaskConfig.started_at old;
                   TaskConfig.completed_at := Some (clock w (ticks w));
                   TaskConfig.attempts := TaskConfig.attempts old;
                   TaskConfig.max_attempts := TaskConfig.max_attempts old;
                   TaskConfig.last_error := Some error;
                   TaskConfig.session_id := TaskConfig.session_id old;
                   TaskConfig.workspace_path := TaskConfig.workspace_path old |})
  ∧ (∀ reason, ∃ w' tasks',
       mark_task_paused task_id reason w = (Ok true, w')
       ∧ stored tasks' w'
       ∧ List.find (λ task, String.eqb (TaskConfig.id task) task_id) tasks'
         = Some {| TaskConfig.id := TaskConfig.id old;
                   TaskConfig.title := TaskConfig.title old;
                   TaskConfig.description := TaskConfig.description old;
                   TaskConfig.prompt_template := TaskConfig.prompt_template old;
                   TaskConfig.status := "paused";
                   TaskConfig.created_at := TaskConfig.created_at old;
                   TaskConfig.started_at := TaskConfig.started_at old;
                   TaskConfig.completed_at := TaskConfig.completed_at old;
                   TaskConfig.attempts := TaskConfig.attempts old;
                   TaskConfig.max_attempts := TaskConfig.max_attempts old;
                   TaskConfig.last_error := Some reason;
                   TaskConfig.session_id := TaskConfig.session_id old;
                   TaskConfig.workspace_path := TaskConfig.workspace_path old |}).
Proof.
  intros Hst Hfind.
  assert (Hid : TaskConfig.id old = task_id).
  { apply find_some in Hfind as [_ E]. by apply String.eqb_eq in E. }
  set (wa := set_ticks (S (ticks w)) w).
  assert (Hsta : stored tasks wa) by exact Hst.
  split; [| split].
  - destruct (update_task_stored task_id
                [set_status "completed"; set_completed_at (Some (clock w (ticks w)));
                 set_last_error None] wa tasks old Hsta Hfind)
      as (w' & tasks' & Hupd & Hst' & Hfind' & _); [by destruct old |].
    exists w', tasks'. split; [exact Hupd |]. split; [exact Hst' |].
    rewrite Hfind'. by destruct old.
  - intros error.
    destruct (update_task_stored task_id
                [set_status "failed"; set_completed_at (Some (clock w (ticks w)));
                 set_last_error (Some error)] wa tasks old Hsta Hfind)
      as (w' & tasks' & Hupd & Hst' & Hfind' & _); [by destruct old |].
    exists w', tasks'. split; [exact Hupd |]. split; [exact Hst' |].
    rewrite Hfind'. by destruct old.
  - intros reason.
    destruct (update_task_stored task_id
                [set_status "paused"; set_last_error (Some reason)] w tasks old
                Hst Hfind)
      as (w' & tasks' & Hupd & Hst' & Hfind' & _); [by destruct old |].
    exists w', tasks'. split; [exact Hupd |]. split; [exact Hst' |].
    rewrite Hfind'. by destruct old.
Qed.


Lemma foldl_setattr_id (updates : list update) (task : TaskConfig.t) :
  keeps_id updates →
  TaskConfig.id (foldl setattr task updates) = TaskConfig.id task.
Proof.
  revert task. induction updates as [|u updates IH]; intros task Hkeep; [done |].
  simpl. rewrite IH.
  - destruct u, task; try done. destruct (Hkeep v). by left.
  - intros v Hv. apply (Hkeep v). by right.
Qed.

Lemma update_first_ids (task_id : string) (updates : list update)
    (ts ts' : list TaskConfig.t) :
  keeps_id updates →
  update_first task_id updates ts = Some ts' →
  TaskConfig.id <$> ts' = TaskConfig.id <$> ts.
Proof.
  intros Hkeep. revert ts'. induction ts as [|t ts IH]; intros ts'; [done |].
  simpl. destruct (String.eqb (TaskConfig.id t) task_id).
  - intros [= <-]. by rewrite !fmap_cons, foldl_setattr_id.
  - destruct (update_first task_id updates ts) as [ts0|]; [| done].
    intros [= <-]. rewrite !fmap_cons. f_equal. by apply IH.
Qed.

Lemma filter_ids_NoDup (f : TaskConfig.t → bool) (ts : list TaskConfig.t) :
  NoDup (TaskConfig.id <$> ts) → NoDup (TaskConfig.id <$> List.filter f ts).
Proof.
  assert (∀ x l, x ∈ TaskConfig.id <$> List.filter f l → x ∈ TaskConfig.id <$> l)
    as Hsub.
  { intros x l. induction l as [|t l IH]; cbn [List.filter]; [done |].
    destruct (f t); rewrite ?fmap_cons, ?elem_of_cons; intuition. }
  induction ts as [|t ts IH]; cbn [List.filter]; [done |].
  rewrite fmap_cons, NoDup_cons. intros [Hout Hnd].
  destruct (f t); [| by apply IH].
  rewrite fmap_cons, NoDup_cons. split; [| by apply IH].
  intros Hin. by apply Hout, Hsub.
Qed.

(** [add_task] on a file the store wrote, by what its loop gives. *)
Lemma add_task_on_stored (fuel : nat) (title description prompt_template : string)
    (ts : list TaskConfig.t) (w : world) :
  stored ts w →
  match unique_id_loop fuel ts (task_id_of (length ts + 1)) with
  | None => add_task fuel title description prompt_template w = (Ok None, w)
  | Some task_id =>
      let new_task :=
        {| TaskConfig.id := task_id;
           TaskConfig.title := title;
           TaskConfig.description := description;
           TaskConfig.prompt_template := prompt_template;
           TaskConfig.status := "pending";
           TaskConfig.created_at := clock w (ticks w);
           TaskConfig.started_at := None;
           TaskConfig.completed_at := None;
           TaskConfig.attempts := 0;
           TaskConfig.max_attempts := 3;
           TaskConfig.last_error := None;
           TaskConfig.session_id := None;
           TaskConfig.workspace_path := None |} in
      ∃ w', add_task fuel title description prompt_template w
            = (Ok (Some new_task), w')
            ∧ stored (ts ++ [new_task]) w'
            ∧ active_workspaces w' = active_workspaces w
            ∧ registry_file w' = registry_file w
            ∧ dirs w' = dirs w
  end.
Proof.
  intros Hst. unfold add_task.
  rewrite (bind_ok _ _ _ _ _ (stored_load _ _ Hst)).
  destruct (unique_id_loop fuel ts (task_id_of (length ts + 1))) as [task_id|];
    [| done].
  set (new_task := TaskConfig.Build_t task_id _ _ _ _ _ _ _ _ _ _ _ _).
  unfold bind at 1, __post_init__, bind at 1, now, ret. cbn [TaskConfig.a_created_at].
  change (TaskConfig.with_created_at _ _) with new_task.
  set (wa := set_ticks (S (ticks w)) w).
  assert (Hsta : stored ts wa) by exact Hst.
  destruct (save_tasks_stored ts (ts ++ [new_task]) wa Hsta) as (f & Hsave & Hst').
  eexists. rewrite (bind_ok _ _ _ _ _ Hsave). split; [reflexivity |].
  by split.
Qed.

(** The store keeps ids unique.  On a store it wrote whose ids are
    pairwise different, deleting a task and updating a task by keywords
    other than [id] return and leave a store whose ids are pairwise
    different; so does adding a task, which writes nothing for as long
    as the loop that looks for an id has not ended. *)
Theorem unique_ids_kept (tasks : list TaskConfig.t) (w : world) :
  stored tasks w →
  NoDup (TaskConfig.id <$> tasks) →
  (∀ fuel title description prompt_template, ∃ r w' tasks',
      add_task fuel title description prompt_template w = (Ok r, w')
      ∧ stored tasks' w' ∧ NoDup (TaskConfig.id <$> tasks'))
  ∧ (∀ task_id, ∃ b w' tasks',
       delete_task task_id w = (Ok b, w')
       ∧ stored tasks' w' ∧ NoDup (TaskConfig.id <$> tasks'))
  ∧ (∀ task_id updates, keeps_id updates → ∃ b w' tasks',
       update_task task_id updates w = (Ok b, w')
       ∧ stored tasks' w' ∧ NoDup (TaskConfig.id <$> tasks')).
Proof.
  intros Hst Hnd. split; [| split].
  - intros fuel title description prompt_template.
    pose proof (add_task_on_stored fuel title description prompt_template _ _ Hst)
      as H.
    destruct (unique_id_loop fuel tasks _) as [task_id|] eqn:Eloop.
    + destruct H as (w' & Hadd & Hst' & _).
      eexists _, w', _. split; [exact Hadd |]. split; [exact Hst' |].
      rewrite fmap_app. apply NoDup_app. split; [done |]. split.
      * intros x Hx [->|[]%elem_of_nil]%elem_of_cons.
        apply unique_id_loop_fresh, id_taken_elem in Eloop. done.
      * apply NoDup_singleton.
    + by exists None, w, tasks.
  - intros task_id.
    destruct (delete_task_on_stored task_id tasks w Hst) as [(w' & Hdel & Hst') | Hdel].
    + eexists true, w', _. split; [exact Hdel |]. split; [exact Hst' |].
      by apply filter_ids_NoDup.
    + by exists false, w, tasks.
  - intros task_id updates Hkeep.
    pose proof (update_task_on_stored task_id updates _ w Hst) as H.
    destruct (update_first task_id updates tasks) as [ts'|] eqn:Eupd.
    + destruct H as (f & Hupd & Hst').
      eexists true, _, ts'. split; [exact Hupd |]. split; [exact Hst' |].
      by rewrite (update_first_ids _ _ _ _ Hkeep Eupd).
    + by exists false, w, tasks.
Qed.


(** The five counts of the statistics never exceed the total, and they
    add up to it exactly when every task has one of the five statuses:
    a task with another status is counted in the total alone. *)
Theorem get_task_statistics_spec (tasks : list TaskConfig.t) (w w1 : world) :
  load_tasks w = (Ok tasks, w1) →
  ∃ s, get_task_statistics w = (Ok s, w1)
       ∧ total s = length tasks
       ∧ (pending s + running s + completed s + failed s + paused s ≤ total s)%nat
       ∧ ((pending s + running s + completed s + failed s + paused s)%nat = total s
          ↔ Forall (λ task, TaskConfig.status task ∈ known_statuses) tasks).
Proof.
  intros Hl. unfold get_task_statistics. rewrite (bind_ok _ _ _ _ _ Hl).
  eexists. split; [reflexivity |]. cbn [total pending running completed failed paused].
  split; [done |]. clear Hl.
  induction tasks as [|t ts [IHle IHeq]]; [by split |].
  cbn [List.filter length]. rewrite Forall_cons, <- IHeq.
  unfold known_statuses. rewrite !elem_of_cons, elem_of_nil.
  destruct (String.eqb_spec (TaskConfig.status t) "pending") as [-> | ?];
    [cbn; split; [lia |]; split; [intros; split; [tauto | lia] | intros; lia] |].
  destruct (String.eqb_spec (TaskConfig.status t) "running") as [-> | ?];
    [cbn; split; [lia |]; split; [intros; split; [tauto | lia] | intros; lia] |].
  destruct (String.eqb_spec (TaskConfig.status t) "completed") as [-> | ?];
    [cbn; split; [lia |]; split; [intros; split; [tauto | lia] | intros; lia] |].
  destruct (String.eqb_spec (TaskConfig.status t) "failed") as [-> | ?];
    [cbn; split; [lia |]; split; [intros; split; [tauto | lia] | intros; lia] |].
  destruct (String.eqb_spec (TaskConfig.status t) "paused") as [-> | ?];
    [cbn; split; [lia |]; split; [intros; split; [tauto | lia] | intros; lia] |].
  cbn [length]. split; [lia |]. split; [intros; lia | tauto].
Qed.

(** Saving the tasks rewrites the task list and the time of the last
    update and nothing else of the file: every other top-level key and
    every other key of the metadata block keeps its value. *)
Theorem save_tasks_keeps_other_keys (tasks : list TaskConfig.t) (w : world)
    (entries meta : list (string * yaml)) :
  tasks_file w = Doc (YMap entries) →
  dict_get "meta" entries = Some (YMap meta) →
  ∃ w' entries' meta',
    save_tasks tasks w = (Ok (), w')
    ∧ tasks_file w' = Doc (YMap entries')
    ∧ dict_get "meta" entries' = Some (YMap meta')
    ∧ dict_get "last_updated" meta' = Some (YStr (clock w (ticks w)))
    ∧ (∀ k, k ≠ "last_updated" → dict_get k meta' = dict_get k meta)
    ∧ (∀ k, k ≠ "tasks" → k ≠ "meta" → dict_get k entries' = dict_get k entries).
Proof.
  intros Hf Hm.
  unfold save_tasks, _load_tasks_data, read_file, bind. rewrite Hf. simpl.
  unfold _save_tasks_data, bind, now. simpl.
  rewrite dict_get_set_ne by done. rewrite Hm. simpl.
  eexists _, _, _. split; [reflexivity |]. simpl. split; [reflexivity |].
  split; [apply dict_get_set_eq |]. split; [apply dict_get_set_eq |]. split.
  - intros k Hk. by apply dict_get_set_ne.
  - intros k Hk1 Hk2. by rewrite !dict_get_set_ne.
Qed.

(** When the id numbered one past the count of tasks is free, [add_task]
    returns at the first test of its loop: the new task has that id, the
    titles passed, status pending, no attempt of at most three, and the
    clock's reading as creation time; it is stored last and is what
    [get_task] then finds under its id. *)
Theorem add_task_free_id (fuel : nat) (title description prompt_template : string)
    (tasks : list TaskConfig.t) (w : world) :
  stored tasks w →
  id_taken tasks (task_id_of (length tasks + 1)) = false →
  let new_task :=
    {| TaskConfig.id := task_id_of (length tasks + 1);
       TaskConfig.title := title;
       TaskConfig.description := description;
       TaskConfig.prompt_template := prompt_template;
       TaskConfig.status := "pending";
       TaskConfig.created_at := clock w (ticks w);
       TaskConfig.started_at := None;
       TaskConfig.completed_at := None;
       TaskConfig.attempts := 0;
       TaskConfig.max_attempts := 3;
       TaskConfig.last_error := None;
       TaskConfig.session_id := None;
       TaskConfig.workspace_path := None |} in
  ∃ w', add_task (S fuel) title description prompt_template w
        = (Ok (Some new_task), w')
        ∧ stored (tasks ++ [new_task]) w'
        ∧ get_task (task_id_of (length tasks + 1)) w' = (Ok (Some new_task), w').
Proof.
  intros Hst Hfree new_task.
  pose proof (add_task_on_stored (S fuel) title description prompt_template _ _ Hst)
    as H.
  destruct (unique_id_loop_cases tasks (task_id_of (length tasks + 1)))
    as (Hloop & _).
  rewrite (Hloop Hfree) in H. destruct H as (w' & Hadd & Hst' & _).
  exists w'. split; [exact Hadd |]. split; [exact Hst' |].
  rewrite (stored_get_task _ _ _ Hst'). f_equal. f_equal.
  apply id_taken_elem in Hfree. rewrite (find_id_app _ _ _ _ Hfree).
  cbn [TaskConfig.id]. by rewrite String.eqb_refl.
Qed.


Lemma decimal_pretty_N_go (x : N) (s : string) :
  (decimal (pretty_N_go x s)).1 = (x * (decimal s).2 + (decimal s).1)%N.
Proof.
  revert s. induction (N.lt_wf_0 x) as [x _ IH]; intros s.
  assert (x = 0 ∨ 0 < x)%N as [-> | Hpos] by lia.
  - rewrite pretty_N_go_0. lia.
  - rewrite pretty_N_go_step by done. rewrite IH by (by apply N.div_lt).
    cbn [decimal]. destruct (decimal s) as [v p]. cbn [fst snd].
    assert (N.of_nat (nat_of_ascii (pretty_N_char (x `mod` 10))) - 48
            = x `mod` 10)%N as ->.
    { assert (x `mod` 10 < 10)%N as Hlt by (by apply N.mod_lt).
      generalize dependent (x `mod` 10)%N. intros d Hlt.
      assert (d = 0 ∨ d = 1 ∨ d = 2 ∨ d = 3 ∨ d = 4 ∨ d = 5 ∨ d = 6 ∨ d = 7
              ∨ d = 8 ∨ d = 9)%N as Hcase by lia.
      destruct Hcase as [-> | [-> | [-> | [-> | [-> | [-> | [-> | [-> | [-> | ->]]]]]]]]];
        reflexivity. }
    pose proof (N.div_mod x 10). nia.
Qed.

Lemma decimal_pretty (n : nat) : (decimal (pretty n)).1 = N.of_nat n.
Proof.
  unfold pretty, pretty_nat, pretty, pretty_N.
  destruct (decide (N.of_nat n = 0)%N) as [-> | _]; [reflexivity |].
  rewrite decimal_pretty_N_go. simpl. lia.
Qed.

Lemma decimal_fmt03d (n : nat) : (decimal (Py.fmt03d n)).1 = N.of_nat n.
Proof.
  unfold Py.fmt03d. pose proof (decimal_pretty n) as H.
  destruct (String.length (pretty n)) as [|[|[|?]]]; try exact H;
    rewrite ?append_cons, ?append_nil; cbn [decimal];
    destruct (decimal (pretty n)) as [v p]; cbn [fst] in *;
    change (N.of_nat (nat_of_ascii "0") - 48)%N with 0%N; lia.
Qed.

Lemma task_id_of_inj (a b : nat) : task_id_of a = task_id_of b → a = b.
Proof.
  unfold task_id_of. rewrite !append_cons, !append_nil. intros [= H].
  apply (f_equal (λ s, (decimal s).1)) in H. rewrite !decimal_fmt03d in H. lia.
Qed.

(** A store whose ids are all numbered within its count of tasks, as is
    every store that was filled by [add_task] alone, takes one more task:
    [add_task] returns at the first test of its loop, the new task gets
    the number one past the count, and the ids of the store it leaves are
    again numbered within its count. *)
Theorem add_task_numbered (fuel : nat) (title description prompt_template : string)
    (tasks : list TaskConfig.t) (w : world) :
  stored tasks w →
  numbered tasks →
  ∃ new_task w',
    add_task (S fuel) title description prompt_template w = (Ok (Some new_task), w')
    ∧ TaskConfig.id new_task = task_id_of (length tasks + 1)
    ∧ stored (tasks ++ [new_task]) w'
    ∧ numbered (tasks ++ [new_task]).
Proof.
  intros Hst Hnum.
  assert (Hfree : id_taken tasks (task_id_of (length tasks + 1)) = false).
  { apply id_taken_elem. intros (t & Hid & Hin)%list_elem_of_fmap.
    destruct (Hnum t Hin) as (k & Hk & Hidk).
    rewrite Hidk in Hid. apply task_id_of_inj in Hid. lia. }
  pose proof (add_task_on_stored (S fuel) title description prompt_template _ _ Hst)
    as H.
  destruct (unique_id_loop_cases tasks (task_id_of (length tasks + 1)))
    as (Hloop & _).
  rewrite (Hloop Hfree) in H. destruct H as (w' & Hadd & Hst' & _).
  eexists _, w'. split; [exact Hadd |]. split; [reflexivity |].
  split; [exact Hst' |].
  intros t [Hin | ->%list_elem_of_singleton]%elem_of_app; rewrite length_app; simpl.
  - destruct (Hnum t Hin) as (k & Hk & Hidk). exists k. split; [lia | done].
  - exists (length tasks + 1)%nat. split; [lia | done].
Qed.

(** A manager constructed where no tasks file exists writes the empty
    store; the first task added to it gets the id [task-001] and is the
    store's one task; constructing a manager again leaves the file as it
    is. *)
Theorem new_store_first_task (fuel : nat) (title description prompt_template : string)
    (w : world) :
  tasks_file w = Missing →
  ∃ w0 new_task w',
    init w = (Ok (), w0)
    ∧ stored [] w0
    ∧ add_task (S fuel) title description prompt_template w0
      = (Ok (Some new_task), w')
    ∧ TaskConfig.id new_task = "task-001"
    ∧ stored [new_task] w'
    ∧ init w' = (Ok (), w').
Proof.
  intros Hf.
  assert (∃ w0, init w = (Ok (), w0) ∧ stored [] w0 ∧ tasks_dir ∈ dirs w0)
    as (w0 & Hinit & Hst0 & Hdir0).
  { unfold init, bind, make_dir, read_file. simpl. rewrite Hf. simpl.
    eexists. split; [reflexivity |]. split; [by eexists _, _ |].
    simpl. apply elem_of_union_l. by apply elem_of_singleton. }
  pose proof (add_task_on_stored (S fuel) title description prompt_template _ _ Hst0)
    as H.
  cbn in H. destruct H as (w' & Hadd & Hst' & _ & _ & Hdirs).
  eexists w0, _, w'. split; [exact Hinit |]. split; [exact Hst0 |].
  split; [exact Hadd |]. split; [reflexivity |]. split; [exact Hst' |].
  destruct Hst' as (entries & meta & Hf' & _).
  unfold init, bind, make_dir, read_file. simpl. rewrite Hf'.
  assert (Hdir' : tasks_dir ∈ dirs w') by (by rewrite Hdirs).
  assert ({[tasks_dir]} ∪ dirs w' = dirs w') as ->
    by (by apply subseteq_union_1_L, singleton_subseteq_l).
  by destruct w'.
Qed.

End store_coverage.

(** * Steps on a stored task *)

Section store_steps.

Import YamlTaskManager.

Lemma same_workspaces_refl (w : world) : same_workspaces w w.
Proof. by repeat split. Qed.

Lemma same_workspaces_trans (w1 w2 w3 : world) :
  same_workspaces w1 w2 → same_workspaces w2 w3 → same_workspaces w1 w3.
Proof.
  intros (? & ? & ? & ? & ? & ? & ?) (? & ? & ? & ? & ? & ? & ?).
  repeat split; congruence.
Qed.

Lemma others_kept_refl (task_id : string) (ts : list TaskConfig.t) :
  others_kept task_id ts ts.
Proof. by split. Qed.

Lemma others_kept_trans (task_id : string) (ts1 ts2 ts3 : list TaskConfig.t) :
  others_kept task_id ts1 ts2 → others_kept task_id ts2 ts3 →
  others_kept task_id ts1 ts3.
Proof.
  intros [Hids1 Hf1] [Hids2 Hf2]. split; [congruence |].
  intros other Hne. by rewrite Hf2, Hf1.
Qed.

Lemma find_other_replace (other : string) (pre : list TaskConfig.t)
    (a b : TaskConfig.t) (post : list TaskConfig.t) :
  TaskConfig.id a ≠ other → TaskConfig.id b ≠ other →
  List.find (λ task, String.eqb (TaskConfig.id task) other) (pre ++ a :: post)
  = List.find (λ task, String.eqb (TaskConfig.id task) other) (pre ++ b :: post).
Proof.
  intros Ha%String.eqb_neq Hb%String.eqb_neq.
  induction pre as [|p pre IH]; simpl.
  - by rewrite Ha, Hb.
  - by rewrite IH.
Qed.

(** An update, by keywords other than [id], of a task that the store
    holds. *)
Lemma update_task_found (task_id : string) (updates : list update) (w : world)
    (ts : list TaskConfig.t) (old : TaskConfig.t) :
  stored ts w →
  List.find (λ task, String.eqb (TaskConfig.id task) task_id) ts = Some old →
  keeps_id updates →
  ∃ w' ts',
    update_task task_id updates w = (Ok true, w')
    ∧ stored ts' w'
    ∧ List.find (λ task, String.eqb (TaskConfig.id task) task_id) ts'
      = Some (foldl setattr old updates)
    ∧ others_kept task_id ts ts'
    ∧ same_workspaces w w'
    ∧ ticks w' = S (ticks w).
Proof.
  intros Hst Hfind Hkeep.
  destruct (find_id_split _ _ _ Hfind) as (pre & post & -> & Hpre & Hold).
  pose proof (update_task_on_stored task_id updates _ w Hst) as H.
  rewrite (update_first_app _ _ _ _ _ Hpre Hold) in H.
  destruct H as (f & Hupd & Hst').
  pose proof (foldl_setattr_id updates old Hkeep) as Hid.
  eexists _, _. split; [exact Hupd |]. split; [exact Hst' |].
  split; [| split; [| split; [by repeat split | done]]].
  - rewrite (find_id_app _ _ _ _ Hpre). rewrite Hid.
    apply String.eqb_eq in Hold. by rewrite Hold.
  - split.
    + by rewrite !fmap_app, !fmap_cons, Hid.
    + intros other Hne. apply find_other_replace; congruence.
Qed.

Lemma keeps_id_running (started_at : option string) (attempts : Z)
    (session_id : option string) :
  keeps_id ([set_status "running"; set_started_at started_at; set_attempts attempts]
            ++ (if Py.truthy session_id then [set_session_id session_id] else [])).
Proof.
  intros v Hin. destruct (Py.truthy session_id);
    repeat (apply elem_of_cons in Hin as [Hin | Hin]; [discriminate |]);
    by apply elem_of_nil in Hin.
Qed.

(** The five helpers as updates of a task the store holds. *)
Lemma mark_task_running_found (task_id : string) (session_id : option string)
    (w : world) (ts : list TaskConfig.t) (old : TaskConfig.t) :
  stored ts w →
  List.find (λ task, String.eqb (TaskConfig.id task) task_id) ts = Some old →
  ∃ w' ts',
    mark_task_running task_id session_id w = (Ok true, w')
    ∧ stored ts' w'
    ∧ List.find (λ task, String.eqb (TaskConfig.id task) task_id) ts'
      = Some (foldl setattr old
                ([set_status "running"; set_started_at (Some (clock w (ticks w)));
                  set_attempts (TaskConfig.attempts old + 1)]
                 ++ (if Py.truthy session_id then [set_session_id session_id]
                     else [])))
    ∧ others_kept task_id ts ts'
    ∧ same_workspaces w w'.
Proof.
  intros Hst Hfind.
  set (wa := set_ticks (S (ticks w)) w).
  assert (Hsta : stored ts wa) by exact Hst.
  pose proof (stored_get_task _ _ task_id Hsta) as Hget. rewrite Hfind in Hget.
  destruct (update_task_found task_id _ wa ts old Hsta Hfind
              (keeps_id_running (Some (clock w (ticks w)))
                 (TaskConfig.attempts old + 1) session_id))
    as (w' & ts' & Hupd & Hst' & Hfind' & Hothers & Hsame & _).
  exists w', ts'.
  split; [| split; [exact Hst' | split; [exact Hfind' | split; [exact Hothers |]]]];
    [| exact Hsame].
  unfold mark_task_running, bind, now. fold wa.
  rewrite Hget. cbv beta iota. rewrite Hget. cbv beta iota. exact Hupd.
Qed.

Lemma keeps_id_listed (updates : list update) :
  forallb (λ u, match u with set_id _ => false | _ => true end) updates = true →
  keeps_id updates.
Proof.
  intros H v Hin. rewrite forallb_forall in H.
  apply list_elem_of_In in Hin. by apply H in Hin.
Qed.

Lemma mark_task_completed_found (task_id : string) (w : world)
    (ts : list TaskConfig.t) (old : TaskConfig.t) :
  stored ts w →
  List.find (λ task, String.eqb (TaskConfig.id task) task_id) ts = Some old →
  ∃ w' ts',
    mark_task_completed task_id w = (Ok true, w')
    ∧ stored ts' w'
    ∧ List.find (λ task, String.eqb (TaskConfig.id task) task_id) ts'
      = Some (foldl setattr old
                [set_status "completed"; set_completed_at (Some (clock w (ticks w)));
                 set_last_error None])
    ∧ others_kept task_id ts ts'
    ∧ same_workspaces w w'.
Proof.
  intros Hst Hfind.
  set (wa := set_ticks (S (ticks w)) w).
  assert (Hsta : stored ts wa) by exact Hst.
  destruct (update_task_found task_id
              [set_status "completed"; set_completed_at (Some (clock w (ticks w)));
               set_last_error None] wa ts old Hsta Hfind)
    as (w' & ts' & Hupd & Hst' & Hfind' & Hothers & Hsame & _);
    [by apply keeps_id_listed |].
  exists w', ts'. split; [exact Hupd |]. split; [exact Hst' |].
  split; [exact Hfind' |]. split; [exact Hothers | exact Hsame].
Qed.

Lemma mark_task_failed_found (task_id error : string) (w : world)
    (ts : list TaskConfig.t) (old : TaskConfig.t) :
  stored ts w →
  List.find (λ task, String.eqb (TaskConfig.id task) task_id) ts = Some old →
  ∃ w' ts',
    mark_task_failed task_id error w = (Ok true, w')
    ∧ stored ts' w'
    ∧ List.find (λ task, String.eqb (TaskConfig.id task) task_id) ts'
      = Some (foldl setattr old
                [set_status "failed"; set_completed_at (Some (clock w (ticks w)));
                 set_last_error (Some error)])
    ∧ others_kept task_id ts ts'
    ∧ same_workspaces w w'.
Proof.
  intros Hst Hfind.
  set (wa := set_ticks (S (ticks w)) w).
  assert (Hsta : stored ts wa) by exact Hst.
  destruct (update_task_found task_id
              [set_status "failed"; set_completed_at (Some (clock w (ticks w)));
               set_last_error (Some error)] wa ts old Hsta Hfind)
    as (w' & ts' & Hupd & Hst' & Hfind' & Hothers & Hsame & _);
    [by apply keeps_id_listed |].
  exists w', ts'. split; [exact Hupd |]. split; [exact Hst' |].
  split; [exact Hfind' |]. split; [exact Hothers | exact Hsame].
Qed.

Lemma mark_task_paused_found (task_id reason : string) (w : world)
    (ts : list TaskConfig.t) (old : TaskConfig.t) :
  stored ts w →
  List.find (λ task, String.eqb (TaskConfig.id task) task_id) ts = Some old →
  ∃ w' ts',
    mark_task_paused task_id reason w = (Ok true, w')
    ∧ stored ts' w'
    ∧ List.find (λ task, String.eqb (TaskConfig.id task) task_id) ts'
      = Some (foldl setattr old [set_status "paused"; set_last_error (Some reason)])
    ∧ others_kept task_id ts ts'
    ∧ same_workspaces w w'.
Proof.
  intros Hst Hfind.
  destruct (update_task_found task_id
              [set_status "paused"; set_last_error (Some reason)] w ts old Hst Hfind)
    as (w' & ts' & Hupd & Hst' & Hfind' & Hothers & Hsame & _);
    [by apply keeps_id_listed |].
  exists w', ts'. split; [exact Hupd |]. split; [exact Hst' |].
  split; [exact Hfind' |]. split; [exact Hothers | exact Hsame].
Qed.

Lemma reset_task_found (task_id : string) (w : world)
    (ts : list TaskConfig.t) (old : TaskConfig.t) :
  stored ts w →
  List.find (λ task, String.eqb (TaskConfig.id task) task_id) ts = Some old →
  ∃ w' ts',
    reset_task task_id w = (Ok true, w')
    ∧ stored ts' w'
    ∧ List.find (λ task, String.eqb (TaskConfig.id task) task_id) ts'
      = Some (foldl setattr old
                [set_status "pending"; set_started_at None; set_completed_at None;
                 set_last_error None; set_session_id None])
    ∧ others_kept task_id ts ts'
    ∧ same_workspaces w w'.
Proof.
  intros Hst Hfind.
  destruct (update_task_found task_id
              [set_status "pending"; set_started_at None; set_completed_at None;
               set_last_error None; set_session_id None] w ts old Hst Hfind)
    as (w' & ts' & Hupd & Hst' & Hfind' & Hothers & Hsame & _);
    [by apply keeps_id_listed |].
  exists w', ts'. split; [exact Hupd |]. split; [exact Hst' |].
  split; [exact Hfind' |]. split; [exact Hothers | exact Hsame].
Qed.

Lemma stored_tasks_file (ts : list TaskConfig.t) (w w' : world) :
  tasks_file w' = tasks_file w → stored ts w → stored ts w'.
Proof. intros Hf (entries & meta & H). exists entries, meta. by rewrite Hf. Qed.

Lemma find_id_is_Some (task_id : string) (ts : list TaskConfig.t) :
  task_id ∈ TaskConfig.id <$> ts →
  is_Some (List.find (λ task, String.eqb (TaskConfig.id task) task_id) ts).
Proof.
  intros Hin. destruct (List.find _ ts) eqn:E; [by eexists |].
  destruct (decide (task_id ∈ TaskConfig.id <$> ts)) as [_ | Hout]; [| done].
  induction ts as [|t ts IH]; [by apply elem_of_nil in Hin |].
  simpl in E. destruct (String.eqb (TaskConfig.id t) task_id) eqn:Et; [done |].
  rewrite fmap_cons in Hin. apply elem_of_cons in Hin as [-> | Hin].
  - by rewrite String.eqb_refl in Et.
  - by apply IH.
Qed.

Lemma elem_of_slice_to {A} (n : Z) (l : list A) (x : A) :
  x ∈ Py.slice_to n l → x ∈ l.
Proof.
  unfold Py.slice_to.
  destruct (bool_decide (0 ≤ n));
    intros (i & Hi & _)%elem_of_take; by eapply list_elem_of_lookup_2.
Qed.

Lemma elem_of_List_filter {A} (f : A → bool) (l : list A) (x : A) :
  x ∈ List.filter f l ↔ x ∈ l ∧ f x = true.
Proof. rewrite !list_elem_of_In. apply filter_In. Qed.

Lemma try_except_ok {A} (m : M A) (h : exn → M A) (w : world) a w' :
  m w = (Ok a, w') → try_except m h w = (Ok a, w').
Proof. intros H. unfold try_except. by rewrite H. Qed.

(** The cleanup of the workspaces returns and leaves the tasks file, the
    clock and the place of the workspaces alone. *)
Lemma cleanup_workspace_frame (task_id : string) (force : bool) (w : world) :
  ∃ b w', WorkspaceManager.cleanup_workspace task_id force w = (Ok b, w')
          ∧ tasks_file w' = tasks_file w
          ∧ ticks w' = ticks w
          ∧ clock w' = clock w.
Proof.
  unfold WorkspaceManager.cleanup_workspace, bind at 1, WorkspaceManager.get_world.
  destruct (active_workspaces w !! task_id) as [info|]; [| by eexists _, _].
  destruct (negb _ && negb _); [by eexists _, _ |].
  unfold bind at 1, WorkspaceManager.path_exists.
  destruct (bool_decide _); by eexists _, _.
Qed.

Lemma cleanup_each_frame (task_ids : list string) (count : nat) (w : world) :
  ∃ n w', WorkspaceManager.cleanup_each task_ids count w = (Ok n, w')
          ∧ tasks_file w' = tasks_file w
          ∧ ticks w' = ticks w
          ∧ clock w' = clock w.
Proof.
  revert count w. induction task_ids as [|task_id rest IH]; intros count w.
  - by exists count, w.
  - destruct (cleanup_workspace_frame task_id false w)
      as (b & w1 & Hstep & Hf1 & Ht1 & Hc1).
    destruct (IH (if b then S count else count) w1) as (n & w' & Hloop & Hf & Ht & Hc).
    exists n, w'. cbn [WorkspaceManager.cleanup_each].
    rewrite (bind_ok _ _ _ _ _ Hstep). split; [exact Hloop |].
    split; [congruence |]. split; congruence.
Qed.

Lemma cleanup_all_frame (w : world) :
  ∃ n w', WorkspaceManager.cleanup_all_temporary_workspaces w = (Ok n, w')
          ∧ tasks_file w' = tasks_file w
          ∧ ticks w' = ticks w
          ∧ clock w' = clock w.
Proof. apply cleanup_each_frame. Qed.

(** The construction of the two managers on a file that exists. *)
Lemma managers_init (w : world) :
  ∃ w0 w1,
    YamlTaskManager.init w = (Ok (), w0)
    ∧ WorkspaceManager.init "workspaces" w0 = (Ok (), w1)
    ∧ (tasks_file w ≠ Missing → tasks_file w1 = tasks_file w ∧ ticks w1 = ticks w)
    ∧ clock w1 = clock w.
Proof.
  unfold YamlTaskManager.init, bind at 1, make_dir. unfold bind at 1, read_file.
  cbn [tasks_file set_dirs]. destruct (tasks_file w) eqn:Hf.
  - eexists _, _. split; [reflexivity |]. split; [reflexivity |]. by split.
  - eexists _, _. split; [reflexivity |]. split; [reflexivity |]. by split.
  - eexists _, _. split; [reflexivity |]. split; [reflexivity |]. by split.
Qed.

Lemma stored_not_missing (ts : list TaskConfig.t) (w : world) :
  stored ts w → tasks_file w ≠ Missing.
Proof. intros (entries & meta & -> & _). done. Qed.

End store_steps.

(** * Workspaces: templates, cleanup and the registry file *)

Section workspace_coverage.

Import WorkspaceManager WorkspaceInfo.

(** With the name of a template whose directory exists, [create_workspace]
    for an id that is not registered returns the directory it made,
    registers it under the id with the flags passed and the clock's
    reading, and writes the registry file; the workspace is then found by
    [get_workspace], and a further [create_workspace] for the id returns
    the same path and changes nothing.  The tasks file is not touched. *)
Theorem create_workspace_from_template (task_id name : string) (temporary : bool)
    (w : world) :
  active_workspaces w !! task_id = None →
  name ≠ "" →
  joinpath (joinpath "templates" "workspaces") name ∈ dirs w →
  let path :=
    if temporary
    then mkdtemp_pick w ("task_" +:+ task_id +:+ "_") (base_workspace_dir w) (dirs w)
    else joinpath (base_workspace_dir w) task_id in
  ∃ w',
    create_workspace task_id (Some name) temporary w = (Ok path, w')
    ∧ active_workspaces w'
      = <[task_id := {| task_id := task_id; workspace_path := path;
                        created_at := clock w (ticks w);
                        is_temporary := temporary;
                        base_template := Some name |}]> (active_workspaces w)
    ∧ registry_file w' = Some (to_entry <$> active_workspaces w')
    ∧ dirs w ⊆ dirs w'
    ∧ path ∈ dirs w'
    ∧ tasks_file w' = tasks_file w
    ∧ get_workspace task_id w' = (Ok (Some path), w')
    ∧ ∀ template_name' temporary',
        create_workspace task_id template_name' temporary' w' = (Ok path, w').
Proof.
  intros Hnew Hname Htemplate path.
  assert (Htruthy : Py.truthy (Some name) = true).
  { simpl. apply negb_true_iff. by apply String.eqb_neq. }
  unfold create_workspace, bind at 1, get_world. rewrite Hnew.
  set (w1 := set_dirs ({[path]} ∪ dirs w) w).
  assert ((if temporary
           then mkdtemp ("task_" +:+ task_id +:+ "_") (base_workspace_dir w)
           else (let path := joinpath (base_workspace_dir w) task_id in
                 mkdir path ;;; ret path)) w = (Ok path, w1)) as Hmake.
  { subst w1 path. by destruct temporary. }
  rewrite (bind_ok _ _ _ _ _ Hmake). rewrite Htruthy.
  unfold _apply_workspace_template, bind at 2, path_exists.
  assert (Hfound : bool_decide
                     (joinpath (joinpath "templates" "workspaces") name ∈ dirs w1)
                   = true).
  { apply bool_decide_eq_true. simpl. set_solver. }
  unfold bind at 1. rewrite Hfound.
  eexists. split; [reflexivity |].
  simpl. split; [reflexivity |]. split; [reflexivity |].
  split; [set_solver |]. split; [set_solver |].
  split; [reflexivity |]. split.
  - unfold get_workspace, bind, get_world. simpl. rewrite lookup_insert_eq. simpl.
    rewrite bool_decide_eq_true_2; [done |]. set_solver.
  - intros template_name' temporary'. unfold bind, get_world. simpl.
    by rewrite lookup_insert_eq.
Qed.



End workspace_coverage.

(** * Workspace scans and the status output *)

Section scan_coverage.

Import ClaudeCodeExecutor.

Lemma should_ignore_file_occurs (file_path : string) :
  _should_ignore_file file_path = true
  ↔ ∃ pattern, pattern ∈ ignore_patterns ∧ occurs pattern file_path.
Proof.
  unfold _should_ignore_file, Py.any. rewrite existsb_exists.
  split; intros (pattern & Hin & Hp); exists pattern.
  - split; [by apply list_elem_of_In | by apply contains_occurs].
  - split; [by apply list_elem_of_In | by apply contains_occurs].
Qed.

(** What a scan of a workspace keeps.  A file is in the scan, with its
    modification time, exactly when none of the seven ignore patterns
    occurs in the text of its path, the workspace path included.  So for
    a workspace whose own path contains one of the patterns every scan is
    empty, and no change is reported there whatever changes. *)
Theorem get_workspace_files_spec (tree : gmap string Qc) (workspace_path : string) :
  (∀ file mtime,
      _get_workspace_files tree workspace_path !! file = Some mtime
      ↔ tree !! file = Some mtime
        ∧ ∀ pattern, pattern ∈ ignore_patterns →
            ¬ occurs pattern (WorkspaceManager.joinpath workspace_path file))
  ∧ ((∃ pattern, pattern ∈ ignore_patterns ∧ occurs pattern workspace_path) →
     _get_workspace_files tree workspace_path = ∅
     ∧ ∀ tree',
         _detect_file_changes (_get_workspace_files tree workspace_path)
           (_get_workspace_files tree' workspace_path) workspace_path = []).
Proof.
  assert (Hkeep : ∀ t file mtime,
            _get_workspace_files t workspace_path !! file = Some mtime
            ↔ t !! file = Some mtime
              ∧ ∀ pattern, pattern ∈ ignore_patterns →
                  ¬ occurs pattern (WorkspaceManager.joinpath workspace_path file)).
  { intros t file mtime. unfold _get_workspace_files.
    rewrite map_lookup_filter_Some. cbn [fst].
    rewrite <- not_true_iff_false, should_ignore_file_occurs.
    split; intros [Hl Hf]; (split; [exact Hl |]).
    - intros pattern Hin Hocc. apply Hf. by exists pattern.
    - intros (pattern & Hin & Hocc). by apply (Hf pattern). }
  split; [apply Hkeep |].
  intros (pattern & Hin & pre & post & Hocc).
  assert (Hnone : ∀ t, _get_workspace_files t workspace_path = ∅).
  { intros t. apply map_empty. intros file.
    destruct (_get_workspace_files t workspace_path !! file) as [mtime|] eqn:E;
      [| done].
    apply Hkeep in E as [_ Hfree]. destruct (Hfree pattern Hin).
    exists pre, (post +:+ "/" +:+ file).
    unfold WorkspaceManager.joinpath. rewrite Hocc. by rewrite !append_assoc. }
  split; [apply Hnone |]. intros tree'. by rewrite !Hnone.
Qed.

End scan_coverage.

Section status_coverage.

Import TokenMonitor TokenUsageInfo.

(** A status output in which no message pattern matches.  When the
    status command exits with code 0 and its output matches none of the
    message patterns and not the stand-alone usage pattern, every status
    that [check_token_status] returns shows 0 of 0 messages, a ratio of
    zero and the plan PRO, and [can_run_tasks] allows a run on it for
    every critical threshold above zero; a status is returned when no
    time pattern matches either. *)
Theorem unparsed_status_allows_run (search_messages : string → option (Z * Z))
    (search_usage : string → option Z) (search_time : string → option time_found)
    (true_div : Z → Z → option Qc) (format_percent : Qc → string)
    (self : TokenMonitor.t) (stdout stderr timestamp : string) :
  search_messages stdout = None →
  search_usage stdout = None →
  (Q2Qc 0 < critical_threshold self)%Qc →
  let checked :=
    check_token_status search_messages search_usage search_time true_div
      (StatusExited stdout stderr 0) timestamp in
  (∀ status, checked = Some status →
     messages_used status = 0
     ∧ messages_limit status = 0
     ∧ percentage_used status = Q2Qc 0
     ∧ plan status = Some PRO
     ∧ can_run_tasks format_percent self (Some status)
       = (true, "Token usage within acceptable limits"))
  ∧ (search_time stdout = None → is_Some checked).
Proof.
  intros Hmessages Husage Hcrit checked. subst checked.
  unfold check_token_status. rewrite bool_decide_eq_true_2 by done.
  unfold _parse_status_output. rewrite Hmessages, Husage.
  rewrite (bool_decide_eq_true_2 (0 = 0)) by done.
  rewrite (bool_decide_eq_false_2 (0 < 0)) by lia. split.
  - intros status.
    destruct (match search_time stdout with
              | Some (two_groups hours minutes) => Some <$> timedelta hours minutes
              | Some (one_group n matched) =>
                  if Py.contains "h" matched || Py.contains "hour" matched
                  then Some <$> timedelta n 0
                  else Some <$> timedelta 0 n
              | None => Some None
              end) as [time|]; [| done].
    cbn. intros [= <-]. cbn. split_and!; try done.
    unfold can_run_tasks. cbn. rewrite bool_decide_eq_false_2; [done |].
    by apply Qclt_not_le.
  - intros ->. by eexists.
Qed.

End status_coverage.

(** * The processing of one task and the flow *)

Section flow_coverage.

Import YamlTaskManager TaskProcessor.

Variable generate_prompt_from_template : string → string → string → string.
Variable _extract_session_id : string → option string.
Variable format_percent : Qc → string.

(** The start of a run on a stored task whose workspace is registered:
    the task is marked running, the registered path is returned and
    recorded. *)
Lemma running_prefix (task_id : string) (w : world) (ts : list TaskConfig.t)
    (old : TaskConfig.t) (info : WorkspaceInfo.t) :
  stored ts w →
  List.find (λ task, String.eqb (TaskConfig.id task) task_id) ts = Some old →
  active_workspaces w !! task_id = Some info →
  ∃ wb wc ts2,
    mark_task_running task_id None w = (Ok true, wb)
    ∧ WorkspaceManager.create_workspace task_id None true wb
      = (Ok (WorkspaceInfo.workspace_path info), wb)
    ∧ update_task task_id
        [set_workspace_path (Some (WorkspaceInfo.workspace_path info))] wb
      = (Ok true, wc)
    ∧ stored ts2 wc
    ∧ List.find (λ task, String.eqb (TaskConfig.id task) task_id) ts2
      = Some (foldl setattr old
                [set_status "running"; set_started_at (Some (clock w (ticks w)));
                 set_attempts (TaskConfig.attempts old + 1);
                 set_workspace_path (Some (WorkspaceInfo.workspace_path info))])
    ∧ others_kept task_id ts ts2
    ∧ same_workspaces w wc.
Proof.
  intros Hst Hfind Hws.
  destruct (mark_task_running_found task_id None w ts old Hst Hfind)
    as (wb & ts1 & Hmark & Hst1 & Hfind1 & Ho1 & Hs1).
  destruct (update_task_found task_id
              [set_workspace_path (Some (WorkspaceInfo.workspace_path info))]
              wb ts1 _ Hst1 Hfind1)
    as (wc & ts2 & Hupd & Hst2 & Hfind2 & Ho2 & Hs2 & _);
    [by apply keeps_id_listed |].
  exists wb, wc, ts2. split; [exact Hmark |]. split.
  { apply create_workspace_lookup. destruct Hs1 as (_ & -> & _). exact Hws. }
  split; [exact Hupd |]. split; [exact Hst2 |]. split; [exact Hfind2 |].
  split; [by eapply others_kept_trans | by eapply same_workspaces_trans].
Qed.

(** The quota check fails before the start. *)
Lemma process_single_task_cannot_run (task_config : TaskConfig.t)
    (token_monitor : TokenMonitor.t) (token_status : option TokenUsageInfo.t)
    (obs : ClaudeCodeExecutor.observation) (timeout : Z) (w : world)
    (ts : list TaskConfig.t) (old : TaskConfig.t) :
  let task_id := TaskConfig.id task_config in
  let answer := TokenMonitor.can_run_tasks format_percent token_monitor token_status in
  stored ts w →
  List.find (λ task, String.eqb (TaskConfig.id task) task_id) ts = Some old →
  fst answer = false →
  ∃ w' ts',
    process_single_task generate_prompt_from_template _extract_session_id
      format_percent task_config token_monitor token_status obs timeout w
    = (Ok {| r_task_id := task_id; r_success := false; r_error := Some (snd answer);
             r_status := "paused"; r_changed_files := []; r_session_id := None;
             r_continue_processing := false |}, w')
    ∧ stored ts' w'
    ∧ List.find (λ task, String.eqb (TaskConfig.id task) task_id) ts'
      = Some (foldl setattr old
                [set_status "running"; set_started_at (Some (clock w (ticks w)));
                 set_attempts (TaskConfig.attempts old + 1);
                 set_status "paused"; set_last_error (Some (snd answer))])
    ∧ others_kept task_id ts ts'
    ∧ same_workspaces w w'.
Proof.
  intros task_id answer Hst Hfind Hno.
  destruct (mark_task_running_found task_id None w ts old Hst Hfind)
    as (wb & ts1 & Hmark & Hst1 & Hfind1 & Ho1 & Hs1).
  destruct (mark_task_paused_found task_id (snd answer) wb ts1 _ Hst1 Hfind1)
    as (wc & ts2 & Hpause & Hst2 & Hfind2 & Ho2 & Hs2).
  exists wc, ts2. split; [| split; [exact Hst2 | split; [exact Hfind2 |]]].
  - unfold process_single_task, try_except. fold task_id.
    rewrite (bind_ok _ _ _ _ _ Hmark). fold answer.
    destruct answer as [can_run reason]. simpl in Hno. subst can_run.
    cbn [negb]. cbv iota. by rewrite (bind_ok _ _ _ _ _ Hpause).
  - split; [by eapply others_kept_trans | by eapply same_workspaces_trans].
Qed.

(** The execution succeeds. *)
Lemma process_single_task_success (task_config : TaskConfig.t)
    (token_monitor : TokenMonitor.t) (token_status : option TokenUsageInfo.t)
    (obs : ClaudeCodeExecutor.observation) (timeout : Z) (w : world)
    (ts : list TaskConfig.t) (old : TaskConfig.t) (info : WorkspaceInfo.t) :
  let task_id := TaskConfig.id task_config in
  let path := WorkspaceInfo.workspace_path info in
  let execution :=
    ClaudeCodeExecutor.execute_task _extract_session_id path
      (generate_prompt_from_template (TaskConfig.prompt_template task_config)
         (TaskConfig.title task_config) (TaskConfig.description task_config))
      true (TaskConfig.session_id task_config) (Some timeout) obs in
  stored ts w →
  List.find (λ task, String.eqb (TaskConfig.id task) task_id) ts = Some old →
  active_workspaces w !! task_id = Some info →
  fst (TokenMonitor.can_run_tasks format_percent token_monitor token_status) = true →
  ClaudeExecutionResult.success execution = true →
  ∃ w' ts' completed_at,
    process_single_task generate_prompt_from_template _extract_session_id
      format_percent task_config token_monitor token_status obs timeout w
    = (Ok {| r_task_id := task_id; r_success := true; r_error := None;
             r_status := "completed";
             r_changed_files := ClaudeExecutionResult.changed_files execution;
             r_session_id := None; r_continue_processing := true |}, w')
    ∧ stored ts' w'
    ∧ List.find (λ task, String.eqb (TaskConfig.id task) task_id) ts'
      = Some (foldl setattr old
                [set_status "running"; set_started_at (Some (clock w (ticks w)));
                 set_attempts (TaskConfig.attempts old + 1);
                 set_workspace_path (Some path);
                 set_status "completed"; set_completed_at (Some completed_at);
                 set_last_error None])
    ∧ others_kept task_id ts ts'
    ∧ active_workspaces w' = active_workspaces w.
Proof.
  intros task_id path execution Hst Hfind Hws Hyes Hsuccess.
  destruct (running_prefix task_id w ts old info Hst Hfind Hws)
    as (wb & wc & ts2 & Hmark & Hcreate & Hupd & Hst2 & Hfind2 & Ho2 & Hs2).
  set (wp := set_dirs ({[WorkspaceManager.joinpath path ".claude"]} ∪ dirs wc) wc).
  destruct (mark_task_completed_found task_id wp ts2 _ (Hst2 : stored ts2 wp) Hfind2)
    as (wd & ts3 & Hdone & Hst3 & Hfind3 & Ho3 & Hs3).
  exists wd, ts3, (clock wc (ticks wc)).
  split; [| split; [exact Hst3 | split; [exact Hfind3 |]]].
  - unfold process_single_task, try_except. fold task_id.
    rewrite (bind_ok _ _ _ _ _ Hmark).
    destruct (TokenMonitor.can_run_tasks format_percent token_monitor token_status)
      as [can_run reason]. simpl in Hyes. subst can_run. cbn [negb]. cbv iota.
    rewrite (bind_ok _ _ _ _ _ Hcreate). rewrite (bind_ok _ _ _ _ _ Hupd).
    rewrite (bind_ok _ _ _ _ _ (execute_task_call_ok _ _ _ _ _ _ _ wc)).
    fold path. fold wp. fold execution. rewrite Hsuccess.
    by rewrite (bind_ok _ _ _ _ _ Hdone).
  - split; [by eapply others_kept_trans |].
    destruct Hs2 as (_ & Ha2 & _), Hs3 as (_ & Ha3 & _). rewrite Ha3. exact Ha2.
Qed.

(** The execution meets the quota. *)
Lemma process_single_task_quota (task_config : TaskConfig.t)
    (token_monitor : TokenMonitor.t) (token_status : option TokenUsageInfo.t)
    (obs : ClaudeCodeExecutor.observation) (timeout : Z) (w : world)
    (ts : list TaskConfig.t) (old : TaskConfig.t) (info : WorkspaceInfo.t) :
  let task_id := TaskConfig.id task_config in
  let path := WorkspaceInfo.workspace_path info in
  let execution :=
    ClaudeCodeExecutor.execute_task _extract_session_id path
      (generate_prompt_from_template (TaskConfig.prompt_template task_config)
         (TaskConfig.title task_config) (TaskConfig.description task_config))
      true (TaskConfig.session_id task_config) (Some timeout) obs in
  let session := ClaudeExecutionResult.session_id execution in
  stored ts w →
  List.find (λ task, String.eqb (TaskConfig.id task) task_id) ts = Some old →
  active_workspaces w !! task_id = Some info →
  fst (TokenMonitor.can_run_tasks format_percent token_monitor token_status) = true →
  ClaudeExecutionResult.success execution = false →
  ClaudeExecutionResult.token_limit_hit execution = true →
  ∃ w' ts',
    process_single_task generate_prompt_from_template _extract_session_id
      format_percent task_config token_monitor token_status obs timeout w
    = (Ok {| r_task_id := task_id; r_success := false;
             r_error := Some "Token limit reached"; r_status := "paused";
             r_changed_files := []; r_session_id := session;
             r_continue_processing := false |}, w')
    ∧ stored ts' w'
    ∧ List.find (λ task, String.eqb (TaskConfig.id task) task_id) ts'
      = Some (foldl setattr old
                ([set_status "running"; set_started_at (Some (clock w (ticks w)));
                  set_attempts (TaskConfig.attempts old + 1);
                  set_workspace_path (Some path)]
                 ++ (if Py.truthy session then [set_session_id session] else [])
                 ++ [set_status "paused";
                     set_last_error (Some "Token limit reached during execution")]))
    ∧ others_kept task_id ts ts'
    ∧ active_workspaces w' = active_workspaces w.
Proof.
  intros task_id path execution session Hst Hfind Hws Hyes Hfail Hquota.
  destruct (running_prefix task_id w ts old info Hst Hfind Hws)
    as (wb & wc & ts2 & Hmark & Hcreate & Hupd & Hst2 & Hfind2 & Ho2 & Hs2).
  set (t2 := foldl setattr old _) in Hfind2.
  set (wp := set_dirs ({[WorkspaceManager.joinpath path ".claude"]} ∪ dirs wc) wc).
  assert (Hst2p : stored ts2 wp) by exact Hst2.
  assert (∃ wd ts3,
            (if Py.truthy session
             then update_task task_id [set_session_id session]
             else ret false) wp = (Ok (Py.truthy session), wd)
            ∧ stored ts3 wd
            ∧ List.find (λ task, String.eqb (TaskConfig.id task) task_id) ts3
              = Some (foldl setattr t2
                        (if Py.truthy session then [set_session_id session] else []))
            ∧ others_kept task_id ts2 ts3
            ∧ same_workspaces wp wd)
    as (wd & ts3 & Hsave & Hst3 & Hfind3 & Ho3 & Hs3).
  { destruct (Py.truthy session).
    - destruct (update_task_found task_id [set_session_id session] wp ts2 _
                  Hst2p Hfind2)
        as (wd & ts3 & Hsave & Hst3 & Hfind3 & Ho3 & Hs3 & _);
        [by apply keeps_id_listed |].
      by exists wd, ts3.
    - exists wp, ts2. split; [done |]. split; [done |]. split; [done |].
      split; [apply others_kept_refl | apply same_workspaces_refl]. }
  destruct (mark_task_paused_found task_id "Token limit reached during execution"
              wd ts3 _ Hst3 Hfind3)
    as (we & ts4 & Hpause & Hst4 & Hfind4 & Ho4 & Hs4).
  exists we, ts4. split; [| split; [exact Hst4 | split]].
  - unfold process_single_task, try_except. fold task_id.
    rewrite (bind_ok _ _ _ _ _ Hmark).
    destruct (TokenMonitor.can_run_tasks format_percent token_monitor token_status)
      as [can_run reason]. simpl in Hyes. subst can_run. cbn [negb]. cbv iota.
    rewrite (bind_ok _ _ _ _ _ Hcreate). rewrite (bind_ok _ _ _ _ _ Hupd).
    rewrite (bind_ok _ _ _ _ _ (execute_task_call_ok _ _ _ _ _ _ _ wc)).
    fold path. fold wp. fold execution. rewrite Hfail, Hquota. fold session.
    rewrite (bind_ok _ _ _ _ _ Hsave). by rewrite (bind_ok _ _ _ _ _ Hpause).
  - rewrite Hfind4. subst t2. by rewrite <- !foldl_app.
  - split; [eauto using others_kept_trans |].
    destruct Hs2 as (_ & Ha2 & _), Hs3 as (_ & Ha3 & _), Hs4 as (_ & Ha4 & _).
    rewrite Ha4, Ha3. exact Ha2.
Qed.

(** The execution fails without a sign of the quota. *)
Lemma process_single_task_failure (task_config : TaskConfig.t)
    (token_monitor : TokenMonitor.t) (token_status : option TokenUsageInfo.t)
    (obs : ClaudeCodeExecutor.observation) (timeout : Z) (w : world)
    (ts : list TaskConfig.t) (old : TaskConfig.t) (info : WorkspaceInfo.t) :
  let task_id := TaskConfig.id task_config in
  let path := WorkspaceInfo.workspace_path info in
  let execution :=
    ClaudeCodeExecutor.execute_task _extract_session_id path
      (generate_prompt_from_template (TaskConfig.prompt_template task_config)
         (TaskConfig.title task_config) (TaskConfig.description task_config))
      true (TaskConfig.session_id task_config) (Some timeout) obs in
  let error_msg :=
    Py.or_else (ClaudeExecutionResult.error_message execution)
      "Claude Code execution failed" in
  let gives_up :=
    bool_decide (TaskConfig.max_attempts task_config ≤ TaskConfig.attempts task_config) in
  stored ts w →
  List.find (λ task, String.eqb (TaskConfig.id task) task_id) ts = Some old →
  active_workspaces w !! task_id = Some info →
  fst (TokenMonitor.can_run_tasks format_percent token_monitor token_status) = true →
  ClaudeExecutionResult.success execution = false →
  ClaudeExecutionResult.token_limit_hit execution = false →
  ∃ w' ts' completed_at,
    process_single_task generate_prompt_from_template _extract_session_id
      format_percent task_config token_monitor token_status obs timeout w
    = (Ok {| r_task_id := task_id; r_success := false; r_error := Some error_msg;
             r_status := if gives_up then "failed" else "pending";
             r_changed_files := []; r_session_id := None;
             r_continue_processing := true |}, w')
    ∧ stored ts' w'
    ∧ List.find (λ task, String.eqb (TaskConfig.id task) task_id) ts'
      = Some (foldl setattr old
                ([set_status "running"; set_started_at (Some (clock w (ticks w)));
                  set_attempts (TaskConfig.attempts old + 1);
                  set_workspace_path (Some path)]
                 ++ (if gives_up
                     then [set_status "failed"; set_completed_at (Some completed_at);
                           set_last_error (Some error_msg)]
                     else [set_status "pending"; set_started_at None;
                           set_completed_at None; set_last_error None;
                           set_session_id None])))
    ∧ others_kept task_id ts ts'
    ∧ active_workspaces w' = active_workspaces w.
Proof.
  intros task_id path execution error_msg gives_up Hst Hfind Hws Hyes Hfail Hnoquota.
  destruct (running_prefix task_id w ts old info Hst Hfind Hws)
    as (wb & wc & ts2 & Hmark & Hcreate & Hupd & Hst2 & Hfind2 & Ho2 & Hs2).
  set (t2 := foldl setattr old _) in Hfind2.
  set (wp := set_dirs ({[WorkspaceManager.joinpath path ".claude"]} ∪ dirs wc) wc).
  assert (Hst2p : stored ts2 wp) by exact Hst2.
  assert (∃ wd ts3,
            (if gives_up
             then mark_task_failed task_id error_msg ;;; ret "failed"
             else reset_task task_id ;;; ret "pending") wp
            = (Ok (if gives_up then "failed" else "pending"), wd)
            ∧ stored ts3 wd
            ∧ List.find (λ task, String.eqb (TaskConfig.id task) task_id) ts3
              = Some (foldl setattr t2
                        (if gives_up
                         then [set_status "failed";
                               set_completed_at (Some (clock wc (ticks wc)));
                               set_last_error (Some error_msg)]
                         else [set_status "pending"; set_started_at None;
                               set_completed_at None; set_last_error None;
                               set_session_id None]))
            ∧ others_kept task_id ts2 ts3
            ∧ same_workspaces wp wd)
    as (wd & ts3 & Hend & Hst3 & Hfind3 & Ho3 & Hs3).
  { destruct gives_up.
    - destruct (mark_task_failed_found task_id error_msg wp ts2 _ Hst2p Hfind2)
        as (wd & ts3 & Hend & H).
      exists wd, ts3. by rewrite (bind_ok _ _ _ _ _ Hend).
    - destruct (reset_task_found task_id wp ts2 _ Hst2p Hfind2)
        as (wd & ts3 & Hend & H).
      exists wd, ts3. by rewrite (bind_ok _ _ _ _ _ Hend). }
  exists wd, ts3, (clock wc (ticks wc)). split; [| split; [exact Hst3 | split]].
  - unfold process_single_task, try_except. fold task_id.
    rewrite (bind_ok _ _ _ _ _ Hmark).
    destruct (TokenMonitor.can_run_tasks format_percent token_monitor token_status)
      as [can_run reason]. simpl in Hyes. subst can_run. cbn [negb]. cbv iota.
    rewrite (bind_ok _ _ _ _ _ Hcreate). rewrite (bind_ok _ _ _ _ _ Hupd).
    rewrite (bind_ok _ _ _ _ _ (execute_task_call_ok _ _ _ _ _ _ _ wc)).
    fold path. fold wp. fold execution. rewrite Hfail, Hnoquota.
    fold error_msg. fold gives_up.
    by rewrite (bind_ok _ _ _ _ _ Hend).
  - rewrite Hfind3. subst t2. by rewrite <- foldl_app.
  - split; [eauto using others_kept_trans |].
    destruct Hs2 as (_ & Ha2 & _), Hs3 as (_ & Ha3 & _). rewrite Ha3. exact Ha2.
Qed.

(** No workspace is registered for the task: [create_workspace] makes a
    directory and raises, and the handler of [process_single_task] stores
    the failure. *)
Lemma process_single_task_unregistered (task_config : TaskConfig.t)
    (token_monitor : TokenMonitor.t) (token_status : option TokenUsageInfo.t)
    (obs : ClaudeCodeExecutor.observation) (timeout : Z) (w : world)
    (ts : list TaskConfig.t) (old : TaskConfig.t) :
  let task_id := TaskConfig.id task_config in
  stored ts w →
  List.find (λ task, String.eqb (TaskConfig.id task) task_id) ts = Some old →
  active_workspaces w !! task_id = None →
  fst (TokenMonitor.can_run_tasks format_percent token_monitor token_status) = true →
  ∃ w' ts' completed_at,
    process_single_task generate_prompt_from_template _extract_session_id
      format_percent task_config token_monitor token_status obs timeout w
    = (Ok {| r_task_id := task_id; r_success := false;
             r_error := Some "name 'datetime' is not defined";
             r_status := "failed"; r_changed_files := []; r_session_id := None;
             r_continue_processing := true |}, w')
    ∧ stored ts' w'
    ∧ List.find (λ task, String.eqb (TaskConfig.id task) task_id) ts'
      = Some (foldl setattr old
                [set_status "running"; set_started_at (Some (clock w (ticks w)));
                 set_attempts (TaskConfig.attempts old + 1);
                 set_status "failed"; set_completed_at (Some completed_at);
                 set_last_error
                   (Some "Unexpected error: name 'datetime' is not defined")])
    ∧ others_kept task_id ts ts'
    ∧ active_workspaces w' = active_workspaces w
    ∧ registry_file w' = registry_file w
    ∧ dirs w ⊆ dirs w'
    ∧ mkdtemp_pick w ("task_" +:+ task_id +:+ "_") (base_workspace_dir w) (dirs w)
      ∈ dirs w'.
Proof.
  intros task_id Hst Hfind Hws Hyes.
  destruct (mark_task_running_found task_id None w ts old Hst Hfind)
    as (wb & ts1 & Hmark & Hst1 & Hfind1 & Ho1 & Hs1).
  assert (Hws_b : active_workspaces wb !! task_id = None)
    by (by rewrite (proj1 (proj2 Hs1))).
  assert (∃ wc, WorkspaceManager.create_workspace task_id None true wb
                = (Raise (NameError "datetime"), wc)
                ∧ tasks_file wc = tasks_file wb
                ∧ active_workspaces wc = active_workspaces wb
                ∧ registry_file wc = registry_file wb
                ∧ dirs wb ⊆ dirs wc
                ∧ mkdtemp_pick wb ("task_" +:+ task_id +:+ "_")
                    (base_workspace_dir wb) (dirs wb) ∈ dirs wc)
    as (wc & Hcreate & Hfile & Hact_c & Hreg_c & Hsub_c & Hdir_c).
  { unfold WorkspaceManager.create_workspace, bind at 1, WorkspaceManager.get_world.
    rewrite Hws_b. eexists. split; [reflexivity |]. simpl.
    do 3 (split; [reflexivity |]). split; set_solver. }
  destruct Hs1 as (Hbase & Hact & Hreg & Hdirs & Hpick & Hclock).
  pose proof (stored_tasks_file _ _ _ Hfile Hst1) as Hst1c.
  destruct (mark_task_failed_found task_id
              "Unexpected error: name 'datetime' is not defined" wc ts1 _
              Hst1c Hfind1)
    as (wd & ts2 & Hfailed & Hst2 & Hfind2 & Ho2 & Hs2).
  destruct Hs2 as (_ & Hact_d & Hreg_d & Hdirs_d & _).
  exists wd, ts2, (clock wc (ticks wc)).
  split; [| split; [exact Hst2 | split; [exact Hfind2 |]]].
  - unfold process_single_task, try_except. fold task_id.
    unfold bind at 1. rewrite Hmark.
    destruct (TokenMonitor.can_run_tasks format_percent token_monitor token_status)
      as [can_run reason]. simpl in Hyes. subst can_run. cbn [negb]. cbv iota.
    unfold bind at 1. rewrite Hcreate.
    change (exn_str (NameError "datetime")) with "name 'datetime' is not defined".
    change ("Unexpected error: " +:+ "name 'datetime' is not defined")
      with "Unexpected error: name 'datetime' is not defined".
    by rewrite (bind_ok _ _ _ _ _ Hfailed).
  - split; [by eapply others_kept_trans |].
    split; [congruence |]. split; [congruence |].
    rewrite Hdirs_d. rewrite <- Hdirs. split; [done |].
    by rewrite <- Hpick, <- Hbase.
Qed.

(** Whatever the quota check and the execution give, a run on a task that
    the store holds returns. *)
Lemma process_single_task_total (task_config : TaskConfig.t)
    (token_monitor : TokenMonitor.t) (token_status : option TokenUsageInfo.t)
    (obs : ClaudeCodeExecutor.observation) (timeout : Z) (w : world)
    (ts : list TaskConfig.t) (old : TaskConfig.t) :
  let task_id := TaskConfig.id task_config in
  stored ts w →
  List.find (λ task, String.eqb (TaskConfig.id task) task_id) ts = Some old →
  ∃ result w' ts' task,
    process_single_task generate_prompt_from_template _extract_session_id
      format_percent task_config token_monitor token_status obs timeout w
    = (Ok result, w')
    ∧ r_task_id result = task_id
    ∧ r_status result ∈ ["paused"; "completed"; "pending"; "failed"]
    ∧ (r_success result = true ↔ r_status result = "completed")
    ∧ (r_continue_processing result = false ↔ r_status result = "paused")
    ∧ stored ts' w'
    ∧ List.find (λ task, String.eqb (TaskConfig.id task) task_id) ts' = Some task
    ∧ TaskConfig.status task = r_status result
    ∧ TaskConfig.attempts task = TaskConfig.attempts old + 1
    ∧ others_kept task_id ts ts'.
Proof.
  intros task_id Hst Hfind.
  destruct (fst (TokenMonitor.can_run_tasks format_percent token_monitor token_status))
    eqn:Hrun.
  - destruct (active_workspaces w !! task_id) as [info|] eqn:Hws.
    + set (execution :=
             ClaudeCodeExecutor.execute_task _extract_session_id
               (WorkspaceInfo.workspace_path info)
               (generate_prompt_from_template (TaskConfig.prompt_template task_config)
                  (TaskConfig.title task_config) (TaskConfig.description task_config))
               true (TaskConfig.session_id task_config) (Some timeout) obs).
      destruct (ClaudeExecutionResult.success execution) eqn:Hsuccess.
      * destruct (process_single_task_success task_config token_monitor token_status
                    obs timeout w ts old info Hst Hfind Hws Hrun Hsuccess)
          as (w' & ts' & completed_at & Hgo & Hst' & Hfind' & Ho & _).
        eexists _, w', ts', _. split; [exact Hgo |]. cbn.
        split; [done |]. split; [set_solver |]. split; [done |]. split; [done |].
        split; [exact Hst' |]. split; [exact Hfind' |].
        split; [by destruct old |]. split; [by destruct old | exact Ho].
      * destruct (ClaudeExecutionResult.token_limit_hit execution) eqn:Hquota.
        -- destruct (process_single_task_quota task_config token_monitor token_status
                       obs timeout w ts old info Hst Hfind Hws Hrun Hsuccess Hquota)
             as (w' & ts' & Hgo & Hst' & Hfind' & Ho & _).
           destruct (Py.truthy (ClaudeExecutionResult.session_id execution))
             eqn:Hsession; subst execution; try rewrite Hsession in Hfind';
             (eexists _, w', ts', _; split; [exact Hgo |]; cbn;
              split; [done |]; split; [set_solver |]; split; [done |];
              split; [done |]; split; [exact Hst' |]; split; [exact Hfind' |];
              split; [by destruct old |]; split; [by destruct old | exact Ho]).
        -- destruct (process_single_task_failure task_config token_monitor
                       token_status obs timeout w ts old info Hst Hfind Hws Hrun
                       Hsuccess Hquota)
             as (w' & ts' & completed_at & Hgo & Hst' & Hfind' & Ho & _).
           destruct (bool_decide (TaskConfig.max_attempts task_config
                                  ≤ TaskConfig.attempts task_config)) eqn:Hgive;
             try rewrite Hgive in Hgo; try rewrite Hgive in Hfind';
             (eexists _, w', ts', _; split; [exact Hgo |]; cbn;
              split; [done |]; split; [set_solver |]; split; [done |];
              split; [done |]; split; [exact Hst' |]; split; [exact Hfind' |];
              split; [by destruct old |]; split; [by destruct old | exact Ho]).
    + destruct (process_single_task_unregistered task_config token_monitor
                  token_status obs timeout w ts old Hst Hfind Hws Hrun)
        as (w' & ts' & completed_at & Hgo & Hst' & Hfind' & Ho & _).
      eexists _, w', ts', _. split; [exact Hgo |]. cbn.
      split; [done |]. split; [set_solver |]. split; [done |]. split; [done |].
      split; [exact Hst' |]. split; [exact Hfind' |].
      split; [by destruct old |]. split; [by destruct old | exact Ho].
  - destruct (process_single_task_cannot_run task_config token_monitor token_status
                obs timeout w ts old Hst Hfind Hrun)
      as (w' & ts' & Hgo & Hst' & Hfind' & Ho & _).
    eexists _, w', ts', _. split; [exact Hgo |]. cbn.
    split; [done |]. split; [set_solver |]. split; [done |]. split; [done |].
    split; [exact Hst' |]. split; [exact Hfind' |].
    split; [by destruct old |]. split; [by destruct old | exact Ho].
Qed.

(** The selection on a file the store wrote reads no clock. *)
Lemma get_pending_tasks_stored (max_tasks : Z) (ts : list TaskConfig.t) (w : world) :
  stored ts w →
  get_pending_tasks max_tasks w
  = (Ok (Py.slice_to max_tasks
           (List.filter (λ task, String.eqb (TaskConfig.status task) "pending") ts
            ++ List.filter (λ task, Py.truthy (TaskConfig.session_id task))
                 (List.filter (λ task, String.eqb (TaskConfig.status task) "paused")
                    ts))), w).
Proof.
  intros Hst. pose proof (stored_load _ _ Hst) as Hl.
  assert (∀ status, get_tasks_by_status status w
                    = (Ok (List.filter
                             (λ task, String.eqb (TaskConfig.status task) status) ts),
                       w)) as Hby.
  { intros status. unfold get_tasks_by_status. by rewrite (bind_ok _ _ _ _ _ Hl). }
  unfold get_pending_tasks, YamlTaskManager.get_pending_tasks.
  by rewrite (bind_ok _ _ _ _ _ (Hby "pending")), (bind_ok _ _ _ _ _ (Hby "paused")).
Qed.

(** Whatever the quota check and the execution give, [process_single_task]
    on a task that the store holds returns a result and does not raise.
    The status it returns is paused, completed, pending or failed, never
    running, and is the status then stored for the task; the result says
    success exactly for completed and tells the flow to stop exactly for
    paused; the stored attempts are one more than before; the tasks under
    other ids are stored as they were. *)
Theorem process_single_task_outcome (task_config : TaskConfig.t)
    (token_monitor : TokenMonitor.t) (token_status : option TokenUsageInfo.t)
    (obs : ClaudeCodeExecutor.observation) (timeout : Z) (w : world)
    (tasks : list TaskConfig.t) (old : TaskConfig.t) :
  let task_id := TaskConfig.id task_config in
  stored tasks w →
  List.find (λ task, String.eqb (TaskConfig.id task) task_id) tasks = Some old →
  ∃ result w' tasks' task,
    process_single_task generate_prompt_from_template _extract_session_id
      format_percent task_config token_monitor token_status obs timeout w
    = (Ok result, w')
    ∧ r_task_id result = task_id
    ∧ r_status result ∈ ["paused"; "completed"; "pending"; "failed"]
    ∧ (r_success result = true ↔ r_status result = "completed")
    ∧ (r_continue_processing result = false ↔ r_status result = "paused")
    ∧ stored tasks' w'
    ∧ List.find (λ task, String.eqb (TaskConfig.id task) task_id) tasks' = Some task
    ∧ TaskConfig.status task = r_status result
    ∧ TaskConfig.attempts task = TaskConfig.attempts old + 1
    ∧ others_kept task_id tasks tasks'.
Proof. apply process_single_task_total. Qed.

(** A run that succeeds.  For a stored task with a registered workspace,
    when the quota check allows the run and the execution succeeds, the
    result is a success with status completed that carries the changed
    files and lets the flow go on; the task is stored completed, with a
    completion time, without error, with one attempt more, and with the
    workspace path recorded; its session id is the one it had.  The
    workspaces registered are the ones registered before. *)
Theorem process_single_task_completes (task_config : TaskConfig.t)
    (token_monitor : TokenMonitor.t) (token_status : option TokenUsageInfo.t)
    (obs : ClaudeCodeExecutor.observation) (timeout : Z) (w : world)
    (tasks : list TaskConfig.t) (old : TaskConfig.t) (info : WorkspaceInfo.t) :
  let task_id := TaskConfig.id task_config in
  let path := WorkspaceInfo.workspace_path info in
  let execution :=
    ClaudeCodeExecutor.execute_task _extract_session_id path
      (generate_prompt_from_template (TaskConfig.prompt_template task_config)
         (TaskConfig.title task_config) (TaskConfig.description task_config))
      true (TaskConfig.session_id task_config) (Some timeout) obs in
  stored tasks w →
  List.find (λ task, String.eqb (TaskConfig.id task) task_id) tasks = Some old →
  active_workspaces w !! task_id = Some info →
  fst (TokenMonitor.can_run_tasks format_percent token_monitor token_status) = true →
  ClaudeExecutionResult.success execution = true →
  ∃ w' tasks' task,
    process_single_task generate_prompt_from_template _extract_session_id
      format_percent task_config token_monitor token_status obs timeout w
    = (Ok {| r_task_id := task_id; r_success := true; r_error := None;
             r_status := "completed";
             r_changed_files := ClaudeExecutionResult.changed_files execution;
             r_session_id := None; r_continue_processing := true |}, w')
    ∧ stored tasks' w'
    ∧ List.find (λ task, String.eqb (TaskConfig.id task) task_id) tasks' = Some task
    ∧ TaskConfig.status task = "completed"
    ∧ is_Some (TaskConfig.completed_at task)
    ∧ TaskConfig.last_error task = None
    ∧ TaskConfig.attempts task = TaskConfig.attempts old + 1
    ∧ TaskConfig.workspace_path task = Some path
    ∧ TaskConfig.session_id task = TaskConfig.session_id old
    ∧ active_workspaces w' = active_workspaces w.
Proof.
  intros task_id path execution Hst Hfind Hws Hrun Hsuccess.
  destruct (process_single_task_success task_config token_monitor token_status
              obs timeout w tasks old info Hst Hfind Hws Hrun Hsuccess)
    as (w' & ts' & completed_at & Hgo & Hst' & Hfind' & _ & Hsame).
  eexists w', ts', _. split; [exact Hgo |]. split; [exact Hst' |].
  split; [exact Hfind' |]. destruct old. simpl.
  split_and!; try done; by eexists.
Qed.

(** A run that meets the quota.  For a stored task with a registered
    workspace, when the quota check allows the run and the execution
    reports that the limit was hit, the result is paused, carries the
    session id of the execution and tells the flow to stop; the task is
    stored paused with one attempt more, and its session id is the one of
    the execution when that is a non-empty string and the one it had
    otherwise.  The workspaces registered are the ones registered
    before. *)
Theorem process_single_task_pauses_on_quota (task_config : TaskConfig.t)
    (token_monitor : TokenMonitor.t) (token_status : option TokenUsageInfo.t)
    (obs : ClaudeCodeExecutor.observation) (timeout : Z) (w : world)
    (tasks : list TaskConfig.t) (old : TaskConfig.t) (info : WorkspaceInfo.t) :
  let task_id := TaskConfig.id task_config in
  let path := WorkspaceInfo.workspace_path info in
  let execution :=
    ClaudeCodeExecutor.execute_task _extract_session_id path
      (generate_prompt_from_template (TaskConfig.prompt_template task_config)
         (TaskConfig.title task_config) (TaskConfig.description task_config))
      true (TaskConfig.session_id task_config) (Some timeout) obs in
  let session := ClaudeExecutionResult.session_id execution in
  stored tasks w →
  List.find (λ task, String.eqb (TaskConfig.id task) task_id) tasks = Some old →
  active_workspaces w !! task_id = Some info →
  fst (TokenMonitor.can_run_tasks format_percent token_monitor token_status) = true →
  ClaudeExecutionResult.token_limit_hit execution = true →
  ∃ w' tasks' task,
    process_single_task generate_prompt_from_template _extract_session_id
      format_percent task_config token_monitor token_status obs timeout w
    = (Ok {| r_task_id := task_id; r_success := false;
             r_error := Some "Token limit reached"; r_status := "paused";
             r_changed_files := []; r_session_id := session;
             r_continue_processing := false |}, w')
    ∧ stored tasks' w'
    ∧ List.find (λ task, String.eqb (TaskConfig.id task) task_id) tasks' = Some task
    ∧ TaskConfig.status task = "paused"
    ∧ TaskConfig.last_error task = Some "Token limit reached during execution"
    ∧ TaskConfig.session_id task
      = (if Py.truthy session then session else TaskConfig.session_id old)
    ∧ TaskConfig.attempts task = TaskConfig.attempts old + 1
    ∧ TaskConfig.workspace_path task = Some path
    ∧ active_workspaces w' = active_workspaces w.
Proof.
  intros task_id path execution session Hst Hfind Hws Hrun Hquota.
  assert (Hfail : ClaudeExecutionResult.success execution = false).
  { subst execution. unfold ClaudeCodeExecutor.execute_task in *.
    destruct (ClaudeCodeExecutor.proc obs); [| done | done].
    cbn in *. rewrite Hquota. apply andb_false_r. }
  destruct (process_single_task_quota task_config token_monitor token_status
              obs timeout w tasks old info Hst Hfind Hws Hrun Hfail Hquota)
    as (w' & ts' & Hgo & Hst' & Hfind' & _ & Hsame).
  eexists w', ts', _. split; [exact Hgo |]. split; [exact Hst' |].
  split; [exact Hfind' |]. subst session execution.
  destruct old, (Py.truthy _); simpl; split_and!; done.
Qed.

(** A run stopped by the quota check.  When [can_run_tasks] answers no
    (the status is unknown or at the critical threshold), the stored task
    has already been marked running: it ends paused with the answer's
    reason as its error and with one attempt more, although nothing was
    executed; no workspace is made and the flow is told to stop.  If the
    task held no session id, the selection of the next run does not list
    it. *)
Theorem process_single_task_paused_before_start (task_config : TaskConfig.t)
    (token_monitor : TokenMonitor.t) (token_status : option TokenUsageInfo.t)
    (obs : ClaudeCodeExecutor.observation) (timeout : Z) (w : world)
    (tasks : list TaskConfig.t) (old : TaskConfig.t) :
  let task_id := TaskConfig.id task_config in
  let answer := TokenMonitor.can_run_tasks format_percent token_monitor token_status in
  stored tasks w →
  List.find (λ task, String.eqb (TaskConfig.id task) task_id) tasks = Some old →
  fst answer = false →
  ∃ w' tasks' task,
    process_single_task generate_prompt_from_template _extract_session_id
      format_percent task_config token_monitor token_status obs timeout w
    = (Ok {| r_task_id := task_id; r_success := false; r_error := Some (snd answer);
             r_status := "paused"; r_changed_files := []; r_session_id := None;
             r_continue_processing := false |}, w')
    ∧ stored tasks' w'
    ∧ List.find (λ task, String.eqb (TaskConfig.id task) task_id) tasks' = Some task
    ∧ TaskConfig.status task = "paused"
    ∧ TaskConfig.last_error task = Some (snd answer)
    ∧ TaskConfig.attempts task = TaskConfig.attempts old + 1
    ∧ TaskConfig.started_at task = Some (clock w (ticks w))
    ∧ TaskConfig.workspace_path task = TaskConfig.workspace_path old
    ∧ TaskConfig.session_id task = TaskConfig.session_id old
    ∧ same_workspaces w w'
    ∧ (Py.truthy (TaskConfig.session_id old) = false →
       ∀ max_tasks, ∃ selected,
         get_pending_tasks max_tasks w' = (Ok selected, w') ∧ task ∉ selected).
Proof.
  intros task_id answer Hst Hfind Hno.
  destruct (process_single_task_cannot_run task_config token_monitor token_status
              obs timeout w tasks old Hst Hfind Hno)
    as (w' & ts' & Hgo & Hst' & Hfind' & _ & Hsame).
  eexists w', ts', _. split; [exact Hgo |]. split; [exact Hst' |].
  split; [exact Hfind' |]. fold answer.
  split_and!; try done; try (by destruct old).
  intros Hnone max_tasks. eexists. split; [by apply get_pending_tasks_stored |].
  intros Hin%elem_of_slice_to. apply elem_of_app in Hin as [Hin | Hin].
  - apply elem_of_List_filter in Hin as [_ Hin]. by destruct old.
  - apply elem_of_List_filter in Hin as [_ Hin]. destruct old. simpl in *.
    congruence.
Qed.

(** A run that fails without a sign of the quota.  For a stored task with
    a registered workspace, when the execution fails and reports no limit,
    the error is the execution's message, or a fixed text when it has
    none.  The task ends failed, with that error stored, when the task
    object passed in holds at least [max_attempts] attempts, and pending
    again, cleared for a retry, otherwise; in both cases it is stored with
    one attempt more and the flow goes on.  The workspaces registered are
    the ones registered before. *)
Theorem process_single_task_failure_branch (task_config : TaskConfig.t)
    (token_monitor : TokenMonitor.t) (token_status : option TokenUsageInfo.t)
    (obs : ClaudeCodeExecutor.observation) (timeout : Z) (w : world)
    (tasks : list TaskConfig.t) (old : TaskConfig.t) (info : WorkspaceInfo.t) :
  let task_id := TaskConfig.id task_config in
  let path := WorkspaceInfo.workspace_path info in
  let execution :=
    ClaudeCodeExecutor.execute_task _extract_session_id path
      (generate_prompt_from_template (TaskConfig.prompt_template task_config)
         (TaskConfig.title task_config) (TaskConfig.description task_config))
      true (TaskConfig.session_id task_config) (Some timeout) obs in
  let error_msg :=
    Py.or_else (ClaudeExecutionResult.error_message execution)
      "Claude Code execution failed" in
  let gives_up :=
    bool_decide (TaskConfig.max_attempts task_config ≤ TaskConfig.attempts task_config) in
  stored tasks w →
  List.find (λ task, String.eqb (TaskConfig.id task) task_id) tasks = Some old →
  active_workspaces w !! task_id = Some info →
  fst (TokenMonitor.can_run_tasks format_percent token_monitor token_status) = true →
  ClaudeExecutionResult.success execution = false →
  ClaudeExecutionResult.token_limit_hit execution = false →
  ∃ w' tasks' task,
    process_single_task generate_prompt_from_template _extract_session_id
      format_percent task_config token_monitor token_status obs timeout w
    = (Ok {| r_task_id := task_id; r_success := false; r_error := Some error_msg;
             r_status := if gives_up then "failed" else "pending";
             r_changed_files := []; r_session_id := None;
             r_continue_processing := true |}, w')
    ∧ stored tasks' w'
    ∧ List.find (λ task, String.eqb (TaskConfig.id task) task_id) tasks' = Some task
    ∧ TaskConfig.status task = (if gives_up then "failed" else "pending")
    ∧ TaskConfig.last_error task = (if gives_up then Some error_msg else None)
    ∧ TaskConfig.session_id task
      = (if gives_up then TaskConfig.session_id old else None)
    ∧ TaskConfig.attempts task = TaskConfig.attempts old + 1
    ∧ TaskConfig.workspace_path task = Some path
    ∧ active_workspaces w' = active_workspaces w.
Proof.
  intros task_id path execution error_msg gives_up Hst Hfind Hws Hrun Hfail Hnoquota.
  destruct (process_single_task_failure task_config token_monitor token_status
              obs timeout w tasks old info Hst Hfind Hws Hrun Hfail Hnoquota)
    as (w' & ts' & completed_at & Hgo & Hst' & Hfind' & _ & Hsame).
  eexists w', ts', _. split; [exact Hgo |]. split; [exact Hst' |].
  split; [exact Hfind' |]. subst gives_up.
  destruct old, (bool_decide _); simpl; split_and!; done.
Qed.

(** A run for a task without a registered workspace.  When the quota
    check allows the run and no workspace is registered for the task,
    [create_workspace] raises after making its directory; the handler
    turns this into a result: the task is stored failed with the text of
    the exception in its error and one attempt more, nothing is executed,
    no workspace is registered, the directory stays, and the flow goes
    on. *)
Theorem process_single_task_without_workspace (task_config : TaskConfig.t)
    (token_monitor : TokenMonitor.t) (token_status : option TokenUsageInfo.t)
    (obs : ClaudeCodeExecutor.observation) (timeout : Z) (w : world)
    (tasks : list TaskConfig.t) (old : TaskConfig.t) :
  let task_id := TaskConfig.id task_config in
  stored tasks w →
  List.find (λ task, String.eqb (TaskConfig.id task) task_id) tasks = Some old →
  active_workspaces w !! task_id = None →
  fst (TokenMonitor.can_run_tasks format_percent token_monitor token_status) = true →
  ∃ w' tasks' task,
    process_single_task generate_prompt_from_template _extract_session_id
      format_percent task_config token_monitor token_status obs timeout w
    = (Ok {| r_task_id := task_id; r_success := false;
             r_error := Some "name 'datetime' is not defined";
             r_status := "failed"; r_changed_files := []; r_session_id := None;
             r_continue_processing := true |}, w')
    ∧ stored tasks' w'
    ∧ List.find (λ task, String.eqb (TaskConfig.id task) task_id) tasks' = Some task
    ∧ TaskConfig.status task = "failed"
    ∧ TaskConfig.last_error task
      = Some "Unexpected error: name 'datetime' is not defined"
    ∧ TaskConfig.attempts task = TaskConfig.attempts old + 1
    ∧ TaskConfig.workspace_path task = TaskConfig.workspace_path old
    ∧ active_workspaces w' = active_workspaces w
    ∧ registry_file w' = registry_file w
    ∧ dirs w ⊆ dirs w'
    ∧ mkdtemp_pick w ("task_" +:+ task_id +:+ "_") (base_workspace_dir w) (dirs w)
      ∈ dirs w'.
Proof.
  intros task_id Hst Hfind Hws Hrun.
  destruct (process_single_task_unregistered task_config token_monitor token_status
              obs timeout w tasks old Hst Hfind Hws Hrun)
    as (w' & ts' & completed_at & Hgo & Hst' & Hfind' & _ & Hact & Hreg & Hsub & Hdir).
  eexists w', ts', _. split; [exact Hgo |]. split; [exact Hst' |].
  split; [exact Hfind' |]. destruct old; simpl; split_and!; done.
Qed.

(** The selection of a run on a store: every task selected is pending, or
    paused with a non-empty session id; pending tasks come before paused
    ones, so when [max_tasks] does not exceed the count of pending tasks
    only pending tasks are selected; with [max_tasks] not negative at most
    [max_tasks] tasks are selected, and a negative [max_tasks] drops that
    many tasks from the end of the list instead. *)
Theorem get_pending_tasks_selection (max_tasks : Z) (tasks : list TaskConfig.t)
    (w : world) :
  stored tasks w →
  let pending :=
    List.filter (λ task, String.eqb (TaskConfig.status task) "pending") tasks in
  let resumable :=
    List.filter (λ task, Py.truthy (TaskConfig.session_id task))
      (List.filter (λ task, String.eqb (TaskConfig.status task) "paused") tasks) in
  ∃ selected,
    get_pending_tasks max_tasks w = (Ok selected, w)
    ∧ (∀ task, task ∈ selected →
         task ∈ tasks
         ∧ (TaskConfig.status task = "pending"
            ∨ (TaskConfig.status task = "paused"
               ∧ Py.truthy (TaskConfig.session_id task) = true)))
    ∧ selected `prefix_of` pending ++ resumable
    ∧ (0 ≤ max_tasks → Z.of_nat (length selected) ≤ max_tasks)
    ∧ (Z.of_nat (length (pending ++ resumable)) ≤ max_tasks →
       selected = pending ++ resumable)
    ∧ (0 ≤ max_tasks ≤ Z.of_nat (length pending) →
       ∀ task, task ∈ selected → TaskConfig.status task = "pending")
    ∧ (max_tasks < 0 →
       Z.of_nat (length selected)
       = Z.max 0 (Z.of_nat (length (pending ++ resumable)) + max_tasks)).
Proof.
  intros Hst pending resumable.
  eexists. split; [by apply get_pending_tasks_stored |]. fold pending resumable.
  split; [| split; [| split; [| split; [| split]]]].
  - intros task Hin%elem_of_slice_to.
    apply elem_of_app in Hin as [Hin | Hin].
    + apply elem_of_List_filter in Hin as [Hin Hs]. apply String.eqb_eq in Hs. auto.
    + apply elem_of_List_filter in Hin as [Hin Ht].
      apply elem_of_List_filter in Hin as [Hin Hs]. apply String.eqb_eq in Hs. auto.
  - unfold Py.slice_to. destruct (bool_decide _); apply prefix_take.
  - intros Hpos. unfold Py.slice_to. rewrite bool_decide_eq_true_2 by done.
    rewrite length_take. lia.
  - intros Hall. unfold Py.slice_to. rewrite bool_decide_eq_true_2 by lia.
    apply take_ge. lia.
  - intros [Hpos Hle] task. unfold Py.slice_to. rewrite bool_decide_eq_true_2 by done.
    rewrite take_app_le by lia.
    intros (i & Hi & _)%elem_of_take. apply list_elem_of_lookup_2 in Hi.
    apply elem_of_List_filter in Hi as [_ Hs]. by apply String.eqb_eq in Hs.
  - intros Hneg. unfold Py.slice_to. rewrite bool_decide_eq_false_2 by lia.
    rewrite length_take. lia.
Qed.

Variable str_timedelta : Z → string.
Variable strftime : string → string.

Lemma process_each_total (token_monitor : TokenMonitor.t) (task_timeout : Z)
    (inputs : flow_inputs) (pending : list TaskConfig.t) :
  ∀ (k : nat) (results : list flow_entry) (n : nat) (w : world)
    (ts : list TaskConfig.t),
    stored ts w →
    (∀ task, task ∈ pending → TaskConfig.id task ∈ TaskConfig.id <$> ts) →
    ∃ more w' ts',
      process_each generate_prompt_from_template _extract_session_id format_percent
        token_monitor task_timeout inputs k pending results n w
      = (Ok (results ++ more, (n + length more)%nat), w')
      ∧ stored ts' w'
      ∧ TaskConfig.id <$> ts' = TaskConfig.id <$> ts
      ∧ run_entries pending more.
Proof.
  induction pending as [|task_config rest IH]; intros k results n w ts Hst Hids.
  - exists [], w, ts. cbn [process_each]. rewrite app_nil_r, Nat.add_0_r.
    split; [done |]. split; [done |]. split; [done |].
    split; [done |]. split; [| simpl; lia].
    intros i entry Hi. by rewrite lookup_nil in Hi.
  - destruct (find_id_is_Some (TaskConfig.id task_config) ts) as [old Hfind];
      [apply Hids; by left |].
    destruct (process_single_task_total task_config token_monitor
                (task_status inputs k 0) (task_observation inputs k 0) task_timeout
                w ts old Hst Hfind)
      as (result & w1 & ts1 & task & Hgo & Hrid & Hstatus & Hsucc & Hcont & Hst1
          & Hfind1 & Hstat1 & Hatt & [Hids1 Hothers]).
    assert (Hentry :
              try_except
                (result <-
                   retried 2 0
                     (λ j, process_single_task generate_prompt_from_template
                             _extract_session_id format_percent task_config
                             token_monitor (task_status inputs k j)
                             (task_observation inputs k j) task_timeout) ;;
                 ret (processed_entry result))
                (λ e,
                   YamlTaskManager.mark_task_failed (TaskConfig.id task_config)
                     ("Unexpected error: " +:+ exn_str e) ;;;
                   ret (failed_entry (TaskConfig.id task_config) (exn_str e))) w
              = (Ok (processed_entry result), w1)).
    { apply try_except_ok.
      rewrite (bind_ok _ _ w result w1);
        [done | cbn [retried]; by apply try_except_ok]. }
    cbn [process_each]. rewrite (bind_ok _ _ _ _ _ Hentry). cbv beta iota.
    destruct (r_continue_processing result) eqn:Hgoes.
    + destruct (IH (S k) (results ++ [processed_entry result]) (S n) w1 ts1 Hst1)
        as (more & w' & ts' & Hloop & Hst' & Hids' & Hlen & Hall & Hshort).
      { intros t Ht. rewrite Hids1. apply Hids. by right. }
      exists (processed_entry result :: more), w', ts'.
      rewrite Hloop. split.
      { rewrite <- app_assoc. cbn [app length]. by rewrite Nat.add_succ_r. }
      split; [exact Hst' |]. split; [congruence |].
      split; [simpl; lia |]. split.
      * intros [|i] entry Hi.
        -- injection Hi as <-. exists result, task_config.
           split; [done |]. split; [done |]. split; [done |]. split; [done |].
           intros Hp. apply Hcont in Hp. congruence.
        -- destruct (Hall i entry Hi) as (r & tc & He & Hp & Hr & Hs & Hl).
           exists r, tc. split; [done |]. split; [done |]. split; [done |].
           split; [done |]. intros Hpaused. simpl. f_equal. by apply Hl.
      * intros Hlt. destruct Hshort as (r & Hlast & Hp); [simpl in Hlt; lia |].
        exists r. split; [| done]. rewrite last_cons. by rewrite Hlast.
    + exists [processed_entry result], w1, ts1. split.
      { cbn [length]. by rewrite Nat.add_1_r. }
      split; [exact Hst1 |]. split; [exact Hids1 |].
      split; [simpl; lia |]. split.
      * intros [|i] entry Hi; [| done].
        injection Hi as <-. exists result, task_config.
        split; [done |]. split; [done |]. split; [done |]. split; [done |]. done.
      * intros _. exists result. split; [done |]. by apply Hcont.
Qed.

Lemma selected_ids (max_tasks : Z) (ts : list TaskConfig.t) (task : TaskConfig.t) :
  task ∈ Py.slice_to max_tasks
           (List.filter (λ task, String.eqb (TaskConfig.status task) "pending") ts
            ++ List.filter (λ task, Py.truthy (TaskConfig.session_id task))
                 (List.filter (λ task, String.eqb (TaskConfig.status task) "paused")
                    ts)) →
  TaskConfig.id task ∈ TaskConfig.id <$> ts.
Proof.
  intros Hin%elem_of_slice_to. apply list_elem_of_fmap. exists task. split; [done |].
  apply elem_of_app in Hin as [Hin | Hin].
  - by apply elem_of_List_filter in Hin as [Hin _].
  - apply elem_of_List_filter in Hin as [Hin _].
    by apply elem_of_List_filter in Hin as [Hin _].
Qed.

(** A run of the flow on a store returns and does not raise, so its retry
    never starts.  It adds and removes no task.  When it reports success,
    its results are those of the tasks selected, in their order, up to
    and including the first task that ended paused, and the count of
    processed tasks is the count of results; with [max_tasks] not
    negative that count is at most [max_tasks]. *)
Theorem process_tasks_flow_returns (max_tasks : Z) (check_tokens : bool)
    (task_timeout : Z) (inputs again : flow_inputs) (tasks : list TaskConfig.t)
    (w : world) :
  stored tasks w →
  let selected :=
    Py.slice_to max_tasks
      (List.filter (λ task, String.eqb (TaskConfig.status task) "pending") tasks
       ++ List.filter (λ task, Py.truthy (TaskConfig.session_id task))
            (List.filter (λ task, String.eqb (TaskConfig.status task) "paused")
               tasks)) in
  ∃ result w' tasks',
    process_tasks_flow generate_prompt_from_template _extract_session_id
      format_percent str_timedelta strftime max_tasks check_tokens task_timeout
      inputs again w
    = (Ok result, w')
    ∧ stored tasks' w'
    ∧ TaskConfig.id <$> tasks' = TaskConfig.id <$> tasks
    ∧ f_processed result = length (f_results result)
    ∧ (0 ≤ max_tasks → Z.of_nat (f_processed result) ≤ max_tasks)
    ∧ (f_success result = true → run_entries selected (f_results result)).
Proof.
  intros Hst selected.
  destruct (managers_init w) as (w0 & w1 & Hinit0 & Hinit1 & Hsame & _).
  destruct (Hsame (stored_not_missing _ _ Hst)) as [Hf1 _].
  pose proof (stored_tasks_file _ _ _ Hf1 Hst) as Hst1.
  assert (Hbound : 0 ≤ max_tasks → Z.of_nat (length selected) ≤ max_tasks).
  { intros Hpos. subst selected. unfold Py.slice_to.
    rewrite bool_decide_eq_true_2 by done. rewrite length_take. lia. }
  cut (∃ result w' tasks',
         process_tasks_run generate_prompt_from_template _extract_session_id
           format_percent str_timedelta strftime max_tasks check_tokens task_timeout
           inputs w = (Ok result, w')
         ∧ stored tasks' w'
         ∧ TaskConfig.id <$> tasks' = TaskConfig.id <$> tasks
         ∧ f_processed result = length (f_results result)
         ∧ (0 ≤ max_tasks → Z.of_nat (f_processed result) ≤ max_tasks)
         ∧ (f_success result = true → run_entries selected (f_results result))).
  { intros (result & w' & tasks' & Hrun & H). exists result, w', tasks'.
    split; [| exact H]. unfold process_tasks_flow. by apply try_except_ok. }
  unfold process_tasks_run.
  rewrite (bind_ok _ _ _ _ _ Hinit0). cbv zeta.
  rewrite (bind_ok _ _ _ _ _ Hinit1).
  destruct (ClaudeCodeExecutor.check_claude_availability (availability inputs))
    as [[] message]; cbn [negb]; cbv iota;
    [| eexists _, w1, tasks; split; [reflexivity |]; cbn;
       split; [exact Hst1 |]; split; [done |]; split; [done |];
       split; [intros; lia | done]].
  destruct (if check_tokens then _ else false);
    [eexists _, w1, tasks; split; [reflexivity |]; cbn;
     split; [exact Hst1 |]; split; [done |]; split; [done |];
     split; [intros; lia | done] |].
  rewrite (bind_ok _ _ _ _ _ (get_pending_tasks_stored max_tasks _ _ Hst1)).
  fold selected. destruct selected as [|task_config rest] eqn:Hsel.
  { eexists _, w1, tasks. split; [reflexivity |]. cbn.
    split; [exact Hst1 |]. split; [done |]. split; [done |].
    split; [intros; lia |]. intros _. split; [done |].
    split; [| simpl; lia]. intros i entry Hi. by rewrite lookup_nil in Hi. }
  destruct (process_each_total TokenMonitor.default task_timeout inputs
              (task_config :: rest) 0 [] 0 w1 tasks Hst1)
    as (more & w2 & ts2 & Hloop & Hst2 & Hids2 & Hentries).
  { intros t Ht. apply (selected_ids max_tasks). fold selected. by rewrite Hsel. }
  rewrite (bind_ok _ _ _ _ _ Hloop).
  destruct (cleanup_all_frame w2) as (count & w3 & Hclean & Hf3 & _).
  unfold cleanup_temporary_workspaces. rewrite (bind_ok _ _ _ _ _ Hclean).
  pose proof (stored_tasks_file _ _ _ Hf3 Hst2) as Hst3.
  eexists _, _, ts2. split; [reflexivity |]. cbn.
  split; [exact Hst3 |]. split; [exact Hids2 |]. split; [done |].
  split; [| done]. intros Hpos. specialize (Hbound Hpos).
  destruct Hentries as (Hlen & _). simpl in *. lia.
Qed.


(** When the flow gives up before it selects tasks.  If the version probe
    says that Claude Code is not available, or if token checking is on and
    the first status check forbids a run, the second shows usage at or
    above the critical threshold and the wait for a reset fails, the flow
    returns a failure with no task processed: beyond constructing the two
    managers it reads and writes nothing. *)
Theorem process_tasks_flow_aborts (max_tasks : Z) (check_tokens : bool)
    (task_timeout : Z) (inputs again : flow_inputs) (w : world) :
  let available :=
    fst (ClaudeCodeExecutor.check_claude_availability (availability inputs)) in
  available = false
  ∨ (check_tokens = true
     ∧ fst (TokenMonitor.can_run_tasks format_percent TokenMonitor.default
              (first_status inputs)) = false
     ∧ (∃ status, second_status inputs = Some status
                  ∧ (TokenMonitor.critical_threshold TokenMonitor.default
                     ≤ TokenUsageInfo.percentage_used status)%Qc)
     ∧ wait_success inputs = false) →
  ∃ w0 w',
    YamlTaskManager.init w = (Ok (), w0)
    ∧ WorkspaceManager.init "workspaces" w0 = (Ok (), w')
    ∧ process_tasks_flow generate_prompt_from_template _extract_session_id
        format_percent str_timedelta strftime max_tasks check_tokens task_timeout
        inputs again w
      = (Ok {| f_success := false;
               f_error :=
                 Some (if available then "Token limits reached and reset wait failed"
                       else "Claude Code not available");
               f_processed := 0; f_results := []; f_message := None;
               f_cleanup_count := None; f_timestamp := None |}, w').
Proof.
  intros available Hwhy.
  destruct (managers_init w) as (w0 & w1 & Hinit0 & Hinit1 & _).
  exists w0, w1. split; [exact Hinit0 |]. split; [exact Hinit1 |].
  unfold process_tasks_flow. apply try_except_ok. unfold process_tasks_run.
  rewrite (bind_ok _ _ _ _ _ Hinit0). cbv zeta.
  rewrite (bind_ok _ _ _ _ _ Hinit1). subst available.
  destruct (ClaudeCodeExecutor.check_claude_availability (availability inputs))
    as [[] message]; cbn [negb fst]; cbv iota; [| done].
  destruct Hwhy as [Hwhy | (-> & Hno & (status & Hsecond & Hcrit) & Hwait)];
    [done |].
  unfold check_token_limits. rewrite Hsecond.
  destruct (TokenMonitor.can_run_tasks format_percent TokenMonitor.default
              (first_status inputs)) as [can_run reason].
  simpl in Hno. subst can_run. cbn [can_proceed wait_for_reset negb andb].
  cbn [TokenMonitor.get_usage_summary TokenMonitor.summary_status
       TokenMonitor.s_status].
  rewrite bool_decide_eq_false_2 by (by apply Qcle_not_lt).
  rewrite Hwait. reflexivity.
Qed.

(** A run in which the quota check forbids the first task.  With Claude
    Code available and no usage summary at hand, the flow does not wait:
    it selects the tasks, marks the first one running and, the status
    check answering no, pauses it and stops.  One task is processed; it
    is stored paused with one attempt more; every other task, the other
    selected ones among them, is stored as it was; the cleanup of the
    workspaces still runs. *)
Theorem process_tasks_flow_stops_at_pause (max_tasks : Z) (check_tokens : bool)
    (task_timeout : Z) (inputs again : flow_inputs) (tasks : list TaskConfig.t)
    (w : world) (task_config : TaskConfig.t) (rest : list TaskConfig.t)
    (old : TaskConfig.t) :
  let task_id := TaskConfig.id task_config in
  let answer :=
    TokenMonitor.can_run_tasks format_percent TokenMonitor.default
      (task_status inputs 0 0) in
  stored tasks w →
  fst (ClaudeCodeExecutor.check_claude_availability (availability inputs)) = true →
  second_status inputs = None →
  Py.slice_to max_tasks
    (List.filter (λ task, String.eqb (TaskConfig.status task) "pending") tasks
     ++ List.filter (λ task, Py.truthy (TaskConfig.session_id task))
          (List.filter (λ task, String.eqb (TaskConfig.status task) "paused") tasks))
  = task_config :: rest →
  List.find (λ task, String.eqb (TaskConfig.id task) task_id) tasks = Some old →
  fst answer = false →
  ∃ w' tasks' task cleanup_count timestamp,
    process_tasks_flow generate_prompt_from_template _extract_session_id
      format_percent str_timedelta strftime max_tasks check_tokens task_timeout
      inputs again w
    = (Ok {| f_success := true; f_error := None; f_processed := 1;
             f_results :=
               [processed_entry
                  {| r_task_id := task_id; r_success := false;
                     r_error := Some (snd answer); r_status := "paused";
                     r_changed_files := []; r_session_id := None;
                     r_continue_processing := false |}];
             f_message := None; f_cleanup_count := Some cleanup_count;
             f_timestamp := Some timestamp |}, w')
    ∧ stored tasks' w'
    ∧ List.find (λ task, String.eqb (TaskConfig.id task) task_id) tasks' = Some task
    ∧ TaskConfig.status task = "paused"
    ∧ TaskConfig.attempts task = TaskConfig.attempts old + 1
    ∧ others_kept task_id tasks tasks'.
Proof.
  intros task_id answer Hst Havailable Hsecond Hselected Hfind Hno.
  destruct (managers_init w) as (w0 & w1 & Hinit0 & Hinit1 & Hsame & _).
  destruct (Hsame (stored_not_missing _ _ Hst)) as [Hf1 _].
  pose proof (stored_tasks_file _ _ _ Hf1 Hst) as Hst1.
  destruct (process_single_task_cannot_run task_config TokenMonitor.default
              (task_status inputs 0 0) (task_observation inputs 0 0) task_timeout
              w1 tasks old Hst1 Hfind Hno)
    as (w2 & ts2 & Hgo & Hst2 & Hfind2 & Hothers & _).
  destruct (cleanup_all_frame w2) as (count & w3 & Hclean & Hf3 & _).
  pose proof (stored_tasks_file _ _ _ Hf3 Hst2) as Hst3.
  eexists _, ts2, _, count, _. split; [| split; [| split; [exact Hfind2 |]]].
  - unfold process_tasks_flow. apply try_except_ok. unfold process_tasks_run.
    rewrite (bind_ok _ _ _ _ _ Hinit0). cbv zeta.
    rewrite (bind_ok _ _ _ _ _ Hinit1).
    destruct (ClaudeCodeExecutor.check_claude_availability (availability inputs))
      as [available message]. simpl in Havailable. subst available.
    cbn [negb]. cbv iota.
    assert (wait_for_reset
              (check_token_limits format_percent str_timedelta strftime
                 TokenMonitor.default (first_status inputs) (second_status inputs))
            = false) as ->.
    { unfold check_token_limits. rewrite Hsecond.
      destruct (TokenMonitor.can_run_tasks format_percent TokenMonitor.default
                  (first_status inputs)) as [can_run reason].
      cbn. apply andb_false_r. }
    assert ((if check_tokens
             then if negb (can_proceed
                             (check_token_limits format_percent str_timedelta
                                strftime TokenMonitor.default (first_status inputs)
                                (second_status inputs)))
                  then false else false
             else false) = false) as ->
      by (destruct check_tokens; [| done];
          match goal with |- context [negb ?b] => by destruct b end).
    rewrite (bind_ok _ _ _ _ _ (get_pending_tasks_stored max_tasks _ _ Hst1)).
    rewrite Hselected.
    set (result := {| r_task_id := task_id; r_success := false;
                      r_error := Some (snd answer); r_status := "paused";
                      r_changed_files := []; r_session_id := None;
                      r_continue_processing := false |}) in *.
    assert (Hentry :
              try_except
                (result <-
                   retried 2 0
                     (λ j, process_single_task generate_prompt_from_template
                             _extract_session_id format_percent task_config
                             TokenMonitor.default (task_status inputs 0 j)
                             (task_observation inputs 0 j) task_timeout) ;;
                 ret (processed_entry result))
                (λ e,
                   YamlTaskManager.mark_task_failed (TaskConfig.id task_config)
                     ("Unexpected error: " +:+ exn_str e) ;;;
                   ret (failed_entry (TaskConfig.id task_config) (exn_str e))) w1
              = (Ok (processed_entry result), w2)).
    { apply try_except_ok.
      rewrite (bind_ok _ _ w1 result w2);
        [done | cbn [retried]; by apply try_except_ok]. }
    assert (Hloop :
              process_each generate_prompt_from_template _extract_session_id
                format_percent TokenMonitor.default task_timeout inputs 0
                (task_config :: rest) [] 0 w1
              = (Ok ([processed_entry result], 1%nat), w2)).
    { cbn [process_each]. by rewrite (bind_ok _ _ _ _ _ Hentry). }
    rewrite (bind_ok _ _ _ _ _ Hloop).
    unfold cleanup_temporary_workspaces.
    rewrite (bind_ok _ _ _ _ _ Hclean). reflexivity.
  - exact Hst3.
  - split; [by destruct old |]. split; [by destruct old | exact Hothers].
Qed.


(** A timeout is a failure, not a pause.  For a stored task with a
    registered workspace, when the quota check allows the run and the
    execution runs into its timeout, the result carries the error
    "Execution timed out after N seconds" with N the timeout of the flow,
    reports no changed file and lets the flow go on; the task is stored
    failed or pending, as for any failed execution, and never paused. *)
Theorem process_single_task_timeout (task_config : TaskConfig.t)
    (token_monitor : TokenMonitor.t) (token_status : option TokenUsageInfo.t)
    (obs : ClaudeCodeExecutor.observation) (timeout : Z) (w : world)
    (tasks : list TaskConfig.t) (old : TaskConfig.t) (info : WorkspaceInfo.t) :
  let task_id := TaskConfig.id task_config in
  let error_msg := "Execution timed out after " +:+ pretty timeout +:+ " seconds" in
  let gives_up :=
    bool_decide (TaskConfig.max_attempts task_config ≤ TaskConfig.attempts task_config) in
  stored tasks w →
  List.find (λ task, String.eqb (TaskConfig.id task) task_id) tasks = Some old →
  active_workspaces w !! task_id = Some info →
  fst (TokenMonitor.can_run_tasks format_percent token_monitor token_status) = true →
  ClaudeCodeExecutor.proc obs = ClaudeCodeExecutor.TimeoutExpired →
  ∃ w' tasks' task,
    process_single_task generate_prompt_from_template _extract_session_id
      format_percent task_config token_monitor token_status obs timeout w
    = (Ok {| r_task_id := task_id; r_success := false; r_error := Some error_msg;
             r_status := if gives_up then "failed" else "pending";
             r_changed_files := []; r_session_id := None;
             r_continue_processing := true |}, w')
    ∧ stored tasks' w'
    ∧ List.find (λ task, String.eqb (TaskConfig.id task) task_id) tasks' = Some task
    ∧ TaskConfig.status task = (if gives_up then "failed" else "pending")
    ∧ TaskConfig.last_error task = (if gives_up then Some error_msg else None)
    ∧ TaskConfig.attempts task = TaskConfig.attempts old + 1.
Proof.
  intros task_id error_msg gives_up Hst Hfind Hws Hrun Htimeout.
  set (execution :=
         ClaudeCodeExecutor.execute_task _extract_session_id
           (WorkspaceInfo.workspace_path info)
           (generate_prompt_from_template (TaskConfig.prompt_template task_config)
              (TaskConfig.title task_config) (TaskConfig.description task_config))
           true (TaskConfig.session_id task_config) (Some timeout) obs).
  assert (Hexec : ClaudeExecutionResult.success execution = false
                  ∧ ClaudeExecutionResult.token_limit_hit execution = false
                  ∧ ClaudeExecutionResult.error_message execution = Some error_msg).
  { subst execution. unfold ClaudeCodeExecutor.execute_task. by rewrite Htimeout. }
  destruct Hexec as (Hfail & Hnoquota & Herror).
  destruct (process_single_task_failure task_config token_monitor token_status
              obs timeout w tasks old info Hst Hfind Hws Hrun Hfail Hnoquota)
    as (w' & ts' & completed_at & Hgo & Hst' & Hfind' & _).
  fold execution in Hgo, Hfind'. rewrite Herror in Hgo, Hfind'.
  assert (Py.or_else (Some error_msg) "Claude Code execution failed" = error_msg)
    as Hmsg.
  { subst error_msg. unfold Py.or_else. by rewrite append_cons. }
  rewrite Hmsg in Hgo, Hfind'.
  eexists w', ts', _. split; [exact Hgo |]. split; [exact Hst' |].
  split; [exact Hfind' |]. subst gives_up.
  destruct old, (bool_decide _); simpl; split_and!; done.
Qed.

(** What [check_token_limits] reports from its two status checks: a run
    may proceed exactly when [can_run_tasks] allows it on the first; a
    wait for a reset is asked for exactly when the first check forbids
    the run and the second shows usage at or above the critical
    threshold.  When neither check returns a status the run may not
    proceed and no wait is asked for. *)
Theorem check_token_limits_spec (token_monitor : TokenMonitor.t)
    (first second : option TokenUsageInfo.t) :
  let check :=
    check_token_limits format_percent str_timedelta strftime token_monitor
      first second in
  can_proceed check
  = fst (TokenMonitor.can_run_tasks format_percent token_monitor first)
  ∧ (wait_for_reset check = true
     ↔ can_proceed check = false
       ∧ ∃ status, second = Some status
                   ∧ (TokenMonitor.critical_threshold token_monitor
                      ≤ TokenUsageInfo.percentage_used status)%Qc)
  ∧ (first = None → second = None →
     can_proceed check = false ∧ wait_for_reset check = false).
Proof.
  intros check. subst check. unfold check_token_limits.
  destruct (TokenMonitor.can_run_tasks format_percent token_monitor first)
    as [can_run reason] eqn:Hfirst.
  cbn [can_proceed wait_for_reset fst]. split; [done |]. split.
  - destruct second as [status|]; cbn.
    + case_bool_decide as Hlow.
      * rewrite andb_false_r. split; [done |].
        intros (_ & s & [= <-] & Hcrit). by apply Qcle_not_lt in Hcrit.
      * rewrite andb_true_r. rewrite negb_true_iff. split.
        -- intros ->. split; [done |]. exists status. split; [done |].
           by apply Qcnot_lt_le.
        -- by intros [-> _].
    + rewrite andb_false_r. split; [done |]. by intros (_ & s & [=] & _).
  - intros -> ->. cbn in Hfirst. injection Hfirst as <- <-. done.
Qed.

End flow_coverage.

(** * The cleanup flow *)

Section cleanup_coverage.

Import YamlTaskManager TaskProcessor.

Lemma update_first_other (task_id : string) (updates : list update)
    (ts : list TaskConfig.t) :
  task_id ∉ TaskConfig.id <$> ts →
  (λ t, if String.eqb (TaskConfig.id t) task_id then foldl setattr t updates else t)
    <$> ts = ts.
Proof.
  induction ts as [|t ts IH]; [done |].
  rewrite !fmap_cons, not_elem_of_cons. intros [Hne Hout].
  rewrite IH by done. apply String.eqb_neq in Hne.
  rewrite String.eqb_sym in Hne. by rewrite Hne.
Qed.

(** With ids that are pairwise different, the loop of [update_task]
    changes the one task that has the id. *)
Lemma update_first_NoDup (task_id : string) (updates : list update)
    (ts : list TaskConfig.t) :
  NoDup (TaskConfig.id <$> ts) →
  task_id ∈ TaskConfig.id <$> ts →
  update_first task_id updates ts
  = Some ((λ t, if String.eqb (TaskConfig.id t) task_id
                then foldl setattr t updates else t) <$> ts).
Proof.
  induction ts as [|t ts IH]; [by intros _ ?%elem_of_nil |].
  rewrite !fmap_cons, NoDup_cons. intros [Hout Hnd] Hin. simpl.
  destruct (String.eqb (TaskConfig.id t) task_id) eqn:E.
  - apply String.eqb_eq in E. subst task_id. by rewrite update_first_other.
  - apply elem_of_cons in Hin as [-> | Hin]; [by rewrite String.eqb_refl in E |].
    by rewrite IH.
Qed.

Lemma NoDup_ids_inj (ts : list TaskConfig.t) (a b : TaskConfig.t) :
  NoDup (TaskConfig.id <$> ts) → a ∈ ts → b ∈ ts →
  TaskConfig.id a = TaskConfig.id b → a = b.
Proof.
  induction ts as [|t ts IH]; [by intros _ ?%elem_of_nil |].
  rewrite fmap_cons, NoDup_cons. intros [Hout Hnd] Ha Hb Hid.
  apply elem_of_cons in Ha as [-> | Ha]; apply elem_of_cons in Hb as [-> | Hb].
  - done.
  - destruct Hout. rewrite Hid. apply list_elem_of_fmap. by exists b.
  - destruct Hout. rewrite <- Hid. apply list_elem_of_fmap. by exists a.
  - by apply IH.
Qed.

Lemma reset_is_as_reset (task : TaskConfig.t) :
  foldl setattr task
    [set_status "pending"; set_started_at None; set_completed_at None;
     set_last_error None; set_session_id None]
  = as_reset task.
Proof. by destruct task. Qed.

(** The first loop of [cleanup_flow] on a store with ids that are
    pairwise different: every task whose id is the id of a listed task is
    reset, and the count rises by the length of the list. *)
Lemma reset_each_spec (listed : list TaskConfig.t) :
  ∀ (ts : list TaskConfig.t) (count : nat) (w : world),
    stored ts w →
    NoDup (TaskConfig.id <$> ts) →
    (∀ task, task ∈ listed → TaskConfig.id task ∈ TaskConfig.id <$> ts) →
    ∃ w', reset_each listed count w = (Ok (count + length listed)%nat, w')
          ∧ stored ((λ t, if bool_decide (TaskConfig.id t ∈ TaskConfig.id <$> listed)
                          then as_reset t else t) <$> ts) w'
          ∧ same_workspaces w w'.
Proof.
  induction listed as [|task rest IH]; intros ts count w Hst Hnd Hin.
  - exists w. cbn [reset_each]. rewrite Nat.add_0_r. split; [done |]. split.
    + assert ((λ t, if bool_decide (TaskConfig.id t ∈ TaskConfig.id <$> [])
                    then as_reset t else t) <$> ts = ts) as ->; [| done].
      rewrite <- (list_fmap_id ts) at 2. apply list_fmap_ext. intros i t _.
      rewrite bool_decide_eq_false_2; [done |]. apply not_elem_of_nil.
    + apply same_workspaces_refl.
  - pose proof (update_task_on_stored (TaskConfig.id task)
                  [set_status "pending"; set_started_at None; set_completed_at None;
                   set_last_error None; set_session_id None] ts w Hst) as Hupd.
    rewrite update_first_NoDup in Hupd by (done || (apply Hin; by left)).
    destruct Hupd as (f & Hupd & Hst1).
    set (ts1 := _ <$> ts) in Hst1.
    assert (Hids1 : TaskConfig.id <$> ts1 = TaskConfig.id <$> ts).
    { subst ts1. rewrite <- list_fmap_compose. apply list_fmap_ext.
      intros i t _. cbv [compose]. destruct (String.eqb _ _); [| done].
      by rewrite reset_is_as_reset. }
    destruct (IH ts1 (S count) _ Hst1) as (w' & Hloop & Hst' & Hsame).
    { by rewrite Hids1. }
    { intros t Ht. rewrite Hids1. apply Hin. by right. }
    exists w'. cbn [reset_each].
    rewrite (bind_ok _ _ _ _ _ (Hupd : reset_task (TaskConfig.id task) w = _)).
    rewrite Hloop. split; [f_equal; f_equal; simpl; lia |]. split.
    + subst ts1. rewrite <- list_fmap_compose in Hst'.
      erewrite list_fmap_ext; [exact Hst' |]. intros i t _. cbv [compose].
      rewrite fmap_cons.
      destruct (String.eqb (TaskConfig.id t) (TaskConfig.id task)) eqn:E.
      * apply String.eqb_eq in E. rewrite reset_is_as_reset.
        rewrite (bool_decide_eq_true_2 (TaskConfig.id t ∈ _ :: _))
          by (rewrite E; by left).
        by destruct (bool_decide _).
      * apply String.eqb_neq in E.
        destruct (bool_decide (TaskConfig.id t ∈ TaskConfig.id <$> rest)) eqn:Er.
        -- apply bool_decide_eq_true in Er.
           rewrite bool_decide_eq_true_2; [done | by right].
        -- apply bool_decide_eq_false in Er.
           rewrite bool_decide_eq_false_2; [done |].
           rewrite not_elem_of_cons. by split.
    + eapply same_workspaces_trans; [| exact Hsame]. by repeat split.
Qed.

Lemma filter_filter_ids (i : string) (rest : list string) (ts : list TaskConfig.t) :
  List.filter (λ t, negb (bool_decide (TaskConfig.id t ∈ rest)))
    (List.filter (λ t, negb (String.eqb (TaskConfig.id t) i)) ts)
  = List.filter (λ t, negb (bool_decide (TaskConfig.id t ∈ i :: rest))) ts.
Proof.
  induction ts as [|t ts IH]; [done |]. cbn [List.filter].
  destruct (String.eqb (TaskConfig.id t) i) eqn:E; cbn [negb].
  - apply String.eqb_eq in E.
    rewrite (bool_decide_eq_true_2 (TaskConfig.id t ∈ i :: rest))
      by (rewrite E; by left).
    exact IH.
  - apply String.eqb_neq in E. cbn [List.filter]. rewrite IH.
    destruct (bool_decide (TaskConfig.id t ∈ rest)) eqn:Er.
    + apply bool_decide_eq_true in Er.
      rewrite (bool_decide_eq_true_2 (TaskConfig.id t ∈ i :: rest)); [done | by right].
    + apply bool_decide_eq_false in Er.
      rewrite (bool_decide_eq_false_2 (TaskConfig.id t ∈ i :: rest)); [done |].
      rewrite not_elem_of_cons. by split.
Qed.

(** Its second loop: every task whose id is the id of a listed task is
    removed. *)
Lemma delete_each_spec (listed : list TaskConfig.t) :
  ∀ (ts : list TaskConfig.t) (w : world),
    stored ts w →
    ∃ w', delete_each listed w = (Ok (), w')
          ∧ stored (List.filter
                      (λ t, negb (bool_decide
                                    (TaskConfig.id t ∈ TaskConfig.id <$> listed)))
                      ts) w'
          ∧ same_workspaces w w'.
Proof.
  induction listed as [|task rest IH]; intros ts w Hst.
  - exists w. split; [reflexivity |]. split; [| apply same_workspaces_refl].
    assert (List.filter
              (λ t, negb (bool_decide (TaskConfig.id t ∈ TaskConfig.id <$> [])))
              ts = ts) as ->; [| done].
    clear. induction ts as [|t ts IHts]; [done |]. cbn [List.filter].
    rewrite bool_decide_eq_false_2 by apply not_elem_of_nil. cbn [negb].
    by rewrite IHts.
  - assert (∃ b w1, delete_task (TaskConfig.id task) w = (Ok b, w1)
                    ∧ stored (List.filter
                                (λ t, negb (String.eqb (TaskConfig.id t)
                                              (TaskConfig.id task))) ts) w1
                    ∧ same_workspaces w w1) as (b & w1 & Hdel & Hst1 & Hsame1).
    { unfold delete_task. rewrite (bind_ok _ _ _ _ _ (stored_load _ _ Hst)).
      destruct (_ <? _)%nat eqn:Hlt.
      - destruct (save_tasks_stored ts
                    (List.filter (λ t, negb (String.eqb (TaskConfig.id t)
                                               (TaskConfig.id task))) ts) w Hst)
          as (f & Hsave & Hst').
        eexists true, _. rewrite (bind_ok _ _ _ _ _ Hsave).
        split; [done |]. split; [exact Hst' | by repeat split].
      - exists false, w. split; [done |]. split; [| apply same_workspaces_refl].
        destruct (filter_other_ids (TaskConfig.id task) ts) as (_ & _ & Hless & Hsame).
        destruct (decide (TaskConfig.id task ∈ TaskConfig.id <$> ts)) as [Hin | Hout].
        + apply Hless in Hin. apply Nat.ltb_ge in Hlt. lia.
        + by rewrite (Hsame Hout). }
    destruct (IH _ w1 Hst1) as (w' & Hloop & Hst' & Hsame).
    exists w'. cbn [delete_each]. rewrite (bind_ok _ _ _ _ _ Hdel).
    split; [exact Hloop |]. split; [| by eapply same_workspaces_trans].
    rewrite fmap_cons. by rewrite <- filter_filter_ids.
Qed.


Lemma listed_ids_status (status : string) (ts : list TaskConfig.t) (t : TaskConfig.t) :
  NoDup (TaskConfig.id <$> ts) → t ∈ ts →
  bool_decide
    (TaskConfig.id t
     ∈ TaskConfig.id
       <$> List.filter (λ task, String.eqb (TaskConfig.status task) status) ts)
  = String.eqb (TaskConfig.status t) status.
Proof.
  intros Hnd Hin. destruct (String.eqb (TaskConfig.status t) status) eqn:E.
  - apply bool_decide_eq_true. apply list_elem_of_fmap. exists t. split; [done |].
    by apply elem_of_List_filter.
  - apply bool_decide_eq_false. intros (t' & Hid & Hin')%list_elem_of_fmap.
    apply elem_of_List_filter in Hin' as [Hin' E'].
    assert (t = t') as <- by (by eapply NoDup_ids_inj). congruence.
Qed.

(** [cleanup_flow] on a store whose ids are pairwise different.  With
    [cleanup_failed] every failed task is reset to pending and the count
    returned is the count of failed tasks; with [cleanup_completed] every
    completed task is then deleted; all other tasks are kept as they are,
    in their order. *)
Theorem cleanup_flow_spec (cleanup_failed cleanup_completed : bool)
    (tasks : list TaskConfig.t) (w : world) :
  stored tasks w →
  NoDup (TaskConfig.id <$> tasks) →
  let after_reset :=
    if cleanup_failed
    then (λ task, if String.eqb (TaskConfig.status task) "failed"
                  then as_reset task else task) <$> tasks
    else tasks in
  let after_delete :=
    if cleanup_completed
    then List.filter (λ task, negb (String.eqb (TaskConfig.status task) "completed"))
           after_reset
    else after_reset in
  ∃ result w',
    cleanup_flow cleanup_failed cleanup_completed w = (Ok result, w')
    ∧ stored after_delete w'
    ∧ reset_tasks result
      = (if cleanup_failed
         then length (List.filter
                        (λ task, String.eqb (TaskConfig.status task) "failed") tasks)
         else 0%nat).
Proof.
  intros Hst Hnd after_reset after_delete.
  destruct (managers_init w) as (w0 & w1 & Hinit0 & Hinit1 & Hkeep & _).
  destruct (Hkeep (stored_not_missing _ _ Hst)) as [Hf1 _].
  pose proof (stored_tasks_file _ _ _ Hf1 Hst) as Hst1.
  destruct (cleanup_all_frame w1) as (cleaned & w2 & Hclean & Hf2 & _).
  pose proof (stored_tasks_file _ _ _ Hf2 Hst1) as Hst2.
  assert (Hby : ∀ ts wx status, stored ts wx →
            get_tasks_by_status status wx
            = (Ok (List.filter (λ task, String.eqb (TaskConfig.status task) status) ts),
               wx)).
  { intros ts wx status Hs. unfold get_tasks_by_status.
    by rewrite (bind_ok _ _ _ _ _ (stored_load _ _ Hs)). }
  assert (∃ w3,
            (if cleanup_failed
             then failed_tasks <- get_failed_tasks ;; reset_each failed_tasks 0
             else ret 0%nat) w2
            = (Ok (if cleanup_failed
                   then length (List.filter
                                  (λ task, String.eqb (TaskConfig.status task) "failed")
                                  tasks)
                   else 0%nat), w3)
            ∧ stored after_reset w3) as (w3 & Hreset & Hst3).
  { subst after_reset. destruct cleanup_failed; [| by exists w2].
    destruct (reset_each_spec
                (List.filter (λ task, String.eqb (TaskConfig.status task) "failed")
                   tasks) tasks 0 w2 Hst2 Hnd)
      as (w3 & Hloop & Hst3 & _).
    { intros t [Ht _]%elem_of_List_filter. apply list_elem_of_fmap. by exists t. }
    exists w3. unfold get_failed_tasks.
    rewrite (bind_ok _ _ _ _ _ (Hby _ _ "failed" Hst2)). split; [exact Hloop |].
    erewrite list_fmap_ext; [exact Hst3 |]. intros i t Hi. cbv beta.
    by rewrite listed_ids_status by (done || by eapply list_elem_of_lookup_2). }
  assert (Hnd3 : NoDup (TaskConfig.id <$> after_reset)).
  { subst after_reset. destruct cleanup_failed; [| done].
    rewrite <- list_fmap_compose.
    erewrite list_fmap_ext; [exact Hnd |]. intros i t _. cbv [compose].
    by destruct (String.eqb _ _). }
  assert (∃ w4,
            (if cleanup_completed
             then completed_tasks <- get_tasks_by_status "completed" ;;
                  delete_each completed_tasks
             else ret ()) w3 = (Ok (), w4)
            ∧ stored after_delete w4) as (w4 & Hdelete & Hst4).
  { subst after_delete. destruct cleanup_completed; [| by exists w3].
    destruct (delete_each_spec
                (List.filter (λ task, String.eqb (TaskConfig.status task) "completed")
                   after_reset) after_reset w3 Hst3)
      as (w4 & Hloop & Hst4 & _).
    exists w4. rewrite (bind_ok _ _ _ _ _ (Hby _ _ "completed" Hst3)).
    split; [exact Hloop |].
    erewrite filter_ext_in; [exact Hst4 |]. intros t Ht%list_elem_of_In. cbv beta.
    by rewrite listed_ids_status. }
  unfold cleanup_flow.
  rewrite (bind_ok _ _ _ _ _ Hinit0), (bind_ok _ _ _ _ _ Hinit1).
  rewrite (bind_ok _ _ _ _ _ Hclean), (bind_ok _ _ _ _ _ Hreset).
  rewrite (bind_ok _ _ _ _ _ Hdelete).
  eexists _, _. split; [reflexivity |]. split; [exact Hst4 | done].
Qed.

End cleanup_coverage.

(** * Instances of the properties above *)

Section coverage_instances.

Import YamlTaskManager TaskProcessor.

Lemma two_tasks_stored : stored Samples.two_tasks Samples.two_tasks_world.
Proof. do 2 eexists. repeat split; reflexivity. Qed.

Lemma last_attempt_stored :
  stored [Samples.last_attempt_task] Samples.last_attempt_world.
Proof. do 2 eexists. repeat split; reflexivity. Qed.

(** An instance of [add_task_free_id]: the third id is free in the store
    of two tasks. *)
Lemma add_task_to_two_tasks :
  ∃ w', add_task 1 "Write docs" "Document the parser" "default" Samples.two_tasks_world
        = (Ok (Some Samples.third_task), w')
        ∧ get_task "task-003" w' = (Ok (Some Samples.third_task), w').
Proof.
  destruct (add_task_free_id 0 "Write docs" "Document the parser" "default"
              Samples.two_tasks Samples.two_tasks_world)
    as (w' & Hadd & _ & Hget).
  - exact two_tasks_stored.
  - vm_compute. reflexivity.
  - exists w'. split; [exact Hadd | exact Hget].
Defined.

(** An instance of [add_task_numbered]: the store of two tasks holds the
    first two numbers. *)
Lemma add_numbered_third_task :
  ∃ new_task w',
    add_task 1 "Write docs" "Document the parser" "default" Samples.two_tasks_world
    = (Ok (Some new_task), w')
    ∧ TaskConfig.id new_task = "task-003".
Proof.
  destruct (add_task_numbered 0 "Write docs" "Document the parser" "default"
              Samples.two_tasks Samples.two_tasks_world)
    as (new_task & w' & Hadd & Hid & _).
  - exact two_tasks_stored.
  - intros task Hin.
    apply elem_of_cons in Hin as [-> | Hin]; [exists 1%nat; split; [simpl; lia | reflexivity] |].
    apply elem_of_cons in Hin as [-> | Hin]; [exists 2%nat; split; [simpl; lia | reflexivity] |].
    by apply elem_of_nil in Hin.
  - exists new_task, w'. split; [exact Hadd | exact Hid].
Defined.

(** An instance of [new_store_first_task]: a manager where no tasks file
    exists. *)
Lemma first_task_on_fresh_world :
  ∃ w0 new_task w',
    init Samples.fresh_world = (Ok (), w0)
    ∧ add_task 1 "Write docs" "Document the parser" "default" w0
      = (Ok (Some new_task), w')
    ∧ TaskConfig.id new_task = "task-001".
Proof.
  destruct (new_store_first_task 0 "Write docs" "Document the parser" "default"
              Samples.fresh_world)
    as (w0 & new_task & w' & Hinit & _ & Hadd & Hid & _).
  - reflexivity.
  - exists w0, new_task, w'. split; [exact Hinit |]. split; [exact Hadd | exact Hid].
Defined.

(** An instance of [update_task_changes_first_only]: a new title for the
    second of two tasks. *)
Lemma retitle_second_task :
  ∃ w', update_task "task-002" [set_title "Write more tests"] Samples.two_tasks_world
        = (Ok true, w')
        ∧ stored [ Samples.task "task-001" "completed" 1 3;
                   setattr (Samples.task "task-002" "pending" 0 3)
                     (set_title "Write more tests") ] w'.
Proof.
  destruct (update_task_changes_first_only "task-002" [set_title "Write more tests"]
              [Samples.task "task-001" "completed" 1 3]
              (Samples.task "task-002" "pending" 0 3) [] Samples.two_tasks_world)
    as (w' & Hupd & Hst & _).
  - exact two_tasks_stored.
  - decide_by_computation.
  - reflexivity.
  - exists w'. split; [exact Hupd | exact Hst].
Defined.

(** An instance of [delete_task_spec]: the first of two tasks. *)
Lemma delete_first_task :
  ∃ w', delete_task "task-001" Samples.two_tasks_world = (Ok true, w')
        ∧ stored [Samples.task "task-002" "pending" 0 3] w'
        ∧ get_task "task-001" w' = (Ok None, w').
Proof.
  destruct (delete_task_spec "task-001" Samples.two_tasks Samples.two_tasks_world)
    as [Hknown _].
  - exact two_tasks_stored.
  - destruct Hknown as (w' & Hdel & Hst & Hget & _); [decide_by_computation |].
    exists w'. split; [exact Hdel |]. split; [exact Hst | exact Hget].
Defined.

(** An instance of [mark_task_running_spec]: the pending task of the
    store of two. *)
Lemma run_second_task :
  ∃ w' tasks' task,
    mark_task_running "task-002" None Samples.two_tasks_world = (Ok true, w')
    ∧ stored tasks' w'
    ∧ List.find (λ task, String.eqb (TaskConfig.id task) "task-002") tasks' = Some task
    ∧ TaskConfig.status task = "running"
    ∧ TaskConfig.attempts task = 1.
Proof.
  destruct (mark_task_running_spec "task-002" None Samples.two_tasks
              (Samples.task "task-002" "pending" 0 3) Samples.two_tasks_world)
    as (w' & tasks' & Hrun & Hst & Hfind).
  - exact two_tasks_stored.
  - reflexivity.
  - eexists w', tasks', _. split; [exact Hrun |]. split; [exact Hst |].
    split; [exact Hfind |]. split; reflexivity.
Defined.

(** An instance of [finish_task_spec]: the pending task of the store of
    two fails. *)
Lemma fail_second_task :
  ∃ w' tasks' task,
    mark_task_failed "task-002" "compile error" Samples.two_tasks_world = (Ok true, w')
    ∧ stored tasks' w'
    ∧ List.find (λ task, String.eqb (TaskConfig.id task) "task-002") tasks' = Some task
    ∧ TaskConfig.status task = "failed"
    ∧ TaskConfig.last_error task = Some "compile error"
    ∧ TaskConfig.attempts task = 0.
Proof.
  destruct (finish_task_spec "task-002" Samples.two_tasks
              (Samples.task "task-002" "pending" 0 3) Samples.two_tasks_world)
    as (_ & Hfailed & _).
  - exact two_tasks_stored.
  - reflexivity.
  - destruct (Hfailed "compile error") as (w' & tasks' & Hgo & Hst & Hfind).
    eexists w', tasks', _. split; [exact Hgo |]. split; [exact Hst |].
    split; [exact Hfind |]. repeat split; reflexivity.
Defined.

(** An instance of [unique_ids_kept]: the store of two tasks. *)
Lemma two_tasks_keep_unique_ids :
  ∃ b w' tasks',
    delete_task "task-001" Samples.two_tasks_world = (Ok b, w')
    ∧ stored tasks' w' ∧ NoDup (TaskConfig.id <$> tasks').
Proof.
  destruct (unique_ids_kept Samples.two_tasks Samples.two_tasks_world)
    as (_ & Hdelete & _).
  - exact two_tasks_stored.
  - decide_by_computation.
  - exact (Hdelete "task-001").
Defined.

(** An instance of [get_task_statistics_spec]: the store of two tasks. *)
Lemma two_tasks_statistics :
  ∃ s, get_task_statistics Samples.two_tasks_world = (Ok s, Samples.two_tasks_world)
       ∧ total s = 2%nat
       ∧ (pending s + running s + completed s + failed s + paused s ≤ total s)%nat.
Proof.
  destruct (get_task_statistics_spec Samples.two_tasks Samples.two_tasks_world
              Samples.two_tasks_world load_two_tasks)
    as (s & Hgo & Htotal & Hle & _).
  exists s. split; [exact Hgo |]. split; [exact Htotal | exact Hle].
Defined.

(** An instance of [save_tasks_keeps_other_keys]: a file with a key of
    its owner's. *)
Lemma save_keeps_owner :
  ∃ w' entries',
    save_tasks Samples.two_tasks Samples.annotated_world = (Ok (), w')
    ∧ tasks_file w' = Doc (YMap entries')
    ∧ dict_get "owner" entries' = Some (YStr "platform team").
Proof.
  destruct (save_tasks_keeps_other_keys Samples.two_tasks Samples.annotated_world
              Samples.annotated_entries
              [ ("version", YStr "1.0");
                ("last_updated", YStr "2024-12-31T00:00:00+00:00") ])
    as (w' & entries' & meta' & Hsave & Hf & _ & _ & _ & Hkeys).
  - reflexivity.
  - reflexivity.
  - exists w', entries'. split; [exact Hsave |]. split; [exact Hf |].
    rewrite (Hkeys "owner"); [reflexivity | discriminate | discriminate].
Defined.

(** An instance of [create_workspace_from_template]: a persistent
    workspace from the template [python]. *)
Lemma create_workspace_from_python_template :
  ∃ w',
    WorkspaceManager.create_workspace "task-001" (Some "python") false
      Samples.template_world
    = (Ok "workspaces/task-001", w')
    ∧ WorkspaceManager.get_workspace "task-001" w' = (Ok (Some "workspaces/task-001"), w').
Proof.
  destruct (create_workspace_from_template "task-001" "python" false
              Samples.template_world)
    as (w' & Hcreate & _ & _ & _ & _ & _ & Hget & _).
  - reflexivity.
  - discriminate.
  - decide_by_computation.
  - exists w'. split; [exact Hcreate | exact Hget].
Defined.


(** An instance of [unparsed_status_allows_run]: searches that find
    nothing, the default monitor. *)
Lemma empty_status_allows_run :
  is_Some (TokenMonitor.check_token_status (λ _, None) (λ _, None) (λ _, None)
             (λ _ _, None) (TokenMonitor.StatusExited "Welcome" "" 0)
             "2025-01-01T00:00:00+00:00").
Proof.
  destruct (unparsed_status_allows_run (λ _, None) (λ _, None) (λ _, None)
              (λ _ _, None) Samples.format_percent TokenMonitor.default
              "Welcome" "" "2025-01-01T00:00:00+00:00")
    as [_ Hsome].
  - reflexivity.
  - reflexivity.
  - decide_by_computation.
  - by apply Hsome.
Defined.

(** An instance of [process_single_task_outcome]: the last attempt fails. *)
Lemma outcome_of_failed_run :
  ∃ result w',
    process_single_task Samples.render_prompt Samples.no_session_id
      Samples.format_percent Samples.last_attempt_task TokenMonitor.default
      (Some Samples.low_usage) Samples.failed_run 300 Samples.last_attempt_world
    = (Ok result, w')
    ∧ r_status result ∈ ["paused"; "completed"; "pending"; "failed"].
Proof.
  destruct (process_single_task_outcome Samples.render_prompt Samples.no_session_id
              Samples.format_percent Samples.last_attempt_task TokenMonitor.default
              (Some Samples.low_usage) Samples.failed_run 300
              Samples.last_attempt_world [Samples.last_attempt_task]
              Samples.last_attempt_task)
    as (result & w' & _ & _ & Hrun & _ & Hstatus & _).
  - exact last_attempt_stored.
  - reflexivity.
  - exists result, w'. split; [exact Hrun | exact Hstatus].
Defined.

(** An instance of [process_single_task_completes]: the process exits
    with code 0. *)
Lemma complete_registered_task :
  ∃ result w',
    process_single_task Samples.render_prompt Samples.no_session_id
      Samples.format_percent Samples.last_attempt_task TokenMonitor.default
      (Some Samples.low_usage) Samples.successful_run 300 Samples.last_attempt_world
    = (Ok result, w')
    ∧ r_success result = true ∧ r_status result = "completed".
Proof.
  destruct (process_single_task_completes Samples.render_prompt Samples.no_session_id
              Samples.format_percent Samples.last_attempt_task TokenMonitor.default
              (Some Samples.low_usage) Samples.successful_run 300
              Samples.last_attempt_world [Samples.last_attempt_task]
              Samples.last_attempt_task
              (Samples.workspace "task-001" "workspaces/task-001" false))
    as (w' & _ & _ & Hrun & _).
  - exact last_attempt_stored.
  - reflexivity.
  - reflexivity.
  - vm_compute. reflexivity.
  - vm_compute. reflexivity.
  - eexists _, w'. split; [exact Hrun |]. split; reflexivity.
Defined.

(** An instance of [process_single_task_pauses_on_quota]: the process
    names the rate limit and a session id is found in its output. *)
Lemma pause_registered_task :
  ∃ result w',
    process_single_task Samples.render_prompt Samples.one_session_id
      Samples.format_percent Samples.last_attempt_task TokenMonitor.default
      (Some Samples.low_usage) Samples.quota_run 300 Samples.last_attempt_world
    = (Ok result, w')
    ∧ r_status result = "paused"
    ∧ r_session_id result = Some "0f8fad5b-d9cb-469f-a165-70867728950e".
Proof.
  destruct (process_single_task_pauses_on_quota Samples.render_prompt
              Samples.one_session_id Samples.format_percent Samples.last_attempt_task
              TokenMonitor.default (Some Samples.low_usage) Samples.quota_run 300
              Samples.last_attempt_world [Samples.last_attempt_task]
              Samples.last_attempt_task
              (Samples.workspace "task-001" "workspaces/task-001" false))
    as (w' & _ & _ & Hrun & _).
  - exact last_attempt_stored.
  - reflexivity.
  - reflexivity.
  - vm_compute. reflexivity.
  - vm_compute. reflexivity.
  - eexists _, w'. split; [exact Hrun |]. split; reflexivity.
Defined.

(** An instance of [process_single_task_paused_before_start]: no status
    could be read. *)
Lemma pause_without_status :
  ∃ result w' w'' task,
    process_single_task Samples.render_prompt Samples.no_session_id
      Samples.format_percent Samples.last_attempt_task TokenMonitor.default
      None Samples.failed_run 300 Samples.last_attempt_world
    = (Ok result, w')
    ∧ r_error result = Some "Could not check Claude Code token status"
    ∧ get_task "task-001" w' = (Ok (Some task), w'')
    ∧ TaskConfig.status task = "paused"
    ∧ TaskConfig.attempts task = 3.
Proof.
  destruct (process_single_task_paused_before_start Samples.render_prompt
              Samples.no_session_id Samples.format_percent Samples.last_attempt_task
              TokenMonitor.default None Samples.failed_run 300
              Samples.last_attempt_world [Samples.last_attempt_task]
              Samples.last_attempt_task)
    as (w' & tasks' & task & Hrun & Hst & Hfind & Hstatus & _ & Hattempts & _).
  - exact last_attempt_stored.
  - reflexivity.
  - reflexivity.
  - eexists _, w', w', task. split; [exact Hrun |]. split; [reflexivity |].
    split; [| split; [exact Hstatus | exact Hattempts]].
    rewrite (stored_get_task _ _ _ Hst). do 2 f_equal. exact Hfind.
Defined.

(** An instance of [process_single_task_failure_branch]: two attempts of
    three on the task object, so the task is cleared for a retry. *)
Lemma retry_after_failed_run :
  ∃ result w',
    process_single_task Samples.render_prompt Samples.no_session_id
      Samples.format_percent Samples.last_attempt_task TokenMonitor.default
      (Some Samples.low_usage) Samples.failed_run 300 Samples.last_attempt_world
    = (Ok result, w')
    ∧ r_status result = "pending"
    ∧ r_error result = Some "compile error".
Proof.
  destruct (process_single_task_failure_branch Samples.render_prompt
              Samples.no_session_id Samples.format_percent Samples.last_attempt_task
              TokenMonitor.default (Some Samples.low_usage) Samples.failed_run 300
              Samples.last_attempt_world [Samples.last_attempt_task]
              Samples.last_attempt_task
              (Samples.workspace "task-001" "workspaces/task-001" false))
    as (w' & _ & _ & Hrun & _).
  - exact last_attempt_stored.
  - reflexivity.
  - reflexivity.
  - vm_compute. reflexivity.
  - vm_compute. reflexivity.
  - vm_compute. reflexivity.
  - eexists _, w'. split; [exact Hrun |]. split; reflexivity.
Defined.

(** An instance of [process_single_task_without_workspace]: the pending
    task of the store of two, where no workspace is registered. *)
Lemma fail_without_workspace :
  ∃ result w',
    process_single_task Samples.render_prompt Samples.no_session_id
      Samples.format_percent (Samples.task "task-002" "pending" 0 3)
      TokenMonitor.default (Some Samples.low_usage) Samples.successful_run 300
      Samples.two_tasks_world
    = (Ok result, w')
    ∧ r_status result = "failed"
    ∧ r_error result = Some "name 'datetime' is not defined"
    ∧ "workspaces/task_task-002_1" ∈ dirs w'.
Proof.
  destruct (process_single_task_without_workspace Samples.render_prompt
              Samples.no_session_id Samples.format_percent
              (Samples.task "task-002" "pending" 0 3) TokenMonitor.default
              (Some Samples.low_usage) Samples.successful_run 300
              Samples.two_tasks_world Samples.two_tasks
              (Samples.task "task-002" "pending" 0 3))
    as (w' & _ & _ & Hrun & _ & _ & _ & _ & _ & _ & _ & _ & _ & Hdir).
  - exact two_tasks_stored.
  - reflexivity.
  - reflexivity.
  - vm_compute. reflexivity.
  - eexists _, w'. split; [exact Hrun |]. split; [reflexivity |].
    split; [reflexivity | exact Hdir].
Defined.

(** An instance of [process_single_task_timeout]: a timeout of 300
    seconds. *)
Lemma time_out_registered_task :
  ∃ result w',
    process_single_task Samples.render_prompt Samples.no_session_id
      Samples.format_percent Samples.last_attempt_task TokenMonitor.default
      (Some Samples.low_usage) Samples.timed_out_run 300 Samples.last_attempt_world
    = (Ok result, w')
    ∧ r_error result = Some "Execution timed out after 300 seconds"
    ∧ r_status result = "pending".
Proof.
  destruct (process_single_task_timeout Samples.render_prompt Samples.no_session_id
              Samples.format_percent Samples.last_attempt_task TokenMonitor.default
              (Some Samples.low_usage) Samples.timed_out_run 300
              Samples.last_attempt_world [Samples.last_attempt_task]
              Samples.last_attempt_task
              (Samples.workspace "task-001" "workspaces/task-001" false))
    as (w' & _ & _ & Hrun & _).
  - exact last_attempt_stored.
  - reflexivity.
  - reflexivity.
  - vm_compute. reflexivity.
  - reflexivity.
  - eexists _, w'. split; [exact Hrun |]. split; reflexivity.
Defined.

(** An instance of [get_pending_tasks_selection]: the store of two tasks
    and room for five. *)
Lemma select_from_two_tasks :
  ∃ selected,
    get_pending_tasks 5 Samples.two_tasks_world = (Ok selected, Samples.two_tasks_world)
    ∧ selected = [Samples.task "task-002" "pending" 0 3].
Proof.
  destruct (get_pending_tasks_selection 5 Samples.two_tasks Samples.two_tasks_world)
    as (selected & Hget & _ & _ & _ & Hall & _).
  - exact two_tasks_stored.
  - exists selected. split; [exact Hget |]. apply Hall. simpl. lia.
Defined.

(** An instance of [process_tasks_flow_returns]: the store of two tasks,
    no status check answering. *)
Lemma flow_on_two_tasks :
  ∃ result w' tasks',
    process_tasks_flow Samples.render_prompt Samples.no_session_id
      Samples.format_percent Samples.str_timedelta Samples.strftime 5 false 300
      Samples.no_status_inputs Samples.no_status_inputs Samples.two_tasks_world
    = (Ok result, w')
    ∧ stored tasks' w'
    ∧ TaskConfig.id <$> tasks' = ["task-001"; "task-002"]
    ∧ f_processed result = length (f_results result).
Proof.
  destruct (process_tasks_flow_returns Samples.render_prompt Samples.no_session_id
              Samples.format_percent Samples.str_timedelta Samples.strftime 5 false
              300 Samples.no_status_inputs Samples.no_status_inputs
              Samples.two_tasks Samples.two_tasks_world)
    as (result & w' & tasks' & Hrun & Hst & Hids & Hcount & _).
  - exact two_tasks_stored.
  - exists result, w', tasks'. split; [exact Hrun |]. split; [exact Hst |].
    split; [exact Hids | exact Hcount].
Defined.

(** An instance of [process_tasks_flow_aborts]: a machine without Claude
    Code. *)
Lemma flow_without_claude :
  ∃ result w',
    process_tasks_flow Samples.render_prompt Samples.no_session_id
      Samples.format_percent Samples.str_timedelta Samples.strftime 5 true 300
      Samples.unavailable_inputs Samples.unavailable_inputs Samples.two_tasks_world
    = (Ok result, w')
    ∧ f_success result = false
    ∧ f_processed result = 0%nat.
Proof.
  destruct (process_tasks_flow_aborts Samples.render_prompt Samples.no_session_id
              Samples.format_percent Samples.str_timedelta Samples.strftime 5 true
              300 Samples.unavailable_inputs Samples.unavailable_inputs
              Samples.two_tasks_world)
    as (_ & w' & _ & _ & Hrun).
  - left. reflexivity.
  - eexists _, w'. split; [exact Hrun |]. split; reflexivity.
Defined.

(** An instance of [process_tasks_flow_stops_at_pause]: the store of two
    tasks, no status check answering. *)
Lemma flow_pauses_second_task :
  ∃ result w' w'' task,
    process_tasks_flow Samples.render_prompt Samples.no_session_id
      Samples.format_percent Samples.str_timedelta Samples.strftime 5 true 300
      Samples.no_status_inputs Samples.no_status_inputs Samples.two_tasks_world
    = (Ok result, w')
    ∧ f_success result = true
    ∧ f_processed result = 1%nat
    ∧ get_task "task-002" w' = (Ok (Some task), w'')
    ∧ TaskConfig.status task = "paused"
    ∧ TaskConfig.attempts task = 1.
Proof.
  destruct (process_tasks_flow_stops_at_pause Samples.render_prompt
              Samples.no_session_id Samples.format_percent Samples.str_timedelta
              Samples.strftime 5 true 300 Samples.no_status_inputs
              Samples.no_status_inputs Samples.two_tasks Samples.two_tasks_world
              (Samples.task "task-002" "pending" 0 3) []
              (Samples.task "task-002" "pending" 0 3))
    as (w' & tasks' & task & cleanup_count & timestamp & Hrun & Hst & Hfind
        & Hstatus & Hattempts & _).
  - exact two_tasks_stored.
  - reflexivity.
  - reflexivity.
  - reflexivity.
  - reflexivity.
  - reflexivity.
  - eexists _, w', w', task. split; [exact Hrun |]. split; [reflexivity |].
    split; [reflexivity |]. split; [| split; [exact Hstatus | exact Hattempts]].
    rewrite (stored_get_task _ _ _ Hst). do 2 f_equal. exact Hfind.
Defined.

(** An instance of [cleanup_flow_spec]: the store of three tasks, both
    cleanups asked for. *)
Lemma cleanup_mixed_store :
  ∃ result w',
    cleanup_flow true true Samples.mixed_world = (Ok result, w')
    ∧ stored [ as_reset (Samples.task "task-002" "failed" 3 3);
               Samples.task "task-003" "pending" 0 3 ] w'
    ∧ reset_tasks result = 1%nat.
Proof.
  destruct (cleanup_flow_spec true true Samples.mixed_tasks Samples.mixed_world)
    as (result & w' & Hrun & Hst & Hcount).
  - do 2 eexists. repeat split; reflexivity.
  - decide_by_computation.
  - exists result, w'. split; [exact Hrun |]. split; [exact Hst | exact Hcount].
Defined.

End coverage_instances.
